(** * Student data management: records, lookup seeding, reports and wizards

    A shallow embedding of the Odoo module [std_data_management]:
    - [models/stud.py]: the [student], [education], [department],
      [institute] and [degree] models, the stored computed field
      [percentage], the archive / restore actions and the lookup seeding;
    - [reports/report.py]: the department report and the single student
      report (row building, grouping, HTML synthesis, PDF step, attachment);
    - [wizard/student_report_wizard.py] and
      [wizard/student_email_wizard.py]: the two transient wizards.

    Python values are modelled as the interpreter has them: an Odoo [Float]
    is an IEEE binary64 number ([PrimFloat.float]), an Odoo [Integer] is a
    Python [int] ([Z]), a [Char] is a string or [False] ([option string]),
    an exception is a value of [exn] carried by the [result] type. *)

From Stdlib Require Import ZArith List String Ascii Bool Lia.
From Stdlib Require Import Permutation Sorted.
From Stdlib Require Import DecimalString.
From Stdlib Require Import Floats.
Import ListNotations.

Local Open Scope string_scope.
Local Open Scope Z_scope.

(* ------------------------------------------------------------------ *)
(** ** Python built-ins used by the module *)
(* ------------------------------------------------------------------ *)

Module Py.

(** Exceptions the module raises or lets through. *)
Inductive exn : Type :=
| UserError (msg : string)          (* odoo.exceptions.UserError *)
| ValueError (msg : string)         (* ensure_one on a wrong recordset *)
| MissingError (msg : string)       (* field read on a record that is gone *)
| KeyError (key : string)           (* row[column] on an absent column *)
| OverflowError (msg : string)      (* int(inf), float(huge int) *)
| Exception (msg : string).         (* anything the PDF engine throws *)

(** [str(e)] of an exception. *)
Definition exn_str (e : exn) : string :=
  match e with
  | UserError m | ValueError m | MissingError m
  | OverflowError m | Exception m => m
  | KeyError k => "'" ++ k ++ "'"
  end.

Inductive result (A : Type) : Type :=
| Ok (a : A)
| Raise (e : exn).
Arguments Ok {A} a.
Arguments Raise {A} e.

Definition rbind {A B} (r : result A) (k : A -> result B) : result B :=
  match r with
  | Ok a => k a
  | Raise e => Raise e
  end.

(** [str(int)]. *)
Definition str_int (z : Z) : string := NilZero.string_of_int (Z.to_int z).

(** The double quote character, for HTML attributes. *)
Definition dquote : string := String (ascii_of_nat 34) EmptyString.

(** [s.replace(a, b)] for single characters. *)
Fixpoint replace_char (a b : ascii) (s : string) : string :=
  match s with
  | EmptyString => EmptyString
  | String c r => String (if Ascii.eqb c a then b else c) (replace_char a b r)
  end.

(** [c in s] for a single character. *)
Fixpoint contains_char (c : ascii) (s : string) : bool :=
  match s with
  | EmptyString => false
  | String d r => Ascii.eqb c d || contains_char c r
  end.

(** [needle in hay] for strings. *)
Fixpoint contains (needle hay : string) : bool :=
  String.prefix needle hay ||
  match hay with
  | EmptyString => false
  | String _ r => contains needle r
  end.

(** *** Floats *)

(** The magnitude and sign of a finite float, as mantissa and binary
    exponent: the float is [(-1)^s * m * 2^e]. *)
Definition signed (s : bool) (m : Z) : Z := if s then - m else m.

(** [int(x)] for a float: truncation toward zero; [OverflowError] on an
    infinity and [ValueError] on a NaN. *)
Definition int_of_float (x : float) : result Z :=
  match Prim2SF x with
  | S754_nan => Raise (ValueError "cannot convert float NaN to integer")
  | S754_infinity _ =>
      Raise (OverflowError "cannot convert float infinity to integer")
  | S754_zero _ => Ok 0
  | S754_finite s m e =>
      Ok (signed s (if 0 <=? e then Zpos m * 2 ^ e else Zpos m / 2 ^ (- e)))
  end.

(** [x == z] for a float and an int: Python compares the exact values. *)
Definition float_eq_int (x : float) (z : Z) : bool :=
  match Prim2SF x with
  | S754_nan | S754_infinity _ => false
  | S754_zero _ => z =? 0
  | S754_finite s m e =>
      if 0 <=? e then signed s (Zpos m * 2 ^ e) =? z
      else signed s (Zpos m) =? z * 2 ^ (- e)
  end.

(** [float(z)] for an int: the nearest double, ties to even;
    [OverflowError] when the int is too large. *)
Definition float_of_int (z : Z) : result float :=
  let f := SF2Prim (binary_normalize prec emax z 0 false) in
  if is_infinity f
  then Raise (OverflowError "int too large to convert to float")
  else Ok f.

(** Rounding [n / 2^k] to the nearest integer, ties to even ([n >= 0]). *)
Definition round_half_even_shift (n : Z) (k : Z) : Z :=
  let q := n / 2 ^ k in
  let r := n mod 2 ^ k in
  match (2 * r) ?= 2 ^ k with
  | Lt => q
  | Gt => q + 1
  | Eq => if Z.even q then q else q + 1
  end.

(** The digits of [n] (non-negative) with a decimal point before the last
    [d] digits, the integer part at least one digit long. *)
Definition point_digits (d : nat) (n : Z) : string :=
  let ip := str_int (n / 10 ^ Z.of_nat d) in
  match d with
  | O => ip
  | _ =>
      let fp := str_int (n mod 10 ^ Z.of_nat d) in
      let pad := String.concat "" (repeat "0" (d - String.length fp)) in
      ip ++ "." ++ pad ++ fp
  end.

(** [format(x, '.<d>f')]: fixed notation with [d] decimals, the exact
    binary value rounded to nearest, ties to even. *)
Definition format_fixed (d : nat) (x : float) : string :=
  match Prim2SF x with
  | S754_nan => "nan"
  | S754_infinity s => if s then "-inf" else "inf"
  | S754_zero s => (if s then "-" else "") ++ point_digits d 0
  | S754_finite s m e =>
      let n := Zpos m * 10 ^ Z.of_nat d in
      let r := if 0 <=? e then n * 2 ^ e else round_half_even_shift n (- e) in
      (if s then "-" else "") ++ point_digits d r
  end.

(** Truthiness of a float: false exactly on [0.0] and [-0.0]. *)
Definition float_truthy (x : float) : bool := negb (PrimFloat.eqb x 0%float).

End Py.
Import Py.

(* ------------------------------------------------------------------ *)
(** ** The persisted models ([models/stud.py]) *)
(* ------------------------------------------------------------------ *)

(** A lookup row: the [department], [institute] and [degree] models all
    declare the single field [name] (a required [Char]). *)
Module Lookup.
Record t : Type := { id : Z; name : string }.
End Lookup.

Module Gender.
Inductive t : Type := male | female.

(** The labels of the [Selection] field. *)
Definition selection : list (t * string) :=
  [(male, "Male"); (female, "Female")].

Definition eqb (a b : t) : bool :=
  match a, b with
  | male, male | female, female => true
  | _, _ => false
  end.
End Gender.

Module Education.
Record t : Type := {
  id : Z;
  active : bool;
  connecting_field : Z;          (* Many2one student, required *)
  institute : option Z;          (* Many2one institute *)
  degree : option Z;             (* Many2one degree *)
  passing_year : Z
}.
End Education.

Module Attachment.
Record t : Type := {
  id : Z;
  name : string;
  type : string;
  datas : string;
  mimetype : string;
  res_model : string;
  res_id : Z
}.
End Attachment.

Module Student.

Record t : Type := {
  id : Z;
  active : bool;
  name : string;
  father_name : option string;
  age : Z;
  grade : option string;
  address : option string;
  department_id : option Z;      (* Many2one department *)
  total_marks : float;
  obtained_marks : float;
  percentage : float;            (* compute='compute_percentage', store=True *)
  gender : option Gender.t
}.

(** Field assignment, one function per declared field. *)
Definition with_active (b : bool) (r : t) : t :=
  {| id := id r; active := b; name := name r; father_name := father_name r;
     age := age r; grade := grade r; address := address r;
     department_id := department_id r; total_marks := total_marks r;
     obtained_marks := obtained_marks r; percentage := percentage r;
     gender := gender r |}.

Definition with_name (v : string) (r : t) : t :=
  {| id := id r; active := active r; name := v; father_name := father_name r;
     age := age r; grade := grade r; address := address r;
     department_id := department_id r; total_marks := total_marks r;
     obtained_marks := obtained_marks r; percentage := percentage r;
     gender := gender r |}.

Definition with_father_name (v : option string) (r : t) : t :=
  {| id := id r; active := active r; name := name r; father_name := v;
     age := age r; grade := grade r; address := address r;
     department_id := department_id r; total_marks := total_marks r;
     obtained_marks := obtained_marks r; percentage := percentage r;
     gender := gender r |}.

Definition with_age (v : Z) (r : t) : t :=
  {| id := id r; active := active r; name := name r;
     father_name := father_name r; age := v; grade := grade r;
     address := address r; department_id := department_id r;
     total_marks := total_marks r; obtained_marks := obtained_marks r;
     percentage := percentage r; gender := gender r |}.

Definition with_grade (v : option string) (r : t) : t :=
  {| id := id r; active := active r; name := name r;
     father_name := father_name r; age := age r; grade := v;
     address := address r; department_id := department_id r;
     total_marks := total_marks r; obtained_marks := obtained_marks r;
     percentage := percentage r; gender := gender r |}.

Definition with_address (v : option string) (r : t) : t :=
  {| id := id r; active := active r; name := name r;
     father_name := father_name r; age := age r; grade := grade r;
     address := v; department_id := department_id r;
     total_marks := total_marks r; obtained_marks := obtained_marks r;
     percentage := percentage r; gender := gender r |}.

Definition with_department_id (v : option Z) (r : t) : t :=
  {| id := id r; active := active r; name := name r;
     father_name := father_name r; age := age r; grade := grade r;
     address := address r; department_id := v;
     total_marks := total_marks r; obtained_marks := obtained_marks r;
     percentage := percentage r; gender := gender r |}.

Definition with_total_marks (v : float) (r : t) : t :=
  {| id := id r; active := active r; name := name r;
     father_name := father_name r; age := age r; grade := grade r;
     address := address r; department_id := department_id r;
     total_marks := v; obtained_marks := obtained_marks r;
     percentage := percentage r; gender := gender r |}.

Definition with_obtained_marks (v : float) (r : t) : t :=
  {| id := id r; active := active r; name := name r;
     father_name := father_name r; age := age r; grade := grade r;
     address := address r; department_id := department_id r;
     total_marks := total_marks r; obtained_marks := v;
     percentage := percentage r; gender := gender r |}.

Definition with_percentage (v : float) (r : t) : t :=
  {| id := id r; active := active r; name := name r;
     father_name := father_name r; age := age r; grade := grade r;
     address := address r; department_id := department_id r;
     total_marks := total_marks r; obtained_marks := obtained_marks r;
     percentage := v; gender := gender r |}.

Definition with_gender (v : option Gender.t) (r : t) : t :=
  {| id := id r; active := active r; name := name r;
     father_name := father_name r; age := age r; grade := grade r;
     address := address r; department_id := department_id r;
     total_marks := total_marks r; obtained_marks := obtained_marks r;
     percentage := percentage r; gender := v |}.

(** [compute_percentage], the body of the loop for one record. *)
Definition compute_percentage1 (record : t) : t :=
  if (0 <? total_marks record)%float
  then with_percentage
         (obtained_marks record / total_marks record * 100)%float record
  else with_percentage 0%float record.

(** [compute_percentage] over a recordset. *)
Definition compute_percentage (self : list t) : list t :=
  map compute_percentage1 self.

(** The names given to [@api.depends] on [compute_percentage]. *)
Definition depends : list string := ["total_marks"; "obtained_marks"].

(** One entry of the [vals] of a [create] or [write]: a declared field and
    its new value.  [percentage] is among them: being computed makes it
    read-only on the form, but the ORM stores a value given for it, and the
    model adds no guard.  [id] is assigned by [create] alone. *)
Inductive assignment : Type :=
| set_active (v : bool)
| set_name (v : string)
| set_father_name (v : option string)
| set_age (v : Z)
| set_grade (v : option string)
| set_address (v : option string)
| set_department_id (v : option Z)
| set_total_marks (v : float)
| set_obtained_marks (v : float)
| set_percentage (v : float)
| set_gender (v : option Gender.t).

Definition field_name (a : assignment) : string :=
  match a with
  | set_active _ => "active"
  | set_name _ => "name"
  | set_father_name _ => "father_name"
  | set_age _ => "age"
  | set_grade _ => "grade"
  | set_address _ => "address"
  | set_department_id _ => "department_id"
  | set_total_marks _ => "total_marks"
  | set_obtained_marks _ => "obtained_marks"
  | set_percentage _ => "percentage"
  | set_gender _ => "gender"
  end.

Definition assign (r : t) (a : assignment) : t :=
  match a with
  | set_active v => with_active v r
  | set_name v => with_name v r
  | set_father_name v => with_father_name v r
  | set_age v => with_age v r
  | set_grade v => with_grade v r
  | set_address v => with_address v r
  | set_department_id v => with_department_id v r
  | set_total_marks v => with_total_marks v r
  | set_obtained_marks v => with_obtained_marks v r
  | set_percentage v => with_percentage v r
  | set_gender v => with_gender v r
  end.

(** Whether a [vals] touches a dependency of [percentage]. *)
Definition triggers (vals : list assignment) : bool :=
  existsb (fun a => existsb (String.eqb (field_name a)) depends) vals.

(** Whether a [vals] gives a value for [percentage] itself. *)
Definition gives_percentage (vals : list assignment) : bool :=
  existsb (fun a => String.eqb (field_name a) "percentage") vals.

(** [write(vals)] on the records of a recordset: the fields are assigned on
    every record; then the records go through [compute_percentage] when a
    dependency of [percentage] was written and [percentage] itself was not
    (a field that is being written is protected from recomputation). *)
Definition write (vals : list assignment) (self : list t) : list t :=
  let assigned := map (fun r => fold_left assign vals r) self in
  if triggers vals && negb (gives_percentage vals)
  then compute_percentage assigned
  else assigned.

(** The stored computed field of new records: computed, unless [vals]
    gives it. *)
Definition computed_on_create (vals : list assignment) (self : list t) : list t :=
  if gives_percentage vals then self else compute_percentage self.

End Student.

(* ------------------------------------------------------------------ *)
(** ** The environment: one table per model, rows in id order *)
(* ------------------------------------------------------------------ *)

Record Env : Type := {
  students : list Student.t;
  educations : list Education.t;
  departments : list Lookup.t;
  institutes : list Lookup.t;
  degrees : list Lookup.t;
  attachments : list Attachment.t
}.

Definition with_students (v : list Student.t) (env : Env) : Env :=
  {| students := v; educations := educations env;
     departments := departments env; institutes := institutes env;
     degrees := degrees env; attachments := attachments env |}.

Definition with_attachments (v : list Attachment.t) (env : Env) : Env :=
  {| students := students env; educations := educations env;
     departments := departments env; institutes := institutes env;
     degrees := degrees env; attachments := v |}.

Definition with_departments (v : list Lookup.t) (env : Env) : Env :=
  {| students := students env; educations := educations env;
     departments := v; institutes := institutes env;
     degrees := degrees env; attachments := attachments env |}.

Definition with_institutes (v : list Lookup.t) (env : Env) : Env :=
  {| students := students env; educations := educations env;
     departments := departments env; institutes := v;
     degrees := degrees env; attachments := attachments env |}.

Definition with_degrees (v : list Lookup.t) (env : Env) : Env :=
  {| students := students env; educations := educations env;
     departments := departments env; institutes := institutes env;
     degrees := v; attachments := attachments env |}.

(** The id a [create] hands out: one past the largest id of the table. *)
Definition fresh_id {R : Type} (id : R -> Z) (rows : list R) : Z :=
  1 + fold_right (fun r m => Z.max (id r) m) 0 rows.

(** A method runs against the environment and returns or raises; what it
    wrote before raising stays written. *)
Definition M (A : Type) : Type := Env -> result A * Env.

Definition ret {A} (a : A) : M A := fun env => (Ok a, env).
Definition raise {A} (e : exn) : M A := fun env => (Raise e, env).
Definition bind {A B} (m : M A) (k : A -> M B) : M B :=
  fun env =>
    match m env with
    | (Ok a, env') => k a env'
    | (Raise e, env') => (Raise e, env')
    end.
Definition get : M Env := fun env => (Ok env, env).
Definition put (env' : Env) : M unit := fun _ => (Ok tt, env').
Definition lift {A} (r : result A) : M A := fun env => (r, env).

Notation "x <- m ;; k" := (bind m (fun x => k))
  (at level 61, m at next level, right associativity).
Notation "m ;;; k" := (bind m (fun _ => k))
  (at level 61, right associativity).

(** What a method hands back to the web client. *)
Inductive action : Type :=
| display_notification
    (title message type : string) (sticky : bool) (next_close : bool)
| act_url (url target : string)
| act_window
    (name res_model : string)
    (default_report_type : string)
    (default_student_id : Z)
    (default_department_id : option Z)
    (default_email_to : option string).

(** [repr] of a recordset, as [ensure_one] prints it: [student(1, 2)]. *)
Definition recordset_repr (model : string) (ids : list Z) : string :=
  model ++ "(" ++ String.concat ", " (map str_int ids) ++ ")".

(** [self.ensure_one()]. *)
Definition ensure_one (model : string) (self : list Z) : M Z :=
  match self with
  | [i] => ret i
  | _ => raise (ValueError ("Expected singleton: " ++ recordset_repr model self))
  end.

Module Students.

(** [browse(i)] followed by a field read: the record, or [MissingError]. *)
Definition read (i : Z) : M Student.t :=
  env <- get ;;
  match find (fun r => Student.id r =? i) (students env) with
  | Some r => ret r
  | None => raise (MissingError "Record does not exist or has been deleted.")
  end.

(** The rows of a table with those picked by [member] replaced, in place
    and in order, by the records of [written]. *)
Fixpoint put_back (member : Student.t -> bool) (rows written : list Student.t)
  : list Student.t :=
  match rows with
  | [] => []
  | r :: rest =>
      if member r then
        match written with
        | w :: ws => w :: put_back member rest ws
        | [] => r :: put_back member rest []
        end
      else r :: put_back member rest written
  end.

(** [self.write(vals)] on the recordset [self]. *)
Definition write (self : list Z) (vals : list Student.assignment) : M unit :=
  env <- get ;;
  if forallb (fun i => existsb (fun r => Student.id r =? i) (students env)) self
  then
    let member := fun r => existsb (Z.eqb (Student.id r)) self in
    put (with_students
           (put_back member (students env)
              (Student.write vals (filter member (students env)))) env)
  else raise (MissingError "Record does not exist or has been deleted.").

(** The fields declared [required=True]. *)
Definition required : list string :=
  ["name"; "age"; "department_id"; "total_marks"; "obtained_marks"].

(** A record before any field is assigned: [active] defaults to [True],
    everything else is unset. *)
Definition blank (i : Z) : Student.t :=
  {| Student.id := i; Student.active := true; Student.name := "";
     Student.father_name := None; Student.age := 0; Student.grade := None;
     Student.address := None; Student.department_id := None;
     Student.total_marks := 0%float; Student.obtained_marks := 0%float;
     Student.percentage := 0%float; Student.gender := None |}.

(** [create(vals)]: the required fields must be given; the stored computed
    field is computed before the row is inserted, unless [vals] gives it. *)
Definition create (vals : list Student.assignment) : M Z :=
  env <- get ;;
  if forallb (fun f => existsb (fun a => String.eqb (Student.field_name a) f) vals)
             required
  then
    let i := fresh_id Student.id (students env) in
    let new := Student.computed_on_create vals
                 [fold_left Student.assign vals (blank i)] in
    put (with_students (students env ++ new) env) ;;;
    ret i
  else raise (Exception "Missing required value for a field of student").

(** [action_save_record]: the success popup. *)
Definition action_save_record (self : list Z) : M action :=
  _ <- ensure_one "student" self ;;
  ret (display_notification
         "Saved!" "Student record has been saved successfully."
         "success" false false).

(** [action_delete_record]: archive (deactivate) the record. *)
Definition action_delete_record (self : list Z) : M action :=
  i <- ensure_one "student" self ;;
  write [i] [Student.set_active false] ;;;
  r <- read i ;;
  ret (display_notification
         "Archived!"
         ("Student " ++ Student.name r ++ " has been archived.")
         "warning" false false).

(** [action_restore_record]: restore the archived record. *)
Definition action_restore_record (self : list Z) : M action :=
  i <- ensure_one "student" self ;;
  write [i] [Student.set_active true] ;;;
  r <- read i ;;
  ret (display_notification
         "Restored!"
         ("Student " ++ Student.name r ++ " has been restored.")
         "success" false false).

(** [action_open_report_choice]: open the report wizard, prefilled. *)
Definition action_open_report_choice (self : list Z) : M action :=
  i <- ensure_one "student" self ;;
  r <- read i ;;
  ret (act_window "Generate Report" "student.report.wizard"
         "single" (Student.id r) (Student.department_id r) None).

(** [action_open_send_email_wizard]: the context takes [self.id] and
    reads no field; the student model declares no [email] field, so
    [getattr(self, 'email', '')] is the empty string. *)
Definition action_open_send_email_wizard (self : list Z) : M action :=
  i <- ensure_one "student" self ;;
  ret (act_window "" "student.email.wizard" "single" i None (Some "")).

End Students.

(* ------------------------------------------------------------------ *)
(** ** Lookup seeding ([Department.init], [Institute.init], [Degree.init]) *)
(* ------------------------------------------------------------------ *)

Module Seed.

(** The ORM calls a seeding run issues, in order. *)
Inductive event : Type :=
| Searched (name : string)
| Created (name : string).

(** [self.search([('name', '=', name)], limit=1)]. *)
Definition search_name (rows : list Lookup.t) (name : string) : list Lookup.t :=
  firstn 1 (filter (fun r => String.eqb (Lookup.name r) name) rows).

(** [self.create({'name': name})]. *)
Definition create (rows : list Lookup.t) (name : string) : list Lookup.t :=
  (rows ++ [{| Lookup.id := fresh_id Lookup.id rows; Lookup.name := name |}])%list.

(** One turn of the [for name in ..._names] loop, with the calls it makes. *)
Definition init_step (st : list Lookup.t * list event) (name : string)
  : list Lookup.t * list event :=
  let (rows, log) := st in
  match search_name rows name with
  | [] => (create rows name, (log ++ [Searched name; Created name])%list)
  | _ :: _ => (rows, (log ++ [Searched name])%list)
  end.

Definition init_loop (names : list string) (rows : list Lookup.t)
  : list Lookup.t * list event :=
  fold_left init_step names (rows, []).

Definition department_names : list string :=
  ["MATH"; "BSCS"; "PHYSICS"; "BBA"; "COMMERCE"; "ALL"].
Definition institute_names : list string :=
  ["Superior"; "Aspire"; "Degree"; "GUCF"; "Punjab"].
Definition degree_names : list string :=
  ["Matric"; "FSc"; "BSc"; "MPhil"].

End Seed.

Module Department.
Definition init : M unit :=
  env <- get ;;
  put (with_departments
         (fst (Seed.init_loop Seed.department_names (departments env))) env).
End Department.

Module Institute.
Definition init : M unit :=
  env <- get ;;
  put (with_institutes
         (fst (Seed.init_loop Seed.institute_names (institutes env))) env).
End Institute.

Module Degree.
Definition init : M unit :=
  env <- get ;;
  put (with_degrees
         (fst (Seed.init_loop Seed.degree_names (degrees env))) env).
End Degree.

(** Module initialisation runs the three [init] hooks. *)
Definition init_all : M unit :=
  Department.init ;;; Institute.init ;;; Degree.init.

(* ------------------------------------------------------------------ *)
(** ** The report generator ([reports/report.py]) *)
(* ------------------------------------------------------------------ *)

Module Report.

(** A value held by a row of a data frame. *)
Inductive cell : Type :=
| CNone
| CStr (s : string)
| CInt (z : Z)
| CFloat (f : float).

(** A row is the dict the code builds, keyed by column name. *)
Definition row : Type := list (string * cell).
Definition DataFrame : Type := list row.

Fixpoint row_get (r : row) (column_name : string) : option cell :=
  match r with
  | [] => None
  | (k, v) :: rest => if String.eqb k column_name then Some v else row_get rest column_name
  end.

(** What [pisa.CreatePDF] reports: an error count, and the bytes written
    to [dest]. *)
Record pisa_status : Type := { err : Z; dest : string }.

(** The collaborators of the report generator: the PDF engine, base64,
    and the conversions between floats and text of the interpreter. *)
Class Host : Type := {
  CreatePDF : string -> result pisa_status;
  b64encode : string -> string;
  float_str : float -> string;              (* str(x) *)
  float_of_str : string -> option float     (* float(s); None: ValueError *)
}.

Notation "x <-- r ;; k" := (rbind r (fun x => k))
  (at level 61, r at next level, right associativity).

(** [v or d] for a [Char] field. *)
Definition char_or (v : option string) (d : string) : string :=
  match v with
  | Some (String c s) => String c s
  | _ => d
  end.

(** [name or d] for a required [Char] field. *)
Definition str_or (v : string) (d : string) : string :=
  match v with
  | EmptyString => d
  | _ => v
  end.

(** [rec.name if rec else d] for a [Many2one] into a lookup table. *)
Definition lookup_name (table : list Lookup.t) (ref : option Z) (d : string)
  : result string :=
  match ref with
  | None => Ok d
  | Some i =>
      match find (fun r => Lookup.id r =? i) table with
      | Some r => Ok (Lookup.name r)
      | None => Raise (MissingError "Record does not exist or has been deleted.")
      end
  end.

Definition STANDARD_COLUMNS : list string :=
  ["Name"; "Father Name"; "Age"; "Grade"; "Total Marks"; "Obtained Marks";
   "Percentage"].

(** [pd.isna(value)]. *)
Definition isna (value : cell) : bool :=
  match value with
  | CNone => true
  | CFloat f => is_nan f
  | _ => false
  end.

Definition is_none (value : cell) : bool :=
  match value with CNone => true | _ => false end.

(** [value == '']. *)
Definition eq_empty (value : cell) : bool :=
  match value with CStr EmptyString => true | _ => false end.

Section WithHost.
Context {host : Host}.

(** [str(value)]. *)
Definition str (value : cell) : string :=
  match value with
  | CNone => "None"
  | CStr s => s
  | CInt z => str_int z
  | CFloat f => float_str f
  end.

(** [_format_cell_value(row, column_name)]. *)
Definition _format_cell_value (r : row) (column_name : string) : result string :=
  match row_get r column_name with
  | None => Raise (KeyError column_name)
  | Some value =>
      if isna value || is_none value || eq_empty value then Ok "-"
      else if String.eqb column_name "Percentage" then
        match value with
        | CInt z => f <-- float_of_int z ;; Ok (format_fixed 2 f ++ "%")
        | CFloat f => Ok (format_fixed 2 f ++ "%")
        | CStr s =>
            if negb (contains_char "%" s) then
              match float_of_str s with
              | Some f => Ok (format_fixed 2 f ++ "%")
              | None => Ok (str value)
              end
            else Ok (str value)
        | CNone => Ok (str value)
        end
      else if existsb (String.eqb column_name)
                      ["Age"; "Total Marks"; "Obtained Marks"] then
        match value with
        | CInt z =>
            f <-- float_of_int z ;;
            Ok (if negb (float_eq_int f z) then format_fixed 1 f else str_int z)
        | CFloat f =>
            match int_of_float f with
            | Ok i =>
                Ok (if negb (float_eq_int f i) then format_fixed 1 f else str_int i)
            | Raise (ValueError _) => Ok (str value)
            | Raise e => Raise e
            end
        | _ => Ok (str value)
        end
      else Ok (str value)
  end.

(** The dict appended to [data] for one student. *)
Definition student_row (env : Env) (s : Student.t) : result row :=
  department <-- lookup_name (departments env) (Student.department_id s)
                   "No Department" ;;
  Ok [ ("Department", CStr department);
       ("Name", CStr (str_or (Student.name s) ""));
       ("Father Name", CStr (char_or (Student.father_name s) ""));
       ("Age", if Student.age s =? 0 then CStr "" else CInt (Student.age s));
       ("Grade", CStr (char_or (Student.grade s) ""));
       ("Total Marks",
        if float_truthy (Student.total_marks s)
        then CFloat (Student.total_marks s) else CStr "");
       ("Obtained Marks",
        if float_truthy (Student.obtained_marks s)
        then CFloat (Student.obtained_marks s) else CStr "");
       ("Percentage",
        CFloat (if float_truthy (Student.percentage s)
                then Student.percentage s else 0%float)) ].

Fixpoint build_data (env : Env) (students : list Student.t) : result DataFrame :=
  match students with
  | [] => Ok []
  | s :: rest =>
      r <-- student_row env s ;;
      rs <-- build_data env rest ;;
      Ok (r :: rs)
  end.

(** The value of the [Department] column of a row (a string, by
    [student_row]). *)
Definition department_of (r : row) : string :=
  match row_get r "Department" with
  | Some (CStr s) => s
  | _ => ""
  end.

(** [df.groupby('Department')]: the distinct keys in increasing order, each
    with its rows in their original order. *)
Fixpoint insert_key (k : string) (keys : list string) : list string :=
  match keys with
  | [] => [k]
  | h :: t =>
      match String.compare k h with
      | Lt => k :: h :: t
      | Eq => h :: t
      | Gt => h :: insert_key k t
      end
  end.

Definition group_keys (df : DataFrame) : list string :=
  fold_left (fun keys r => insert_key (department_of r) keys) df [].

Definition groupby (df : DataFrame) : list (string * DataFrame) :=
  map (fun k => (k, filter (fun r => String.eqb (department_of r) k) df))
      (group_keys df).

(** The opening of the document, up to the report title. *)
Definition department_head (dept_name : string) : string :=
  "
        <html>
        <head>
            <style>
                body {
                    font-family: Arial, sans-serif;
                    padding: 20px;
                }
                .report-title {
                    text-align: center;
                    font-size: 22px;
                    font-weight: bold;
                    margin-bottom: 15px;
                    color: #2a2a2a;
                }
                .department-title {
                    background-color: #555;
                    color: white;
                    padding: 8px;
                    font-size: 16px;
                    border-radius: 4px;
                    margin-top: 20px;
                    margin-bottom: 10px;
                }
                .student-table {
                    width: 100%;
                    border-collapse: collapse;
                    margin-bottom: 20px;
                }
                .student-table th, .student-table td {
                    border: 1px solid #bbb;
                    padding: 8px;
                    text-align: center;
                    font-size: 12px;
                    min-width: 80px;
                }
                .student-table th {
                    background-color: #333;
                    color: white;
                    font-weight: bold;
                }
                .student-table td {
                    background-color: #f9f9f9;
                }
                .no-data {
                    text-align: center;
                    color: #666;
                    font-style: italic;
                    padding: 20px;
                    background-color: #f0f0f0;
                    border: 1px solid #ddd;
                }
                .empty-row td {
                    background-color: #fff;
                    color: #999;
                    font-style: italic;
                }
            </style>
        </head>
        <body>
            <div class=" ++ dquote ++ "report-title" ++ dquote ++ ">Department Report - " ++ dept_name ++ "</div>
        ".

(** [for col in STANDARD_COLUMNS: html += f"<th>{col}</th>"]. *)
Definition header_cells (columns : list string) (html : string) : string :=
  fold_left (fun html col => html ++ "<th>" ++ col ++ "</th>") columns html.

Definition colspan (columns : list string) : string :=
  str_int (Z.of_nat (List.length columns)).

(** The placeholder row of a report without any student. *)
Definition no_records_row : string :=
  "
            <tr class='empty-row'>
                <td colspan='" ++ colspan STANDARD_COLUMNS ++ "' class='no-data'>
                    No student records found for this department
                </td>
            </tr>
            ".

(** The placeholder row of an empty group. *)
Definition no_students_row : string :=
  "
                    <tr class='empty-row'>
                        <td colspan='" ++ colspan STANDARD_COLUMNS ++ "' class='no-data'>
                            No students in this department
                        </td>
                    </tr>
                    ".

(** The cells of one data row. *)
Fixpoint cells_html (r : row) (columns : list string) (html : string)
  : result string :=
  match columns with
  | [] => Ok html
  | col :: rest =>
      value <-- _format_cell_value r col ;;
      cells_html r rest (html ++ "<td>" ++ value ++ "</td>")
  end.

(** [for _, row in group.iterrows(): ...]. *)
Fixpoint rows_html (group : DataFrame) (html : string) : result string :=
  match group with
  | [] => Ok html
  | r :: rest =>
      html <-- cells_html r STANDARD_COLUMNS (html ++ "<tr>") ;;
      rows_html rest (html ++ "</tr>")
  end.

(** One turn of [for dept_name, group in df.groupby('Department')]: the loop
    variable is the function's [dept_name], so the state carried from turn
    to turn is the pair of [html] and [dept_name]. *)
Definition group_html (st : string * string) (g : string * DataFrame)
  : result (string * string) :=
  let (html, _) := st in
  let (dept_name, group) := g in
  let html := html ++ "<div class='department-title'>Department: " ++ dept_name ++ "</div>" in
  let html := html ++ "<table class='student-table'><tr>" in
  let html := header_cells STANDARD_COLUMNS html in
  let html := html ++ "</tr>" in
  html <-- match group with
           | [] => Ok (html ++ no_students_row)
           | _ :: _ => rows_html group html
           end ;;
  Ok (html ++ "</table>", dept_name).

Fixpoint groups_html (groups : list (string * DataFrame)) (st : string * string)
  : result (string * string) :=
  match groups with
  | [] => Ok st
  | g :: rest => st' <-- group_html st g ;; groups_html rest st'
  end.

(** Truthiness of the [department_id] argument. *)
Definition arg_id (department_id : option Z) : option Z :=
  match department_id with
  | Some 0 | None => None
  | Some i => Some i
  end.

(** Steps 1 to 6 of [print_department_report]: the HTML document and the
    value of [dept_name] when the PDF step starts. *)
Definition department_report_html (env : Env) (department_id : option Z)
  : result (string * string) :=
  (* 1: department(s) *)
  sel <-- match arg_id department_id with
          | None => Ok (departments env, "ALL")
          | Some i =>
              name <-- lookup_name (departments env) (Some i) "" ;;
              Ok (filter (fun d => Lookup.id d =? i) (departments env),
                  str_or name "ALL")
          end ;;
  let (departments, dept_name) := sel : list Lookup.t * string in
  match departments with
  | [] => Raise (UserError "No departments found.")
  | _ :: _ =>
      (* 2: students, archived ones left out by the default search *)
      let students :=
        if String.eqb dept_name "ALL"
        then filter Student.active (students env)
        else filter (fun s => Student.active s &&
                              match Student.department_id s, department_id with
                              | Some d, Some i => d =? i
                              | _, _ => false
                              end) (students env) in
      (* 4: data frame *)
      df <-- build_data env students ;;
      (* 5: document head *)
      let html := department_head dept_name in
      (* 6: tables *)
      st <-- match df with
             | [] =>
                 let html := html ++ "<div class='department-title'>Department: " ++ dept_name ++ "</div>" in
                 let html := html ++ "<table class='student-table'>" in
                 let html := html ++ "<tr>" in
                 let html := header_cells STANDARD_COLUMNS html in
                 let html := html ++ "</tr>" in
                 let html := html ++ no_records_row in
                 Ok (html ++ "</table>", dept_name)
             | _ :: _ => groups_html (groupby df) (html, dept_name)
             end ;;
      let (html, dept_name) := st : string * string in
      Ok (html ++ "</body></html>", dept_name)
  end.

(** The [try] / [except] / [finally] around [pisa.CreatePDF]. *)
Definition create_pdf (html : string) : result string :=
  match
    (pisa_status <-- CreatePDF html ;;
     if negb (err pisa_status =? 0)
     then Raise (UserError ("PDF generation error: " ++ str_int (err pisa_status)))
     else Ok (dest pisa_status))
  with
  | Ok pdf_data => Ok pdf_data
  | Raise e => Raise (UserError ("PDF creation failed: " ++ exn_str e))
  end.

(** [self.env['ir.attachment'].create({...})]. *)
Definition attachment_create
    (name type datas mimetype res_model : string) (res_id : Z)
  : M Attachment.t :=
  env <- get ;;
  let a := {| Attachment.id := fresh_id Attachment.id (attachments env);
              Attachment.name := name; Attachment.type := type;
              Attachment.datas := datas; Attachment.mimetype := mimetype;
              Attachment.res_model := res_model; Attachment.res_id := res_id |} in
  put (with_attachments (attachments env ++ [a]) env) ;;;
  ret a.

Definition download_url (attachment : Attachment.t) : string :=
  "/web/content/" ++ str_int (Attachment.id attachment) ++ "?download=true".

(** [print_department_report(department_id=None)]. *)
Definition print_department_report (department_id : option Z) : M action :=
  env <- get ;;
  st <- lift (department_report_html env department_id) ;;
  let (html, dept_name) := st : string * string in
  pdf_data <- lift (create_pdf html) ;;
  attachment <- attachment_create
                  ("Department_Report_" ++ replace_char " " "_" dept_name ++ ".pdf")
                  "binary" (b64encode pdf_data) "application/pdf" "student" 0 ;;
  ret (act_url (download_url attachment) "self").

(** *** The single student report *)

Definition PERSONAL_INFO_COLUMNS : list string :=
  ["Name"; "Father Name"; "Age"; "Gender"; "Department"; "Grade"].
Definition ACADEMIC_INFO_COLUMNS : list string :=
  ["Total Marks"; "Obtained Marks"; "Percentage"].
Definition EDUCATION_COLUMNS : list string :=
  ["Institute"; "Degree"; "Passing Year"].

(** [dict(student._fields['gender'].selection).get(student.gender, '-')]. *)
Definition gender_label (g : option Gender.t) : string :=
  match g with
  | Some g =>
      match find (fun p => Gender.eqb (fst p) g) Gender.selection with
      | Some (_, label) => label
      | None => "-"
      end
  | None => "-"
  end.

Definition all_personal_data (env : Env) (student : Student.t) : result row :=
  department <-- lookup_name (departments env) (Student.department_id student)
                   "-" ;;
  Ok [ ("Name", CStr (str_or (Student.name student) "-"));
       ("Father Name", CStr (char_or (Student.father_name student) "-"));
       ("Age", if Student.age student =? 0 then CStr "-"
               else CInt (Student.age student));
       ("Gender", CStr (gender_label (Student.gender student)));
       ("Department", CStr department);
       ("Grade", CStr (char_or (Student.grade student) "-"));
       ("Total Marks",
        if float_truthy (Student.total_marks student)
        then CFloat (Student.total_marks student) else CStr "-");
       ("Obtained Marks",
        if float_truthy (Student.obtained_marks student)
        then CFloat (Student.obtained_marks student) else CStr "-");
       ("Percentage",
        CStr (if float_truthy (Student.percentage student)
              then format_fixed 2 (Student.percentage student) ++ "%"
              else "0.00%"));
       ("Address", CStr (char_or (Student.address student) "-")) ].

(** [{col: all_personal_data.get(col, '-') for col in columns}]. *)
Definition select_columns (data : row) (columns : list string) : row :=
  map (fun col => (col, match row_get data col with
                        | Some v => v
                        | None => CStr "-"
                        end)) columns.

(** [student.about_education]: the education rows pointing at the student,
    archived ones left out. *)
Definition about_education (env : Env) (student : Student.t) : list Education.t :=
  filter (fun e => Education.active e &&
                   (Education.connecting_field e =? Student.id student))
         (educations env).

Definition education_row (env : Env) (edu : Education.t) : result row :=
  institute <-- lookup_name (institutes env) (Education.institute edu) "-" ;;
  degree <-- lookup_name (degrees env) (Education.degree edu) "-" ;;
  Ok [ ("Institute", CStr institute);
       ("Degree", CStr degree);
       ("Passing Year", if Education.passing_year edu =? 0 then CStr "-"
                        else CInt (Education.passing_year edu)) ].

Fixpoint education_data (env : Env) (edus : list Education.t) : result DataFrame :=
  match edus with
  | [] => Ok []
  | edu :: rest =>
      r <-- education_row env edu ;;
      rs <-- education_data env rest ;;
      Ok (r :: rs)
  end.

(** The opening of the document, up to the first section title. *)
Definition student_head (title : string) : string :=
  "
        <html>
        <head>
            <style>
                body { 
                    font-family: Arial, sans-serif; 
                    background-color: #f9f9f9; 
                    margin: 20px; 
                }
                .report-header { 
                    text-align: center; 
                    background-color: #4a4a4a; 
                    color: white; 
                    padding: 15px; 
                    border-radius: 8px;
                    margin-bottom: 20px;
                }
                .section-title { 
                    color: #333; 
                    border-bottom: 2px solid #ddd; 
                    margin-top: 30px;
                    padding-bottom: 5px;
                }
                .data-table { 
                    width: 100%; 
                    border-collapse: collapse; 
                    background-color: white; 
                    margin-bottom: 20px;
                    box-shadow: 0 1px 3px rgba(0,0,0,0.1);
                }
                .data-table th, .data-table td { 
                    border: 1px solid #ddd; 
                    padding: 12px; 
                    text-align: left; 
                }
                .data-table th { 
                    background-color: #4a4a4a; 
                    color: white;
                    font-weight: bold;
                }
                .data-table td {
                    background-color: #fafafa;
                }
                .no-data { 
                    text-align: center; 
                    color: #666; 
                    font-style: italic; 
                    padding: 20px;
                    background-color: #f0f0f0;
                    border: 1px solid #ddd;
                }
                .empty-row td {
                    background-color: #fff;
                    color: #999;
                    font-style: italic;
                    text-align: center;
                }
            </style>
        </head>
        <body>
            <div class=" ++ dquote ++ "report-header" ++ dquote ++ ">
                <h1>Student Report - " ++ title ++ "</h1>
            </div>
            
            <h2 class=" ++ dquote ++ "section-title" ++ dquote ++ ">Personal Information</h2>
        ".

(** [row[col] if pd.notna(row[col]) else '-'], then the cell. *)
Fixpoint plain_cells (r : row) (columns : list string) (html : string)
  : result string :=
  match columns with
  | [] => Ok html
  | col :: rest =>
      match row_get r col with
      | None => Raise (KeyError col)
      | Some v =>
          let value := if negb (isna v) then str v else "-" in
          plain_cells r rest (html ++ "<td>" ++ value ++ "</td>")
      end
  end.

Fixpoint plain_rows (columns : list string) (df : DataFrame) (html : string)
  : result string :=
  match df with
  | [] => Ok html
  | r :: rest =>
      html <-- plain_cells r columns (html ++ "<tr>") ;;
      plain_rows columns rest (html ++ "</tr>")
  end.

(** One of the three tables: header row, then the rows of the frame or the
    placeholder when the frame is empty. *)
Definition section_table
    (columns : list string) (df : DataFrame) (empty_message : string)
    (html : string) : result string :=
  let html := html ++ "<table class='data-table'>" in
  let html := html ++ "<tr>" in
  let html := header_cells columns html in
  let html := html ++ "</tr>" in
  html <-- match df with
           | _ :: _ => plain_rows columns df html
           | [] => Ok (html ++ "<tr class='empty-row'><td colspan='" ++
                       colspan columns ++ "'>" ++ empty_message ++ "</td></tr>")
           end ;;
  Ok (html ++ "</table>").

Definition single_student_html (env : Env) (student : Student.t) : result string :=
  data <-- all_personal_data env student ;;
  let df_personal := [select_columns data PERSONAL_INFO_COLUMNS] in
  let df_academic := [select_columns data ACADEMIC_INFO_COLUMNS] in
  df_education <-- education_data env (about_education env student) ;;
  let html := student_head (str_or (Student.name student) "Unknown Student") in
  html <-- section_table PERSONAL_INFO_COLUMNS df_personal
             "No personal information available" html ;;
  let html := html ++ "<h2 class='section-title'>Academic Performance</h2>" in
  html <-- section_table ACADEMIC_INFO_COLUMNS df_academic
             "No academic information available" html ;;
  let html := html ++ "<h2 class='section-title'>Education History</h2>" in
  html <-- section_table EDUCATION_COLUMNS df_education
             "No education history available" html ;;
  Ok (html ++ "</body></html>").

(** [generate_single_student_report(student)]. *)
Definition generate_single_student_report (student : Z) : M action :=
  s <- Students.read student ;;
  env <- get ;;
  html <- lift (single_student_html env s) ;;
  pdf_data <- lift (create_pdf html) ;;
  attachment <- attachment_create
                  (str_or (Student.name s) "Student" ++ "_Report.pdf")
                  "binary" (b64encode pdf_data) "application/pdf" "student"
                  (Student.id s) ;;
  ret (act_url (download_url attachment) "self").

End WithHost.
End Report.

(* ------------------------------------------------------------------ *)
(** ** The wizards ([wizard/]) *)
(* ------------------------------------------------------------------ *)

Definition newline : string := String (ascii_of_nat 10) EmptyString.

(** [try: return m except Exception as e: raise h(e)]. *)
Definition try_except {A} (m : M A) (h : exn -> M A) : M A :=
  fun env =>
    match m env with
    | (Ok a, env') => (Ok a, env')
    | (Raise e, env') => h e env'
    end.

(** Truthiness of a [Many2one] and of a [Char]. *)
Definition is_set {A} (v : option A) : bool :=
  match v with Some _ => true | None => false end.

Definition char_truthy (v : option string) : bool :=
  match v with Some (String _ _) => true | _ => false end.

Module ReportWizard.

Record t : Type := {
  id : Z;
  report_type : string;          (* 'single' | 'department' *)
  student_id : option Z;
  department_id : option Z
}.

(** The record the form starts from: the field defaults, overridden by the
    [default_*] keys of the context of the opening action. *)
Definition default_get (opening : action) : t :=
  match opening with
  | act_window _ _ type student department _ =>
      {| id := 1; report_type := type; student_id := Some student;
         department_id := department |}
  | _ => {| id := 1; report_type := "single"; student_id := None;
            department_id := None |}
  end.

(** Editing [report_type] on the form.  The class declares no
    [@api.onchange], so the edit is the bare assignment. *)
Definition change_report_type (v : string) (self : t) : t :=
  {| id := id self; report_type := v; student_id := student_id self;
     department_id := department_id self |}.



Section WithHost.
Context {host : Report.Host}.

(** [action_generate_report]. *)
Definition action_generate_report (self : list t) : M action :=
  match self with
  | [self] =>
      if String.eqb (report_type self) "single" then
        match student_id self with
        | None => raise (UserError "Please select a student.")
        | Some student =>
            try_except
              (Report.generate_single_student_report student)
              (fun e => raise (UserError
                 ("Error generating single student report:" ++ newline ++ exn_str e)))
        end
      else if String.eqb (report_type self) "department" then
        match department_id self with
        | None => raise (UserError "Please select a department.")
        | Some department =>
            try_except
              (Report.print_department_report (Some department))
              (fun e => raise (UserError
                 ("Error generating department report:" ++ newline ++ exn_str e)))
        end
      else raise (UserError "Invalid report type selected.")
  | _ => raise (ValueError ("Expected singleton: " ++
                            recordset_repr "student.report.wizard" (map id self)))
  end.

End WithHost.
End ReportWizard.

Module EmailWizard.

Record t : Type := {
  id : Z;
  report_type : string;          (* 'single' | 'department' *)
  student_id : option Z;
  department_id : option Z;
  email_to : option string;
  phone : option string
}.

(** [_onchange_report_type]: clear the field of the other mode. *)
Definition _onchange_report_type (self : t) : t :=
  if String.eqb (report_type self) "single" then
    {| id := id self; report_type := report_type self;
       student_id := student_id self; department_id := None; email_to := email_to self; phone := phone self |}
  else if String.eqb (report_type self) "department" then
    {| id := id self; report_type := report_type self; student_id := None;
       department_id := department_id self; email_to := email_to self;
       phone := phone self |}
  else self.

(** Editing [report_type] on the form: the assignment, then the handler
    registered with [@api.onchange('report_type')]. *)
Definition change_report_type (v : string) (self : t) : t :=
  _onchange_report_type
    {| id := id self; report_type := v; student_id := student_id self;
       department_id := department_id self; email_to := email_to self;
       phone := phone self |}.

(** The record the form starts from: the field defaults ([report_type] is
    ['single']), overridden by the [default_*] keys of the context of the
    opening action. *)
Definition default_get (opening : action) : t :=
  match opening with
  | act_window _ _ type student _ email =>
      {| id := 1; report_type := type; student_id := Some student;
         department_id := None; email_to := email; phone := None |}
  | _ => {| id := 1; report_type := "single"; student_id := None;
            department_id := None; email_to := None; phone := None |}
  end.

(** [action_send_email]: the loop returns or raises in its first turn; on
    an empty recordset the method falls off its end and returns [None]. *)
Definition action_send_email (self : list t) : M (option action) :=
  match self with
  | [] => ret None
  | wizard :: _ =>
      if negb (char_truthy (email_to wizard)) then
        raise (UserError "Recipient email is required!")
      else if String.eqb (report_type wizard) "single"
              && negb (is_set (student_id wizard)) then
        raise (UserError "Please select a student for the single report.")
      else if String.eqb (report_type wizard) "department"
              && negb (is_set (department_id wizard)) then
        raise (UserError "Please select a department for the department report.")
      else
        ret (Some (display_notification
                     "Success!"
                     ("Report sent successfully to " ++
                      Report.char_or (email_to wizard) "" ++ ".")
                     "success" false true))
  end.

End EmailWizard.

(* ------------------------------------------------------------------ *)
(** ** Vocabulary of the properties *)
(* ------------------------------------------------------------------ *)

(** Whether a float is finite with a fractional part. *)
Definition has_fraction (x : float) : bool :=
  match Prim2SF x with
  | S754_finite _ m e => (e <? 0) && negb (Zpos m mod 2 ^ (- e) =? 0)
  | _ => false
  end.

(** The text of a finite number in the [Age], [Total Marks] and
    [Obtained Marks] columns: the integer when there is no fractional part,
    one decimal otherwise. *)
Definition number_text (x : float) : string :=
  if has_fraction x then format_fixed 1 x
  else match int_of_float x with
       | Ok i => str_int i
       | Raise _ => ""
       end.

(** Fixed notation with [d] decimals: an optional minus sign and the digits
    of a natural number, the point before the last [d] of them. *)
Definition fixed_notation (d : nat) (s : string) : Prop :=
  exists (negative : bool) (n : Z),
    0 <= n /\ s = (if negative then "-" else "") ++ point_digits d n.

(** Concrete collaborators and databases for the examples. *)
Module Fixture.

Definition pdf_bytes : string := "%PDF-1.4".

(** An engine that renders every document. *)
Definition host_ok : Report.Host :=
  {| Report.CreatePDF := fun _ => Ok {| Report.err := 0; Report.dest := pdf_bytes |};
     Report.b64encode := fun s => s;
     Report.float_str := format_fixed 1;
     Report.float_of_str := fun _ => None |}.

(** An engine that throws. *)
Definition host_raising : Report.Host :=
  {| Report.CreatePDF := fun _ => Raise (Exception "no font");
     Report.b64encode := fun s => s;
     Report.float_str := format_fixed 1;
     Report.float_of_str := fun _ => None |}.

(** An engine that reports errors in its status. *)
Definition host_err : Report.Host :=
  {| Report.CreatePDF := fun _ => Ok {| Report.err := 3; Report.dest := "" |};
     Report.b64encode := fun s => s;
     Report.float_str := format_fixed 1;
     Report.float_of_str := fun _ => None |}.

Definition empty_env : Env :=
  {| students := []; educations := []; departments := []; institutes := [];
     degrees := []; attachments := [] |}.

Definition student
    (i : Z) (name : string) (age : Z) (dept : Z) (total obtained : float)
  : Student.t :=
  Student.compute_percentage1
    {| Student.id := i; Student.active := true; Student.name := name;
       Student.father_name := Some "Akram"; Student.age := age;
       Student.grade := Some "A"; Student.address := None;
       Student.department_id := Some dept; Student.total_marks := total;
       Student.obtained_marks := obtained; Student.percentage := 0%float;
       Student.gender := Some Gender.male |}.

(** Two departments, both students in the first one. *)
Definition env_two_departments : Env :=
  {| students := [student 1 "Ali" 20 1 500%float 437.5%float;
                  student 2 "Sara" 21 1 500%float 400%float];
     educations := [];
     departments := [{| Lookup.id := 1; Lookup.name := "MATH" |};
                     {| Lookup.id := 2; Lookup.name := "PHYSICS" |}];
     institutes := []; degrees := []; attachments := [] |}.

(** One department named with a space, one student in it. *)
Definition env_spaced : Env :=
  {| students := [student 1 "Ali" 20 1 500%float 437.5%float];
     educations := [];
     departments := [{| Lookup.id := 1; Lookup.name := "Computer Science" |}];
     institutes := []; degrees := []; attachments := [] |}.

(** A student whose age and marks are all zero. *)
Definition env_zero : Env :=
  {| students := [student 1 "Ali" 0 1 0%float 0%float];
     educations := [];
     departments := [{| Lookup.id := 1; Lookup.name := "MATH" |}];
     institutes := []; degrees := []; attachments := [] |}.

(** A department table in which a canonical name was entered twice. *)
Definition duplicated_math : list Lookup.t :=
  [{| Lookup.id := 1; Lookup.name := "MATH" |};
   {| Lookup.id := 2; Lookup.name := "MATH" |}].

End Fixture.



(** The entry points of the module, as a client calls them. *)
Inductive call : Type :=
| student_create (vals : list Student.assignment)
| student_write (self : list Z) (vals : list Student.assignment)
| student_archive (self : list Z)
| student_restore (self : list Z)
| module_init
| department_report (department_id : option Z)
| student_report (student : Z)
| report_wizard_submit (self : list ReportWizard.t)
| email_wizard_submit (self : list EmailWizard.t).

(** The database after a call, whether it returned or raised. *)
Definition exec {host : Report.Host} (c : call) (env : Env) : Env :=
  match c with
  | student_create vals => snd (Students.create vals env)
  | student_write self vals => snd (Students.write self vals env)
  | student_archive self => snd (Students.action_delete_record self env)
  | student_restore self => snd (Students.action_restore_record self env)
  | module_init => snd (init_all env)
  | department_report d => snd (Report.print_department_report d env)
  | student_report s => snd (Report.generate_single_student_report s env)
  | report_wizard_submit w => snd (ReportWizard.action_generate_report w env)
  | email_wizard_submit w => snd (EmailWizard.action_send_email w env)
  end.

Definition run {host : Report.Host} (calls : list call) (env : Env) : Env :=
  fold_left (fun env c => exec c env) calls env.

(** The attachment a department report stores. *)
Definition department_attachment {host : Report.Host} (env : Env) (dept_name pdf_data : string)
  : Attachment.t :=
  {| Attachment.id := fresh_id Attachment.id (attachments env);
     Attachment.name :=
       "Department_Report_" ++ replace_char " " "_" dept_name ++ ".pdf";
     Attachment.type := "binary";
     Attachment.datas := Report.b64encode pdf_data;
     Attachment.mimetype := "application/pdf";
     Attachment.res_model := "student";
     Attachment.res_id := 0 |}.

(** The attachment a single student report stores. *)
Definition student_attachment {host : Report.Host} (env : Env) (s : Student.t) (pdf_data : string)
  : Attachment.t :=
  {| Attachment.id := fresh_id Attachment.id (attachments env);
     Attachment.name := Report.str_or (Student.name s) "Student" ++ "_Report.pdf";
     Attachment.type := "binary";
     Attachment.datas := Report.b64encode pdf_data;
     Attachment.mimetype := "application/pdf";
     Attachment.res_model := "student";
     Attachment.res_id := Student.id s |}.

(** [r'] is [r] with [active] set to [b] when its id is [i], and [r]
    itself otherwise: every other field is the same. *)
Definition only_active_set (b : bool) (i : Z) (r r' : Student.t) : Prop :=
  Student.id r' = Student.id r /\
  Student.name r' = Student.name r /\
  Student.father_name r' = Student.father_name r /\
  Student.age r' = Student.age r /\
  Student.grade r' = Student.grade r /\
  Student.address r' = Student.address r /\
  Student.department_id r' = Student.department_id r /\
  Student.total_marks r' = Student.total_marks r /\
  Student.obtained_marks r' = Student.obtained_marks r /\
  Student.percentage r' = Student.percentage r /\
  Student.gender r' = Student.gender r /\
  Student.active r' = if Student.id r =? i then b else Student.active r.

(** [active] set to [b] on the rows with id [i]. *)
Definition set_active_in (b : bool) (i : Z) (rows : list Student.t)
  : list Student.t :=
  map (fun r => if Student.id r =? i then Student.with_active b r else r) rows.


(** The wizard as [action_open_report_choice] opens it on the first
    student of [Fixture.env_spaced]. *)
Definition opened_wizard : ReportWizard.t :=
  match fst (Students.action_open_report_choice [1] Fixture.env_spaced) with
  | Ok opening => ReportWizard.default_get opening
  | Raise _ => ReportWizard.default_get (act_url "" "")
  end.

(** How many rows of a lookup table carry a name. *)
Definition count_name (name : string) (rows : list Lookup.t) : nat :=
  List.length (filter (fun r => String.eqb (Lookup.name r) name) rows).

(** Equality of ORM calls. *)
Definition event_eqb (a b : Seed.event) : bool :=
  match a, b with
  | Seed.Searched x, Seed.Searched y => String.eqb x y
  | Seed.Created x, Seed.Created y => String.eqb x y
  | _, _ => false
  end.

(** How many times a call occurs in a log. *)
Definition count_event (e : Seed.event) (log : list Seed.event) : nat :=
  List.length (filter (event_eqb e) log).

(** Whether a name is in a list of names. *)
Definition mem (name : string) (names : list string) : bool :=
  existsb (String.eqb name) names.

(** The database after [n] runs of the module initialisation. *)
Definition seeded (n : nat) (env : Env) : Env :=
  Nat.iter n (fun env => snd (init_all env)) env.

(** No name of [names] occurs twice in [rows]. *)
Definition unduplicated (names : list string) (rows : list Lookup.t) : Prop :=
  forall name, mem name names = true -> (count_name name rows <= 1)%nat.

(** What the report wizard makes of the outcome of a report: a result is
    handed on, an exception becomes a [UserError] with the prefix of the
    report type. *)
Definition wrapped (prefix : string) (outcome : result action * Env)
  : result action * Env :=
  match outcome with
  | (Ok a, env') => (Ok a, env')
  | (Raise e, env') => (Raise (UserError (prefix ++ newline ++ exn_str e)), env')
  end.

(** The header row of the department tables. *)
Definition department_header_row : string :=
  "<tr><th>Name</th><th>Father Name</th><th>Age</th><th>Grade</th>" ++
  "<th>Total Marks</th><th>Obtained Marks</th><th>Percentage</th></tr>".

(** The document of a department report without any student. *)
Definition empty_report_html (label : string) : string :=
  Report.department_head label ++
  "<div class='department-title'>Department: " ++ label ++ "</div>" ++
  "<table class='student-table'>" ++ department_header_row ++
  Report.no_records_row ++ "</table></body></html>".

(** The end of a single student report without education history. *)
Definition no_education_tail : string :=
  "<h2 class='section-title'>Education History</h2>" ++
  "<table class='data-table'>" ++
  "<tr><th>Institute</th><th>Degree</th><th>Passing Year</th></tr>" ++
  "<tr class='empty-row'><td colspan='3'>No education history available</td></tr>" ++
  "</table></body></html>".

(** A [Many2one] into a lookup table is unset or points at a row. *)
Definition resolves (table : list Lookup.t) (ref : option Z) : Prop :=
  match ref with
  | None => True
  | Some i => exists r, find (fun r => Lookup.id r =? i) table = Some r
  end.

(** A student the department report can print: the department resolves,
    the age fits a database integer, the marks are finite. *)
Definition printable (env : Env) (s : Student.t) : Prop :=
  resolves (departments env) (Student.department_id s) /\
  Z.abs (Student.age s) < 2 ^ 53 /\
  is_finite (Student.total_marks s) = true /\
  is_finite (Student.obtained_marks s) = true /\
  is_finite (Student.percentage s) = true.

(** The names of a list that no row of a table carries. *)
Definition missing_names (names : list string) (rows : list Lookup.t)
  : list string :=
  filter (fun name => negb (existsb (fun r => String.eqb (Lookup.name r) name) rows))
         names.

(** All seven cells of a row can be formatted. *)
Definition renders {host : Report.Host} (r : Report.row) : Prop :=
  forall col, In col Report.STANDARD_COLUMNS ->
              exists v, Report._format_cell_value r col = Ok v.

(** The markup of one data row of the department report, from the texts
    of its cells. *)
Definition data_cells_html (cells : list string) : string :=
  fold_right (fun text rest => "<td>" ++ text ++ "</td>" ++ rest) "" cells.

Definition data_row_html (cells : list string) : string :=
  "<tr>" ++ data_cells_html cells ++ "</tr>".

(** The texts of the seven cells of a row, as the formatter gives them. *)
Definition cell_texts {host : Report.Host} (r : Report.row)
    (cells : list string) : Prop :=
  Forall2 (fun col text => Report._format_cell_value r col = Ok text)
          Report.STANDARD_COLUMNS cells.

(** Strictly increasing, in the order of [str] comparison. *)
Definition str_lt (a b : string) : Prop := String.compare a b = Lt.



(* ------------------------------------------------------------------ *)
(** ** Proofs *)
(* ------------------------------------------------------------------ *)

Ltac unfold_m :=
  unfold bind, ret, raise, get, put, lift, try_except, ensure_one in *.

Lemma append_assoc (a b c : string) : (a ++ b) ++ c = a ++ b ++ c.
Proof. induction a as [|x a IH]; simpl; [reflexivity|now rewrite IH]. Qed.

Lemma append_nil_r (a : string) : a ++ "" = a.
Proof. induction a as [|x a IH]; simpl; [reflexivity|now rewrite IH]. Qed.

(** *** The derived field [percentage] *)

Section Percentage.











(** Putting back the images of the picked rows is a map over the table. *)
Lemma put_back_map member (f : Student.t -> Student.t) rows :
  Students.put_back member rows (map f (filter member rows)) =
  map (fun r => if member r then f r else r) rows.
Proof.
  induction rows as [|r rows IH]; [reflexivity|].
  cbn [filter map Students.put_back].
  destruct (member r) eqn:E; cbn [map Students.put_back]; rewrite ?E;
    now rewrite IH.
Qed.



(** A write of [active] alone, on the table. *)
Lemma write_active_rows (b : bool) (self : list Z) (rows : list Student.t) :
  Students.put_back (fun r => existsb (Z.eqb (Student.id r)) self) rows
    (Student.write [Student.set_active b]
       (filter (fun r => existsb (Z.eqb (Student.id r)) self) rows)) =
  map (fun r => if existsb (Z.eqb (Student.id r)) self
                then Student.with_active b r else r) rows.
Proof.
  change (Student.write [Student.set_active b]
            (filter (fun r => existsb (Z.eqb (Student.id r)) self) rows))
    with (map (Student.with_active b)
              (filter (fun r => existsb (Z.eqb (Student.id r)) self) rows)).
  apply put_back_map.
Qed.






End Percentage.

(** *** What the report entry points do to the database *)

Section ReportRuns.
Context {host : Report.Host}.

Lemma create_pdf_run (html : string) :
  Report.create_pdf html =
  match Report.CreatePDF html with
  | Raise e => Raise (UserError ("PDF creation failed: " ++ exn_str e))
  | Ok st =>
      if Report.err st =? 0 then Ok (Report.dest st)
      else Raise (UserError ("PDF creation failed: PDF generation error: " ++
                             str_int (Report.err st)))
  end.
Proof.
  unfold Report.create_pdf, rbind.
  destruct (Report.CreatePDF html) as [st|e]; auto.
  destruct (Report.err st =? 0); reflexivity.
Qed.

Lemma create_pdf_raises_user_error (html : string) (e : exn) :
  Report.create_pdf html = Raise e ->
  exists cause, e = UserError ("PDF creation failed: " ++ cause).
Proof.
  rewrite create_pdf_run.
  destruct (Report.CreatePDF html) as [st|e0].
  - destruct (Report.err st =? 0); intros H; inversion H.
    exists ("PDF generation error: " ++ str_int (Report.err st)). reflexivity.
  - intros H; inversion H. exists (exn_str e0). reflexivity.
Qed.

(** The department report, path by path. *)
Lemma print_department_report_run (department_id : option Z) (env : Env) :
  Report.print_department_report department_id env =
  match Report.department_report_html env department_id with
  | Raise e => (Raise e, env)
  | Ok (html, dept_name) =>
      match Report.create_pdf html with
      | Raise e => (Raise e, env)
      | Ok pdf_data =>
          let a := department_attachment env dept_name pdf_data in
          (Ok (act_url (Report.download_url a) "self"),
           with_attachments (attachments env ++ [a]) env)
      end
  end.
Proof.
  unfold Report.print_department_report, Report.attachment_create. unfold_m.
  destruct (Report.department_report_html env department_id) as [[html dn]|e];
    [|reflexivity].
  destruct (Report.create_pdf html); reflexivity.
Qed.

(** The single student report, path by path. *)
Lemma generate_single_student_report_run (student : Z) (env : Env) :
  Report.generate_single_student_report student env =
  match find (fun r => Student.id r =? student) (students env) with
  | None => (Raise (MissingError "Record does not exist or has been deleted."), env)
  | Some s =>
      match Report.single_student_html env s with
      | Raise e => (Raise e, env)
      | Ok html =>
          match Report.create_pdf html with
          | Raise e => (Raise e, env)
          | Ok pdf_data =>
              let a := student_attachment env s pdf_data in
              (Ok (act_url (Report.download_url a) "self"),
               with_attachments (attachments env ++ [a]) env)
          end
      end
  end.
Proof.
  unfold Report.generate_single_student_report, Report.attachment_create,
    Students.read. unfold_m.
  destruct (find _ (students env)) as [s|]; [|reflexivity].
  destruct (Report.single_student_html env s) as [html|e]; [|reflexivity].
  destruct (Report.create_pdf html); reflexivity.
Qed.

(** A report that raises leaves the database as it found it. *)
Lemma print_department_report_raise department_id env e env' :
  Report.print_department_report department_id env = (Raise e, env') ->
  env' = env.
Proof.
  rewrite print_department_report_run.
  destruct (Report.department_report_html env department_id) as [[html dn]|e0].
  - destruct (Report.create_pdf html); intros H; inversion H; auto.
  - intros H; inversion H; auto.
Qed.

Lemma generate_single_student_report_raise student env e env' :
  Report.generate_single_student_report student env = (Raise e, env') ->
  env' = env.
Proof.
  rewrite generate_single_student_report_run.
  destruct (find _ (students env)) as [s|].
  - destruct (Report.single_student_html env s) as [html|e0].
    + destruct (Report.create_pdf html); intros H; inversion H; auto.
    + intros H; inversion H; auto.
  - intros H; inversion H; auto.
Qed.





Lemma init_all_students env : students (snd (init_all env)) = students env.
Proof. reflexivity. Qed.




End ReportRuns.




(** A student is created, then the obtained marks are corrected, then the
    name: the percentage follows the marks. *)
Example percentage_follows_marks :
  map (fun r => (Student.name r, Student.percentage r))
      (students
         (run (host := Fixture.host_ok)
              [ student_create [Student.set_name "Ali"; Student.set_age 20;
                                Student.set_department_id (Some 1);
                                Student.set_total_marks 500%float;
                                Student.set_obtained_marks 437.5%float];
                student_write [1] [Student.set_obtained_marks 400%float];
                student_write [1] [Student.set_name "Ali Khan"];
                student_archive [1] ]
              Fixture.empty_env))
  = [("Ali Khan", 80%float)].
Proof. vm_compute. reflexivity. Qed.

(** With [total_marks] at zero the percentage is zero. *)
Example percentage_without_total :
  Student.percentage (Fixture.student 1 "Ali" 20 1 0%float 50%float) = 0%float.
Proof. reflexivity. Qed.

(** *** Archive and restore *)

Section Archive.

Lemma set_active_in_frame b i rows :
  Forall2 (only_active_set b i) rows (set_active_in b i rows).
Proof.
  induction rows as [|r rows IH]; simpl; constructor; auto.
  unfold only_active_set.
  destruct (Student.id r =? i); simpl; repeat split; reflexivity.
Qed.

Lemma find_set_active_in b i rows s :
  find (fun r => Student.id r =? i) rows = Some s ->
  find (fun r => Student.id r =? i) (set_active_in b i rows) =
  Some (Student.with_active b s).
Proof.
  induction rows as [|r rows IH]; simpl; intros H; try discriminate.
  destruct (Student.id r =? i) eqn:E; simpl.
  - rewrite E. now inversion H.
  - rewrite E. auto.
Qed.

Lemma find_existsb i rows s :
  find (fun r => Student.id r =? i) rows = Some s ->
  existsb (fun r => Student.id r =? i) rows = true.
Proof.
  induction rows as [|r rows IH]; simpl; intros H; try discriminate.
  destruct (Student.id r =? i); auto.
Qed.

Lemma write_active b i env s :
  find (fun r => Student.id r =? i) (students env) = Some s ->
  Students.write [i] [Student.set_active b] env =
  (Ok tt, with_students (set_active_in b i (students env)) env).
Proof.
  intros H. unfold Students.write. unfold_m.
  cbn [forallb]. rewrite (find_existsb _ _ _ H). cbn [andb].
  rewrite write_active_rows.
  unfold set_active_in. do 2 f_equal.
  apply map_ext. intros r. cbn [existsb]. rewrite orb_false_r. reflexivity.
Qed.

Lemma action_delete_record_run i env s :
  find (fun r => Student.id r =? i) (students env) = Some s ->
  Students.action_delete_record [i] env =
  (Ok (display_notification "Archived!"
         ("Student " ++ Student.name s ++ " has been archived.")
         "warning" false false),
   with_students (set_active_in false i (students env)) env).
Proof.
  intros H. unfold Students.action_delete_record.
  unfold bind at 1. unfold ensure_one, ret at 1. unfold bind at 1.
  rewrite (write_active false i env s H).
  unfold Students.read. unfold_m. simpl.
  rewrite (find_set_active_in false i _ s H). reflexivity.
Qed.

Lemma action_restore_record_run i env s :
  find (fun r => Student.id r =? i) (students env) = Some s ->
  Students.action_restore_record [i] env =
  (Ok (display_notification "Restored!"
         ("Student " ++ Student.name s ++ " has been restored.")
         "success" false false),
   with_students (set_active_in true i (students env)) env).
Proof.
  intros H. unfold Students.action_restore_record.
  unfold bind at 1. unfold ensure_one, ret at 1. unfold bind at 1.
  rewrite (write_active true i env s H).
  unfold Students.read. unfold_m. simpl.
  rewrite (find_set_active_in true i _ s H). reflexivity.
Qed.

End Archive.

(** C9: on a recordset of one existing student, the archive action stores
    [active = False] and the restore action [active = True]; every other
    field of that student, every other student and every other table are as
    before, and the action returns its notification.  On a recordset that is
    not of exactly one record, both actions raise and write nothing. *)
Theorem archive_restore_frame :
  forall (env : Env) (i : Z) (s : Student.t),
    find (fun r => Student.id r =? i) (students env) = Some s ->
    (exists rows,
        Students.action_delete_record [i] env =
        (Ok (display_notification "Archived!"
               ("Student " ++ Student.name s ++ " has been archived.")
               "warning" false false),
         with_students rows env) /\
        Forall2 (only_active_set false i) (students env) rows) /\
    (exists rows,
        Students.action_restore_record [i] env =
        (Ok (display_notification "Restored!"
               ("Student " ++ Student.name s ++ " has been restored.")
               "success" false false),
         with_students rows env) /\
        Forall2 (only_active_set true i) (students env) rows) /\
    (forall self : list Z,
        List.length self <> 1%nat ->
        Students.action_delete_record self env =
        (Raise (ValueError ("Expected singleton: " ++ recordset_repr "student" self)),
         env) /\
        Students.action_restore_record self env =
        (Raise (ValueError ("Expected singleton: " ++ recordset_repr "student" self)),
         env)).
Proof.
  intros env i s H. split; [|split].
  - exists (set_active_in false i (students env)). split.
    + apply action_delete_record_run, H.
    + apply set_active_in_frame.
  - exists (set_active_in true i (students env)). split.
    + apply action_restore_record_run, H.
    + apply set_active_in_frame.
  - intros self L.
    destruct self as [|j [|k self]]; simpl in L; try congruence; split; reflexivity.
Qed.

Lemma archive_restore_frame_witness :
  find (fun r => Student.id r =? 1) (students Fixture.env_spaced)
  = Some (Fixture.student 1 "Ali" 20 1 500%float 437.5%float) /\
  exists rows,
    Students.action_delete_record [1] Fixture.env_spaced =
    (Ok (display_notification "Archived!" "Student Ali has been archived."
           "warning" false false),
     with_students rows Fixture.env_spaced) /\
    Forall2 (only_active_set false 1) (students Fixture.env_spaced) rows.
Proof.
  split; [reflexivity|].
  apply (archive_restore_frame Fixture.env_spaced 1
           (Fixture.student 1 "Ali" 20 1 500%float 437.5%float)).
  reflexivity.
Defined.

(** *** The email wizard *)

(** C8: submitting the email wizard raises a validation error and leaves
    the database untouched when the recipient is blank, whatever the mode;
    when the mode is ['single'] and no student is selected; and when the mode
    is ['department'] and no department is selected.  In every other case it
    returns the success notification that names the recipient. *)
Theorem email_wizard_validation :
  forall (wizard : EmailWizard.t) (env : Env),
    (char_truthy (EmailWizard.email_to wizard) = false ->
     EmailWizard.action_send_email [wizard] env =
     (Raise (UserError "Recipient email is required!"), env)) /\
    (char_truthy (EmailWizard.email_to wizard) = true ->
     EmailWizard.report_type wizard = "single" ->
     EmailWizard.student_id wizard = None ->
     EmailWizard.action_send_email [wizard] env =
     (Raise (UserError "Please select a student for the single report."), env)) /\
    (char_truthy (EmailWizard.email_to wizard) = true ->
     EmailWizard.report_type wizard = "department" ->
     EmailWizard.department_id wizard = None ->
     EmailWizard.action_send_email [wizard] env =
     (Raise (UserError "Please select a department for the department report."),
      env)) /\
    (forall recipient : string,
        EmailWizard.email_to wizard = Some recipient ->
        recipient <> "" ->
        ~ (EmailWizard.report_type wizard = "single" /\
           EmailWizard.student_id wizard = None) ->
        ~ (EmailWizard.report_type wizard = "department" /\
           EmailWizard.department_id wizard = None) ->
        EmailWizard.action_send_email [wizard] env =
        (Ok (Some (display_notification "Success!"
                     ("Report sent successfully to " ++ recipient ++ ".")
                     "success" false true)),
         env)).
Proof.
  intros wizard env. unfold EmailWizard.action_send_email.
  split; [|split; [|split]].
  - intros ->. reflexivity.
  - intros -> -> ->. reflexivity.
  - intros -> -> ->. reflexivity.
  - intros recipient E NE H1 H2. rewrite E in *.
    destruct recipient as [|c recipient]; [congruence|]. simpl.
    destruct (String.eqb (EmailWizard.report_type wizard) "single") eqn:T1.
    + apply String.eqb_eq in T1.
      destruct (EmailWizard.student_id wizard); [|tauto]. simpl.
      rewrite T1. reflexivity.
    + simpl.
      destruct (String.eqb (EmailWizard.report_type wizard) "department") eqn:T2.
      * apply String.eqb_eq in T2.
        destruct (EmailWizard.department_id wizard); [|tauto]. reflexivity.
      * reflexivity.
Qed.

Lemma email_wizard_validation_witness :
  EmailWizard.action_send_email
    [{| EmailWizard.id := 1; EmailWizard.report_type := "single";
        EmailWizard.student_id := None; EmailWizard.department_id := None;
        EmailWizard.email_to := Some "dean@example.org";
        EmailWizard.phone := None |}]
    Fixture.env_spaced
  = (Raise (UserError "Please select a student for the single report."),
     Fixture.env_spaced).
Proof.
  apply (proj1 (proj2 (email_wizard_validation
           {| EmailWizard.id := 1; EmailWizard.report_type := "single";
              EmailWizard.student_id := None; EmailWizard.department_id := None;
              EmailWizard.email_to := Some "dean@example.org";
              EmailWizard.phone := None |} Fixture.env_spaced)));
    reflexivity.
Defined.

(** The email wizard clears the field of the mode that is left. *)
Lemma email_wizard_mode_change_clears (w : EmailWizard.t) :
  EmailWizard.department_id (EmailWizard.change_report_type "single" w) = None /\
  EmailWizard.student_id (EmailWizard.change_report_type "single" w) =
  EmailWizard.student_id w /\
  EmailWizard.student_id (EmailWizard.change_report_type "department" w) = None /\
  EmailWizard.department_id (EmailWizard.change_report_type "department" w) =
  EmailWizard.department_id w.
Proof. repeat split. Qed.

(** A submission without recipient in department mode, and a valid one. *)
Example email_wizard_blank_recipient :
  EmailWizard.action_send_email
    [{| EmailWizard.id := 1; EmailWizard.report_type := "department";
        EmailWizard.student_id := None; EmailWizard.department_id := Some 1;
        EmailWizard.email_to := Some ""; EmailWizard.phone := None |}]
    Fixture.env_spaced
  = (Raise (UserError "Recipient email is required!"), Fixture.env_spaced).
Proof. reflexivity. Qed.

Example email_wizard_success :
  EmailWizard.action_send_email
    [{| EmailWizard.id := 1; EmailWizard.report_type := "single";
        EmailWizard.student_id := Some 1; EmailWizard.department_id := None;
        EmailWizard.email_to := Some "dean@example.org";
        EmailWizard.phone := None |}]
    Fixture.env_spaced
  = (Ok (Some (display_notification "Success!"
                 "Report sent successfully to dean@example.org."
                 "success" false true)),
     Fixture.env_spaced).
Proof. reflexivity. Qed.

(** *** The report selection wizard *)




(** *** Failure of the PDF step *)

(** C5: when the PDF engine throws, or reports errors in its status, the
    department report and the single student report raise a [UserError]
    whose message is ["PDF creation failed: "] followed by the message of
    the cause, and the database (the attachment table with it) is as it was
    before the call; indeed every call that raises leaves it so. *)
Theorem pdf_failure_creates_no_attachment :
  forall (host : Report.Host) (env : Env),
    (forall (department_id : option Z) (html dept_name : string),
        Report.department_report_html env department_id = Ok (html, dept_name) ->
        (forall e : exn,
            Report.CreatePDF html = Raise e ->
            Report.print_department_report department_id env =
            (Raise (UserError ("PDF creation failed: " ++ exn_str e)), env)) /\
        (forall st : Report.pisa_status,
            Report.CreatePDF html = Ok st ->
            Report.err st <> 0 ->
            Report.print_department_report department_id env =
            (Raise (UserError ("PDF creation failed: " ++
                               "PDF generation error: " ++ str_int (Report.err st))),
             env))) /\
    (forall (student : Z) (s : Student.t) (html : string),
        find (fun r => Student.id r =? student) (students env) = Some s ->
        Report.single_student_html env s = Ok html ->
        (forall e : exn,
            Report.CreatePDF html = Raise e ->
            Report.generate_single_student_report student env =
            (Raise (UserError ("PDF creation failed: " ++ exn_str e)), env)) /\
        (forall st : Report.pisa_status,
            Report.CreatePDF html = Ok st ->
            Report.err st <> 0 ->
            Report.generate_single_student_report student env =
            (Raise (UserError ("PDF creation failed: " ++
                               "PDF generation error: " ++ str_int (Report.err st))),
             env))) /\
    (forall (department_id : option Z) (e : exn) (env' : Env),
        Report.print_department_report department_id env = (Raise e, env') ->
        attachments env' = attachments env) /\
    (forall (student : Z) (e : exn) (env' : Env),
        Report.generate_single_student_report student env = (Raise e, env') ->
        attachments env' = attachments env).
Proof.
  intros host env. split; [|split; [|split]].
  - intros d html dn H. split.
    + intros e E. rewrite print_department_report_run, H, create_pdf_run, E.
      reflexivity.
    + intros st E N. rewrite print_department_report_run, H, create_pdf_run, E.
      apply Z.eqb_neq in N. rewrite N. reflexivity.
  - intros i s html F H. split.
    + intros e E.
      rewrite generate_single_student_report_run, F, H, create_pdf_run, E.
      reflexivity.
    + intros st E N.
      rewrite generate_single_student_report_run, F, H, create_pdf_run, E.
      apply Z.eqb_neq in N. rewrite N. reflexivity.
  - intros d e env' H.
    now rewrite (print_department_report_raise d env e env' H).
  - intros i e env' H.
    now rewrite (generate_single_student_report_raise i env e env' H).
Qed.

Lemma pdf_failure_creates_no_attachment_witness :
  Report.print_department_report (host := Fixture.host_raising) (Some 1)
    Fixture.env_spaced
  = (Raise (UserError "PDF creation failed: no font"), Fixture.env_spaced).
Proof.
  destruct (Report.department_report_html (host := Fixture.host_raising)
              Fixture.env_spaced (Some 1)) as [[html dept_name]|e] eqn:H.
  - apply (proj1 (proj1 (pdf_failure_creates_no_attachment Fixture.host_raising
                           Fixture.env_spaced) (Some 1) html dept_name H)
             (Exception "no font")).
    reflexivity.
  - vm_compute in H. discriminate H.
Defined.

(** The two failure modes on a concrete database. *)
Example department_report_engine_throws :
  Report.print_department_report (host := Fixture.host_raising) (Some 1)
    Fixture.env_spaced
  = (Raise (UserError "PDF creation failed: no font"), Fixture.env_spaced).
Proof. vm_compute. reflexivity. Qed.

Example student_report_engine_errors :
  Report.generate_single_student_report (host := Fixture.host_err) 1
    Fixture.env_spaced
  = (Raise (UserError "PDF creation failed: PDF generation error: 3"),
     Fixture.env_spaced).
Proof. vm_compute. reflexivity. Qed.


(** *** Lookup seeding *)

Section Seeding.

Local Open Scope nat_scope.
Local Open Scope list_scope.

Lemma count_name_app name rows rows' :
  count_name name (rows ++ rows') = count_name name rows + count_name name rows'.
Proof. unfold count_name. now rewrite filter_app, length_app. Qed.

Lemma count_event_app e log log' :
  count_event e (log ++ log') = count_event e log + count_event e log'.
Proof. unfold count_event. now rewrite filter_app, length_app. Qed.

Lemma search_name_nil rows name :
  Seed.search_name rows name = [] <-> count_name name rows = 0.
Proof.
  unfold Seed.search_name, count_name.
  destruct (filter _ rows); simpl; split; congruence.
Qed.

(** One turn of the loop, on the table and on the log. *)
Lemma init_step_run rows log name :
  Seed.init_step (rows, log) name =
  if (count_name name rows =? 0)%nat
  then (Seed.create rows name, log ++ [Seed.Searched name; Seed.Created name])
  else (rows, log ++ [Seed.Searched name]).
Proof.
  unfold Seed.init_step.
  destruct (Seed.search_name rows name) eqn:E.
  - apply search_name_nil in E. now rewrite E.
  - destruct (count_name name rows =? 0)%nat eqn:C; auto.
    apply Nat.eqb_eq, search_name_nil in C. congruence.
Qed.

Lemma count_name_create name rows n :
  count_name name (Seed.create rows n) =
  count_name name rows + if String.eqb n name then 1 else 0.
Proof.
  unfold Seed.create. rewrite count_name_app. f_equal.
  unfold count_name. simpl. now destruct (String.eqb n name).
Qed.

(** The table after the loop: a canonical name that was missing is there
    once, every other count is what it was. *)
Lemma init_loop_count names : forall rows log name,
  count_name name (fst (fold_left Seed.init_step names (rows, log))) =
  if mem name names then Nat.max 1 (count_name name rows)
  else count_name name rows.
Proof.
  induction names as [|n names IH]; intros rows log name; [simpl; auto|].
  cbn [fold_left]. rewrite init_step_run.
  change (mem name (n :: names)) with (String.eqb name n || mem name names)%bool.
  rewrite (String.eqb_sym name n).
  destruct (count_name n rows =? 0)%nat eqn:C; rewrite IH.
  - rewrite count_name_create. apply Nat.eqb_eq in C.
    destruct (String.eqb n name) eqn:E; simpl.
    + apply String.eqb_eq in E. subst n. rewrite C.
      destruct (mem name names); reflexivity.
    + rewrite Nat.add_0_r. reflexivity.
  - apply Nat.eqb_neq in C.
    destruct (String.eqb n name) eqn:E; simpl; auto.
    apply String.eqb_eq in E. subst n.
    destruct (count_name name rows); [congruence|].
    destruct (mem name names); reflexivity.
Qed.

(** The rows that were there stay, in place. *)
Lemma init_loop_prefix names : forall rows log,
  exists added, fst (fold_left Seed.init_step names (rows, log)) = rows ++ added.
Proof.
  induction names as [|n names IH]; intros rows log.
  - exists []. simpl. now rewrite app_nil_r.
  - cbn [fold_left]. rewrite init_step_run.
    destruct (count_name n rows =? 0)%nat; auto.
    destruct (IH (Seed.create rows n)
                 (log ++ [Seed.Searched n; Seed.Created n])) as [added ->].
    unfold Seed.create. rewrite <- app_assoc. eauto.
Qed.

(** The calls of the loop: one search per turn, and a create only for a
    name that is not in the table yet. *)
Lemma init_loop_searches names : forall rows log name,
  count_event (Seed.Searched name) (snd (fold_left Seed.init_step names (rows, log))) =
  count_event (Seed.Searched name) log +
  List.length (filter (String.eqb name) names).
Proof.
  induction names as [|n names IH]; intros rows log name; [simpl; auto|].
  cbn [fold_left]. rewrite init_step_run.
  destruct (count_name n rows =? 0)%nat; rewrite IH, count_event_app;
    unfold count_event at 2; simpl;
    destruct (String.eqb name n); simpl; lia.
Qed.

Lemma init_loop_creates names : forall rows log name,
  count_event (Seed.Created name) (snd (fold_left Seed.init_step names (rows, log))) =
  count_event (Seed.Created name) log +
  if mem name names && (count_name name rows =? 0)%nat then 1 else 0.
Proof.
  induction names as [|n names IH]; intros rows log name; [simpl; auto|].
  cbn [fold_left]. rewrite init_step_run.
  change (mem name (n :: names)) with (String.eqb name n || mem name names)%bool.
  destruct (count_name n rows =? 0)%nat eqn:C; rewrite IH, count_event_app;
    unfold count_event at 2; simpl.
  - rewrite count_name_create. rewrite (String.eqb_sym n name).
    destruct (String.eqb name n) eqn:E; simpl.
    + apply String.eqb_eq in E. subst n.
      replace (count_name name rows + 1 =? 0)%nat with false
        by (symmetry; apply Nat.eqb_neq; lia).
      rewrite C, andb_false_r. simpl. lia.
    + rewrite !Nat.add_0_r. reflexivity.
  - destruct (String.eqb name n) eqn:E; simpl; try lia.
    apply String.eqb_eq in E. subst n. rewrite C, andb_false_r. lia.
Qed.

(** A table that has every name is left alone. *)
Lemma init_loop_fixed names : forall rows log,
  (forall name, mem name names = true -> 1 <= count_name name rows) ->
  fst (fold_left Seed.init_step names (rows, log)) = rows.
Proof.
  induction names as [|n names IH]; intros rows log H; [simpl; auto|].
  cbn [fold_left]. rewrite init_step_run.
  assert (1 <= count_name n rows) as Hn
      by (apply H; simpl; now rewrite String.eqb_refl).
  destruct (count_name n rows =? 0)%nat eqn:C.
  - apply Nat.eqb_eq in C. lia.
  - apply IH. intros name M. apply H. simpl. rewrite M. apply orb_true_r.
Qed.

Lemma init_loop_idempotent names rows :
  fst (Seed.init_loop names (fst (Seed.init_loop names rows))) =
  fst (Seed.init_loop names rows).
Proof.
  unfold Seed.init_loop. apply init_loop_fixed.
  intros name M. rewrite init_loop_count, M. lia.
Qed.

Lemma init_all_idempotent env :
  snd (init_all (snd (init_all env))) = snd (init_all env).
Proof.
  unfold init_all, Department.init, Institute.init, Degree.init. unfold_m. simpl.
  unfold with_degrees, with_institutes, with_departments. simpl.
  now rewrite !init_loop_idempotent.
Qed.

Lemma seeded_succ n env : seeded (S n) env = snd (init_all env).
Proof.
  induction n as [|n IH]; [reflexivity|].
  change (seeded (S (S n)) env) with (snd (init_all (seeded (S n) env))).
  rewrite IH. apply init_all_idempotent.
Qed.

End Seeding.

Section SeedingClaim.

Local Open Scope nat_scope.

Lemma departments_init_all env :
  departments (snd (init_all env)) =
  fst (Seed.init_loop Seed.department_names (departments env)).
Proof. reflexivity. Qed.

Lemma institutes_init_all env :
  institutes (snd (init_all env)) =
  fst (Seed.init_loop Seed.institute_names (institutes env)).
Proof. reflexivity. Qed.

Lemma degrees_init_all env :
  degrees (snd (init_all env)) =
  fst (Seed.init_loop Seed.degree_names (degrees env)).
Proof. reflexivity. Qed.

(** After a run, a canonical name that occurred at most once occurs once. *)
Lemma init_loop_exactly_one names rows name :
  unduplicated names rows ->
  mem name names = true ->
  count_name name (fst (Seed.init_loop names rows)) = 1.
Proof.
  intros U M. unfold Seed.init_loop. rewrite init_loop_count, M.
  specialize (U name M). lia.
Qed.

(** A name that is in the table keeps its number of rows. *)
Lemma init_loop_no_duplicate names rows name :
  1 <= count_name name rows ->
  count_name name (fst (Seed.init_loop names rows)) = count_name name rows.
Proof.
  intros H. unfold Seed.init_loop. rewrite init_loop_count.
  destruct (mem name names); lia.
Qed.

(** One run issues one search for a name that is once in the list, and one
    create when the name is missing, none otherwise. *)
Lemma init_loop_calls names rows name :
  List.length (filter (String.eqb name) names) = 1 ->
  count_event (Seed.Searched name) (snd (Seed.init_loop names rows)) = 1 /\
  count_event (Seed.Created name) (snd (Seed.init_loop names rows)) =
  if (count_name name rows =? 0)%nat then 1 else 0.
Proof.
  intros H. unfold Seed.init_loop.
  rewrite init_loop_searches, init_loop_creates, H. split; [reflexivity|].
  assert (mem name names = true) as ->; [|reflexivity].
  unfold mem. induction names as [|n names IH]; simpl in *; [discriminate|].
  destruct (String.eqb name n); auto.
Qed.

Ltac canonical M :=
  unfold mem in M; simpl in M;
  repeat (apply orb_prop in M as [M|M];
          [apply String.eqb_eq in M; subst; reflexivity|]);
  discriminate M.

Lemma department_names_once name :
  mem name Seed.department_names = true ->
  List.length (filter (String.eqb name) Seed.department_names) = 1.
Proof. intros M. canonical M. Qed.

Lemma institute_names_once name :
  mem name Seed.institute_names = true ->
  List.length (filter (String.eqb name) Seed.institute_names) = 1.
Proof. intros M. canonical M. Qed.

Lemma degree_names_once name :
  mem name Seed.degree_names = true ->
  List.length (filter (String.eqb name) Seed.degree_names) = 1.
Proof. intros M. canonical M. Qed.

End SeedingClaim.

(** The first run on an empty database creates the canonical rows, in the
    order of the lists; the second run only searches. *)
Example seeding_from_empty :
  map Lookup.name (departments (seeded 1 Fixture.empty_env)) = Seed.department_names /\
  map Lookup.name (institutes (seeded 1 Fixture.empty_env)) = Seed.institute_names /\
  map Lookup.name (degrees (seeded 1 Fixture.empty_env)) = Seed.degree_names /\
  map Lookup.id (departments (seeded 1 Fixture.empty_env)) = [1; 2; 3; 4; 5; 6] /\
  snd (Seed.init_loop Seed.degree_names (degrees (seeded 1 Fixture.empty_env))) =
  map Seed.Searched Seed.degree_names.
Proof. repeat split. Qed.

(** C6, as stated, fails: a table that already holds a canonical name twice
    still holds it twice after seeding, however often the seeding runs. *)
Lemma seeding_keeps_existing_duplicates :
  let env := with_departments Fixture.duplicated_math Fixture.empty_env in
  count_name "MATH" (departments (seeded 1 env)) = 2%nat /\
  count_name "MATH" (departments (seeded 2 env)) = 2%nat /\
  ~ (forall name, mem name Seed.department_names = true ->
                  count_name name (departments (seeded 2 env)) = 1%nat).
Proof.
  cbv zeta. split; [reflexivity|]. split; [reflexivity|].
  intros H. specialize (H "MATH" eq_refl). vm_compute in H. discriminate H.
Qed.

(** C6 (amended): from any database, one or more runs of the
    initialisation never create a duplicate of an existing name (a name
    that is in a table keeps its number of rows, a canonical name that is
    missing gets one row, no other name gets any), a further run changes
    nothing, and each run issues for each canonical name one exact-name
    search and one create when the name is missing, none when it is there.
    For each table in which no canonical name occurs more than once (an
    empty table in particular) the runs leave exactly one row per
    canonical name: 6 department names, 5 institute names, 4 degree names;
    from empty tables these are all the rows. *)
Theorem seeding_idempotent :
  forall (env : Env) (n : nat),
    (1 <= n)%nat ->
    (forall name,
        count_name name (departments (seeded n env)) =
        (if mem name Seed.department_names
         then Nat.max 1 (count_name name (departments env))
         else count_name name (departments env)) /\
        count_name name (institutes (seeded n env)) =
        (if mem name Seed.institute_names
         then Nat.max 1 (count_name name (institutes env))
         else count_name name (institutes env)) /\
        count_name name (degrees (seeded n env)) =
        (if mem name Seed.degree_names
         then Nat.max 1 (count_name name (degrees env))
         else count_name name (degrees env))) /\
    (forall name,
        ((1 <= count_name name (departments env))%nat ->
         count_name name (departments (seeded n env)) =
         count_name name (departments env)) /\
        ((1 <= count_name name (institutes env))%nat ->
         count_name name (institutes (seeded n env)) =
         count_name name (institutes env)) /\
        ((1 <= count_name name (degrees env))%nat ->
         count_name name (degrees (seeded n env)) =
         count_name name (degrees env))) /\
    (exists added_departments added_institutes added_degrees,
        departments (seeded n env) = (departments env ++ added_departments)%list /\
        institutes (seeded n env) = (institutes env ++ added_institutes)%list /\
        degrees (seeded n env) = (degrees env ++ added_degrees)%list) /\
    snd (init_all (seeded n env)) = seeded n env /\
    seeded (S n) env = seeded n env /\
    (forall (names : list string) (rows : list Lookup.t) (name : string),
        In names [Seed.department_names; Seed.institute_names; Seed.degree_names] ->
        mem name names = true ->
        count_event (Seed.Searched name) (snd (Seed.init_loop names rows)) = 1%nat /\
        count_event (Seed.Created name) (snd (Seed.init_loop names rows)) =
        if (count_name name rows =? 0)%nat then 1%nat else 0%nat) /\
    (unduplicated Seed.department_names (departments env) ->
     forall name, mem name Seed.department_names = true ->
                  count_name name (departments (seeded n env)) = 1%nat) /\
    (unduplicated Seed.institute_names (institutes env) ->
     forall name, mem name Seed.institute_names = true ->
                  count_name name (institutes (seeded n env)) = 1%nat) /\
    (unduplicated Seed.degree_names (degrees env) ->
     forall name, mem name Seed.degree_names = true ->
                  count_name name (degrees (seeded n env)) = 1%nat) /\
    (List.length Seed.department_names = 6%nat /\
     List.length Seed.institute_names = 5%nat /\
     List.length Seed.degree_names = 4%nat) /\
    (departments env = [] -> List.length (departments (seeded n env)) = 6%nat) /\
    (institutes env = [] -> List.length (institutes (seeded n env)) = 5%nat) /\
    (degrees env = [] -> List.length (degrees (seeded n env)) = 4%nat).
Proof.
  intros env n Hn.
  destruct n as [|n]; [lia|].
  change (seeded (S (S n)) env) with (snd (init_all (seeded (S n) env))).
  rewrite seeded_succ.
  rewrite departments_init_all, institutes_init_all, degrees_init_all.
  split; [|split; [|split; [|split; [|split; [|split; [|split; [|split;
    [|split; [|split; [|split; [|split]]]]]]]]]]].
  - intros name. unfold Seed.init_loop. rewrite !init_loop_count. auto.
  - intros name. split; [|split]; apply init_loop_no_duplicate.
  - unfold Seed.init_loop.
    destruct (init_loop_prefix Seed.department_names (departments env) [])
      as [ad Hd].
    destruct (init_loop_prefix Seed.institute_names (institutes env) [])
      as [ai Hi].
    destruct (init_loop_prefix Seed.degree_names (degrees env) [])
      as [ag Hg].
    exists ad, ai, ag. auto.
  - apply init_all_idempotent.
  - apply init_all_idempotent.
  - intros names rows name I M. apply init_loop_calls.
    destruct I as [<-|[<-|[<-|[]]]].
    + now apply department_names_once.
    + now apply institute_names_once.
    + now apply degree_names_once.
  - intros U name M. now apply init_loop_exactly_one.
  - intros U name M. now apply init_loop_exactly_one.
  - intros U name M. now apply init_loop_exactly_one.
  - split; [|split]; reflexivity.
  - intros ->. reflexivity.
  - intros ->. reflexivity.
  - intros ->. reflexivity.
Qed.

(** Two runs on the table that holds MATH twice: both rows stay, the
    missing PHYSICS is entered once, and a third run changes nothing. *)
Lemma seeding_idempotent_witness :
  (1 <= 2)%nat /\
  count_name "MATH"
    (departments (seeded 2 (with_departments Fixture.duplicated_math Fixture.empty_env))) = 2%nat /\
  count_name "PHYSICS"
    (departments (seeded 2 (with_departments Fixture.duplicated_math Fixture.empty_env))) = 1%nat /\
  snd (init_all (seeded 2 (with_departments Fixture.duplicated_math Fixture.empty_env))) =
  seeded 2 (with_departments Fixture.duplicated_math Fixture.empty_env).
Proof.
  pose proof (seeding_idempotent
                (with_departments Fixture.duplicated_math Fixture.empty_env) 2
                (Nat.le_succ_diag_r 1)) as (C & _ & _ & I & _).
  split; [apply Nat.le_succ_diag_r|].
  split; [exact (proj1 (C "MATH"))|].
  split; [exact (proj1 (C "PHYSICS"))|exact I].
Defined.

(** *** Cell formatting *)

(** Integers below [2^53] in magnitude convert to a float exactly: the
    mantissa is shifted to 53 bits and nothing is rounded away. *)

Lemma iter_xO_value (p d : positive) :
  Zpos (Pos.iter xO p d) = Zpos p * 2 ^ Zpos d.
Proof.
  induction d as [|d IH] using Pos.peano_ind.
  - simpl. lia.
  - rewrite Pos.iter_succ, Pos2Z.inj_succ, Z.pow_succ_r by lia.
    rewrite Pos2Z.inj_xO, IH. lia.
Qed.

Lemma iter_xO_digits (p d : positive) :
  digits2_pos (Pos.iter xO p d) = (digits2_pos p + d)%positive.
Proof.
  induction d as [|d IH] using Pos.peano_ind.
  - simpl. lia.
  - rewrite Pos.iter_succ. simpl. rewrite IH. lia.
Qed.

Lemma digits2_pos_bound (p : positive) : forall n : Z,
  0 <= n -> Zpos p < 2 ^ n -> Zpos (digits2_pos p) <= n.
Proof.
  induction p as [p IH|p IH|]; intros n Hn H; simpl.
  - assert (n <> 0) by (intros ->; simpl in H; lia).
    replace n with (Z.succ (n - 1)) in H by lia.
    rewrite Z.pow_succ_r in H by lia.
    specialize (IH (n - 1) ltac:(lia) ltac:(lia)). lia.
  - assert (n <> 0) by (intros ->; simpl in H; lia).
    replace n with (Z.succ (n - 1)) in H by lia.
    rewrite Z.pow_succ_r in H by lia.
    specialize (IH (n - 1) ltac:(lia) ltac:(lia)). lia.
  - assert (n <> 0) by (intros ->; simpl in H; lia). lia.
Qed.

Lemma binary_round_small (s : bool) (p : positive) :
  Zpos (digits2_pos p) <= 53 ->
  exists m e,
    binary_round prec emax s p 0 = S754_finite s m e /\
    valid_binary (S754_finite s m e) = true /\
    e <= 0 /\ Zpos m = Zpos p * 2 ^ (- e).
Proof.
  intros D.
  unfold binary_round, shl_align.
  assert (fexp prec emax (Zpos (digits2_pos p) + 0) = Zpos (digits2_pos p) - 53) as F.
  { unfold fexp, emin, prec, emax. lia. }
  rewrite F, Z.sub_0_r.
  destruct (Zpos (digits2_pos p) - 53) as [|k|k] eqn:K; [ | lia | ].
  - exists p, 0.
    pose proof F as F0.
    unfold binary_round_aux, shr_fexp. cbn [Zdigits2 shr_record_of_loc].
    rewrite F0, Z.sub_diag.
    cbn [shr shr_m round_nearest_even loc_of_shr_record Zdigits2 shr_record_of_loc].
    rewrite F0, Z.sub_diag. cbn [shr shr_m].
    assert ((0 <=? emax - prec) = true) as -> by reflexivity.
    repeat split; try lia.
    unfold SpecFloat.valid_binary, bounded, canonical_mantissa.
    rewrite F0. reflexivity.
  - exists (Pos.iter xO p k), (Zneg k).
    unfold binary_round_aux, shr_fexp. cbn [Zdigits2 shr_record_of_loc].
    assert (fexp prec emax (Zpos (digits2_pos (Pos.iter xO p k)) + Zneg k) = Zneg k) as F'.
    { rewrite iter_xO_digits. unfold fexp, emin, prec, emax. lia. }
    rewrite F', Z.sub_diag.
    cbn [shr shr_m round_nearest_even loc_of_shr_record Zdigits2 shr_record_of_loc].
    rewrite F', Z.sub_diag. cbn [shr shr_m].
    assert ((Zneg k <=? emax - prec) = true) as ->
        by (apply Z.leb_le; unfold emax, prec; lia).
    repeat split; try lia.
    + unfold SpecFloat.valid_binary, bounded, canonical_mantissa. rewrite F'.
      rewrite Z.eqb_refl. simpl. apply Z.leb_le; unfold emax, prec; lia.
    + rewrite iter_xO_value. reflexivity.
Qed.

Lemma finite_not_infinity (x : float) s m e :
  Prim2SF x = S754_finite s m e -> is_infinity x = false.
Proof.
  unfold Prim2SF.
  destruct (is_nan x); [discriminate|].
  destruct (is_zero x); [discriminate|].
  destruct (is_infinity x); [discriminate|reflexivity].
Qed.

Lemma float_of_int_exact (z : Z) :
  Z.abs z < 2 ^ 53 ->
  exists f, float_of_int z = Ok f /\ float_eq_int f z = true.
Proof.
  intros B. unfold float_of_int, float_eq_int.
  destruct z as [|p|p].
  - eexists. split; reflexivity.
  - destruct (binary_round_small false p) as (m & e & R & V & E & M).
    { apply digits2_pos_bound; lia. }
    cbn [binary_normalize]. rewrite R.
    pose proof (Prim2SF_SF2Prim _ V) as P.
    rewrite (finite_not_infinity _ _ _ _ P).
    eexists. split; [reflexivity|]. rewrite P. unfold signed.
    destruct (0 <=? e) eqn:L.
    + apply Z.leb_le in L. assert (e = 0) as -> by lia.
      apply Z.eqb_eq. simpl in M. lia.
    + apply Z.eqb_eq. exact M.
  - destruct (binary_round_small true p) as (m & e & R & V & E & M).
    { apply digits2_pos_bound; lia. }
    cbn [binary_normalize]. rewrite R.
    pose proof (Prim2SF_SF2Prim _ V) as P.
    rewrite (finite_not_infinity _ _ _ _ P).
    eexists. split; [reflexivity|]. rewrite P. unfold signed.
    destruct (0 <=? e) eqn:L.
    + apply Z.leb_le in L. assert (e = 0) as -> by lia.
      apply Z.eqb_eq. simpl in M. lia.
    + apply Z.eqb_eq. rewrite M. lia.
Qed.

Section CellFormat.
Context {host : Report.Host}.

(** A finite float is a zero or a mantissa with an exponent. *)
Lemma finite_cases (x : float) :
  is_finite x = true ->
  (exists s, Prim2SF x = S754_zero s) \/
  (exists s m e, Prim2SF x = S754_finite s m e).
Proof.
  unfold is_finite, Prim2SF. intros H.
  destruct (is_nan x); [discriminate|].
  destruct (is_zero x); [eauto|].
  destruct (is_infinity x); [discriminate|].
  destruct (Z.frexp x) as [r ex].
  destruct (shr_fexp _ _ _ _ _) as [sh e'].
  destruct (shr_m sh); eauto.
Qed.

Lemma finite_not_nan (x : float) : is_finite x = true -> is_nan x = false.
Proof. unfold is_finite. destruct (is_nan x); auto. Qed.

(** [int(x)] is defined on a finite float, and [x == int(x)] says that [x]
    has no fractional part. *)
Lemma int_of_float_finite (x : float) :
  is_finite x = true ->
  exists i, int_of_float x = Ok i /\ float_eq_int x i = negb (has_fraction x).
Proof.
  intros H. unfold int_of_float, float_eq_int, has_fraction.
  destruct (finite_cases x H) as [[s ->]|(s & m & e & ->)].
  - exists 0. split; reflexivity.
  - destruct (0 <=? e) eqn:E.
    + eexists. split; [reflexivity|].
      rewrite Z.eqb_refl.
      apply Z.leb_le in E.
      destruct (e <? 0) eqn:E'; [apply Z.ltb_lt in E'; lia|reflexivity].
    + eexists. split; [reflexivity|].
      apply Z.leb_gt in E.
      assert ((e <? 0) = true) as -> by (apply Z.ltb_lt; lia).
      simpl andb. rewrite negb_involutive.
      assert (0 < 2 ^ (- e)) as P by (apply Z.pow_pos_nonneg; lia).
      pose proof (Z.div_mod (Zpos m) (2 ^ (- e)) ltac:(lia)) as D.
      destruct (Zpos m mod 2 ^ (- e) =? 0) eqn:R.
      * apply Z.eqb_eq in R. apply Z.eqb_eq.
        destruct s; unfold signed; nia.
      * apply Z.eqb_neq in R. apply Z.eqb_neq.
        destruct s; unfold signed; nia.
Qed.

(** The rounding of [format_fixed]: the result is a nearest integer to
    [n / 2^k], and the even one when two are equally near. *)
Lemma round_half_even_shift_nearest (n k : Z) :
  0 <= n -> 0 <= k ->
  2 * Z.abs (n - round_half_even_shift n k * 2 ^ k) <= 2 ^ k /\
  (2 * Z.abs (n - round_half_even_shift n k * 2 ^ k) = 2 ^ k ->
   Z.even (round_half_even_shift n k) = true).
Proof.
  intros Hn Hk. unfold round_half_even_shift.
  assert (0 < 2 ^ k) as P by (apply Z.pow_pos_nonneg; lia).
  pose proof (Z.div_mod n (2 ^ k) ltac:(lia)) as D.
  pose proof (Z.mod_pos_bound n (2 ^ k) P) as B.
  set (p := 2 ^ k) in *. set (q := n / p) in *. set (r := n mod p) in *.
  destruct (Z.compare_spec (2 * r) p) as [E|L|G].
  - destruct (Z.even q) eqn:Q.
    + split; [|auto]. replace (n - q * p) with r by lia. lia.
    + split.
      * replace (n - (q + 1) * p) with (r - p) by lia. lia.
      * intros _. change (q + 1) with (Z.succ q).
        rewrite Z.even_succ, <- Z.negb_even, Q. reflexivity.
  - replace (n - q * p) with r by lia. split; lia.
  - replace (n - (q + 1) * p) with (r - p) by lia. split; lia.
Qed.

(** The three tests that send a value to the placeholder. *)
Lemma format_empty (r : Report.row) (column_name : string) (value : Report.cell) :
  Report.row_get r column_name = Some value ->
  (Report.isna value || Report.is_none value || Report.eq_empty value) = true ->
  Report._format_cell_value r column_name = Ok "-".
Proof.
  intros G E. unfold Report._format_cell_value. now rewrite G, E.
Qed.

Lemma format_percentage (r : Report.row) (f : float) :
  Report.row_get r "Percentage" = Some (Report.CFloat f) ->
  is_nan f = false ->
  Report._format_cell_value r "Percentage" = Ok (format_fixed 2 f ++ "%").
Proof.
  intros G N. unfold Report._format_cell_value. rewrite G. simpl. now rewrite N.
Qed.

Lemma format_number (r : Report.row) (column_name : string) (f : float) :
  Report.row_get r column_name = Some (Report.CFloat f) ->
  In column_name ["Age"; "Total Marks"; "Obtained Marks"] ->
  is_finite f = true ->
  exists i,
    int_of_float f = Ok i /\
    Report._format_cell_value r column_name =
    Ok (if has_fraction f then format_fixed 1 f else str_int i).
Proof.
  intros G C F.
  destruct (int_of_float_finite f F) as (i & I & Q).
  exists i. split; [exact I|].
  unfold Report._format_cell_value. rewrite G. simpl.
  rewrite (finite_not_nan f F).
  destruct C as [<-|[<-|[<-|[]]]]; simpl; rewrite I, Q, negb_involutive;
    reflexivity.
Qed.

Lemma format_integer (r : Report.row) (column_name : string) (z : Z) :
  Report.row_get r column_name = Some (Report.CInt z) ->
  In column_name ["Age"; "Total Marks"; "Obtained Marks"] ->
  Z.abs z < 2 ^ 53 ->
  Report._format_cell_value r column_name = Ok (str_int z).
Proof.
  intros G C B. destruct (float_of_int_exact z B) as (f & F & Q).
  unfold Report._format_cell_value. rewrite G. simpl.
  destruct C as [<-|[<-|[<-|[]]]]; simpl; rewrite F; simpl; rewrite Q;
    reflexivity.
Qed.

(** The numeric cells of a row of the department report, for a student
    with finite marks and an age that fits a database integer. *)
Lemma student_row_cells (env : Env) (s : Student.t) (r : Report.row) :
  Report.student_row env s = Ok r ->
  Z.abs (Student.age s) < 2 ^ 53 ->
  is_finite (Student.total_marks s) = true ->
  is_finite (Student.obtained_marks s) = true ->
  is_finite (Student.percentage s) = true ->
  Report._format_cell_value r "Age" =
    Ok (if Student.age s =? 0 then "-" else str_int (Student.age s)) /\
  Report._format_cell_value r "Total Marks" =
    Ok (if float_truthy (Student.total_marks s)
        then number_text (Student.total_marks s) else "-") /\
  Report._format_cell_value r "Obtained Marks" =
    Ok (if float_truthy (Student.obtained_marks s)
        then number_text (Student.obtained_marks s) else "-") /\
  Report._format_cell_value r "Percentage" =
    Ok (format_fixed 2 (if float_truthy (Student.percentage s)
                        then Student.percentage s else 0%float) ++ "%").
Proof.
  intros H A T O P.
  assert (forall r0 col f, Report.row_get r0 col = Some (Report.CFloat f) ->
            In col ["Age"; "Total Marks"; "Obtained Marks"] ->
            is_finite f = true ->
            Report._format_cell_value r0 col = Ok (number_text f)) as N.
  { intros r0 col f G C F. destruct (format_number r0 col f G C F) as (i & I & ->).
    unfold number_text. now rewrite I. }
  unfold Report.student_row, rbind in H.
  destruct (Report.lookup_name _ _ _) as [department|e]; [|discriminate].
  injection H as <-.
  split; [|split; [|split]].
  - destruct (Student.age s =? 0) eqn:E.
    + apply (format_empty _ "Age" (Report.CStr "")); [|reflexivity].
      reflexivity.
    + apply format_integer; [|simpl; auto|exact A].
      reflexivity.
  - destruct (float_truthy (Student.total_marks s)) eqn:E.
    + apply N; [|simpl; auto|exact T]. reflexivity.
    + apply (format_empty _ "Total Marks" (Report.CStr "")); [|reflexivity].
      reflexivity.
  - destruct (float_truthy (Student.obtained_marks s)) eqn:E.
    + apply N; [|simpl; auto|exact O]. reflexivity.
    + apply (format_empty _ "Obtained Marks" (Report.CStr "")); [|reflexivity].
      reflexivity.
  - apply format_percentage; [reflexivity|].
    destruct (float_truthy (Student.percentage s));
      [now apply finite_not_nan|reflexivity].
Qed.

(** Fixed notation with at least one decimal has a decimal point, and a
    finite float is printed in fixed notation. *)
Lemma contains_char_app (c : ascii) (a b : string) :
  contains_char c (a ++ b) = contains_char c a || contains_char c b.
Proof.
  induction a as [|x a IH]; simpl; [reflexivity|].
  now rewrite IH, orb_assoc.
Qed.

Lemma fixed_notation_has_point (d : nat) (t : string) :
  fixed_notation (S d) t -> contains_char "." t = true.
Proof.
  intros (negative & n & _ & ->). unfold point_digits.
  rewrite !contains_char_app.
  change (contains_char "." ".") with true.
  rewrite orb_true_l. now rewrite !orb_true_r.
Qed.

Lemma round_half_even_shift_nonneg (n k : Z) :
  0 <= n -> 0 <= round_half_even_shift n k.
Proof.
  intros Hn. unfold round_half_even_shift.
  assert (0 <= n / 2 ^ k) as Q.
  { destruct (Z.le_gt_cases 0 k) as [K|K].
    - apply Z.div_pos; [exact Hn|]. apply Z.pow_pos_nonneg; lia.
    - rewrite (Z.pow_neg_r 2 k K), Z.div_0_r. lia. }
  destruct (2 * (n mod 2 ^ k) ?= 2 ^ k); [destruct (Z.even _)| |]; lia.
Qed.

Lemma format_fixed_notation (d : nat) (x : float) :
  is_finite x = true -> fixed_notation d (format_fixed d x).
Proof.
  intros F. unfold format_fixed, fixed_notation.
  destruct (finite_cases x F) as [[sg ->]|(sg & m & e & ->)].
  - exists sg, 0. split; [lia|reflexivity].
  - eexists sg, _. split; [|reflexivity].
    assert (0 <= Zpos m * 10 ^ Z.of_nat d) as N.
    { apply Z.mul_nonneg_nonneg; [lia|]. apply Z.pow_nonneg. lia. }
    destruct (0 <=? e) eqn:E.
    + apply Z.mul_nonneg_nonneg; [exact N|]. apply Z.pow_nonneg. lia.
    + now apply round_half_even_shift_nonneg.
Qed.

Lemma infinity_not_nan (x : float) (sg : bool) :
  Prim2SF x = S754_infinity sg -> is_nan x = false.
Proof. unfold Prim2SF. destruct (is_nan x); [discriminate|reflexivity]. Qed.

Lemma format_infinite_percentage (r : Report.row) (f : float) (sg : bool) :
  Report.row_get r "Percentage" = Some (Report.CFloat f) ->
  Prim2SF f = S754_infinity sg ->
  Report._format_cell_value r "Percentage" =
  Ok ((if sg then "-inf" else "inf") ++ "%").
Proof.
  intros G I. rewrite (format_percentage r f G (infinity_not_nan f sg I)).
  unfold format_fixed. now rewrite I.
Qed.

End CellFormat.

(** C4 as claimed fails on a value that is not finite: the percentage
    computed from 2^1023 marks out of 0.5 is infinite, the row built for
    that student holds it, and the formatter prints ["inf%"], which is not
    a number in fixed notation followed by ["%"]. *)
Lemma infinite_percentage_is_not_fixed_notation :
  let s := Fixture.student 1 "Ali" 20 1 0.5%float 0x1p1023%float in
  exists r,
    Student.percentage s = infinity /\
    Report.student_row Fixture.env_spaced s = Ok r /\
    Report.row_get r "Percentage" = Some (Report.CFloat infinity) /\
    Report._format_cell_value (host := Fixture.host_ok) r "Percentage" =
      Ok "inf%" /\
    ~ (exists t, fixed_notation 2 t /\ "inf%" = t ++ "%").
Proof.
  cbv zeta. eexists.
  split; [vm_compute; reflexivity|].
  split; [vm_compute; reflexivity|].
  split; [vm_compute; reflexivity|].
  split; [vm_compute; reflexivity|].
  intros (t & N & E).
  apply (f_equal (contains_char ".")) in E.
  rewrite contains_char_app, (fixed_notation_has_point 1 t N) in E.
  discriminate E.
Qed.

(** C4 (amended): the formatter sends an empty or null value ([None], NaN,
    the empty string) to ["-"] in every column; a finite float in the
    [Percentage] column to its fixed notation with two decimals followed
    by ["%"], and an infinite one to ["inf%"] or ["-inf%"]; a finite
    float in the [Age], [Total Marks] or [Obtained Marks] column to the
    decimal form of its integer value when it has no fractional part and
    to its fixed notation with one decimal otherwise; and an [int] below
    [2^53] in magnitude in these columns to its decimal form.  So 87.5
    gives ["87.50%"], 20.0 gives ["20"] and 20.5 gives ["20.5"]. *)
Theorem format_cell_value_rules :
  forall (host : Report.Host) (r : Report.row) (column_name : string)
         (value : Report.cell),
    Report.row_get r column_name = Some value ->
    ((value = Report.CNone \/ value = Report.CStr "" \/
      (exists f, value = Report.CFloat f /\ is_nan f = true)) ->
     Report._format_cell_value r column_name = Ok "-") /\
    (forall f : float,
        value = Report.CFloat f ->
        is_finite f = true ->
        column_name = "Percentage" ->
        Report._format_cell_value r column_name = Ok (format_fixed 2 f ++ "%") /\
        fixed_notation 2 (format_fixed 2 f)) /\
    (forall (f : float) (negative : bool),
        value = Report.CFloat f ->
        Prim2SF f = S754_infinity negative ->
        column_name = "Percentage" ->
        Report._format_cell_value r column_name =
        Ok ((if negative then "-inf" else "inf") ++ "%")) /\
    (forall f : float,
        value = Report.CFloat f ->
        is_finite f = true ->
        In column_name ["Age"; "Total Marks"; "Obtained Marks"] ->
        exists i : Z,
          int_of_float f = Ok i /\
          Report._format_cell_value r column_name =
          Ok (if has_fraction f then format_fixed 1 f else str_int i) /\
          fixed_notation 1 (format_fixed 1 f)) /\
    (forall z : Z,
        value = Report.CInt z ->
        Z.abs z < 2 ^ 53 ->
        In column_name ["Age"; "Total Marks"; "Obtained Marks"] ->
        Report._format_cell_value r column_name = Ok (str_int z)) /\
    Report._format_cell_value [("Percentage", Report.CFloat 87.5%float)]
      "Percentage" = Ok "87.50%" /\
    Report._format_cell_value [("Age", Report.CFloat 20%float)] "Age" = Ok "20" /\
    Report._format_cell_value [("Age", Report.CFloat 20.5%float)] "Age" = Ok "20.5" /\
    Report._format_cell_value [("Age", Report.CInt 20)] "Age" = Ok "20" /\
    Report._format_cell_value [("Age", Report.CStr "")] "Age" = Ok "-".
Proof.
  intros host r column_name value G.
  split; [|split; [|split; [|split; [|split]]]].
  - intros E. apply (format_empty r column_name value G).
    destruct E as [->|[->|(f & -> & N)]]; simpl; auto. now rewrite N.
  - intros f -> F ->. split.
    + apply format_percentage; auto using finite_not_nan.
    + now apply format_fixed_notation.
  - intros f negative -> I ->. now apply (format_infinite_percentage r f).
  - intros f -> F C. destruct (format_number r column_name f G C F) as (i & I & H).
    exists i. split; [exact I|]. split; [exact H|].
    now apply format_fixed_notation.
  - intros z -> B C. now apply format_integer.
  - repeat (split; [vm_compute; reflexivity|]). vm_compute. reflexivity.
Qed.

Lemma format_cell_value_rules_witness :
  Report.row_get [("Total Marks", Report.CFloat 437.5%float)] "Total Marks"
  = Some (Report.CFloat 437.5%float) /\
  exists i : Z,
    int_of_float 437.5%float = Ok i /\
    Report._format_cell_value (host := Fixture.host_ok)
      [("Total Marks", Report.CFloat 437.5%float)] "Total Marks"
    = Ok (if has_fraction 437.5%float then format_fixed 1 437.5%float
          else str_int i).
Proof.
  split; [reflexivity|].
  destruct (format_cell_value_rules Fixture.host_ok
              [("Total Marks", Report.CFloat 437.5%float)] "Total Marks"
              (Report.CFloat 437.5%float) eq_refl) as (_ & _ & _ & H & _).
  destruct (H 437.5%float eq_refl) as (i & I & V & _).
  - vm_compute. reflexivity.
  - simpl. auto.
  - exists i. split; [exact I|exact V].
Defined.

(** *** Grouping in the department report *)

Section Grouping.
Context {host : Report.Host}.

Lemma insert_key_in (k x : string) (keys : list string) :
  In k (Report.insert_key x keys) <-> k = x \/ In k keys.
Proof.
  induction keys as [|h t IH]; simpl.
  - intuition.
  - destruct (String.compare x h) eqn:C; simpl.
    + apply String.compare_eq_iff in C. subst h. intuition.
    + intuition.
    + rewrite IH. intuition.
Qed.

Lemma group_keys_in_acc (df : Report.DataFrame) : forall (acc : list string) k,
  In k (fold_left (fun keys r => Report.insert_key (Report.department_of r) keys)
                  df acc) <->
  In k acc \/ exists r, In r df /\ Report.department_of r = k.
Proof.
  induction df as [|r df IH]; intros acc k; simpl.
  - split; [auto|]. intros [H|(r & [] & _)]; exact H.
  - rewrite IH, insert_key_in. split.
    + intros [[->|H]|(r' & I & E)]; eauto.
    + intros [H|(r' & [->|I] & E)]; eauto.
Qed.

(** The keys of the groups are the departments that occur in the rows. *)
Lemma group_keys_in (df : Report.DataFrame) (k : string) :
  In k (Report.group_keys df) <->
  exists r, In r df /\ Report.department_of r = k.
Proof.
  unfold Report.group_keys. rewrite group_keys_in_acc. simpl.
  split; [intros [[]|H]; exact H | auto].
Qed.

(** Every group holds the rows of its department, and at least one: the
    branch of [group_html] for an empty group is never taken. *)
Lemma groupby_nonempty (df : Report.DataFrame) (k : string) (group : Report.DataFrame) :
  In (k, group) (Report.groupby df) ->
  group = filter (fun r => String.eqb (Report.department_of r) k) df /\
  group <> [].
Proof.
  unfold Report.groupby. rewrite in_map_iff.
  intros (k' & E & I). inversion E. subst k'. split; [reflexivity|].
  apply group_keys_in in I as (r & I & D).
  intros N.
  assert (In r (filter (fun r => String.eqb (Report.department_of r) k) df)) as F.
  { apply filter_In. split; [exact I|]. now apply String.eqb_eq. }
  rewrite N in F. exact F.
Qed.

(** A department without students has no group at all. *)
Lemma groupby_skips_empty (df : Report.DataFrame) (k : string) :
  (forall r, In r df -> Report.department_of r <> k) ->
  ~ In k (map fst (Report.groupby df)).
Proof.
  intros H I. unfold Report.groupby in I. rewrite map_map in I. simpl in I.
  rewrite map_id in I. apply group_keys_in in I as (r & I & D).
  exact (H r I D).
Qed.

Lemma last_default {A} (l : list A) : forall a d d',
  last (a :: l) d = last (a :: l) d'.
Proof.
  induction l as [|b l IH]; intros a d d'; [reflexivity|].
  change (last (b :: l) d = last (b :: l) d'). apply IH.
Qed.

(** After the loop over the groups, [dept_name] is the key of the last
    group. *)
Lemma groups_html_label groups : forall html dept_name html' dept_name',
  Report.groups_html groups (html, dept_name) = Ok (html', dept_name') ->
  dept_name' = last (map fst groups) dept_name.
Proof.
  induction groups as [|[k g] groups IH]; intros html dn html' dn' H.
  - simpl in H. now inversion H.
  - cbn [Report.groups_html rbind] in H. unfold rbind in H.
    destruct (Report.group_html (html, dn) (k, g)) as [[h1 d1]|e] eqn:G;
      [|discriminate].
    assert (d1 = k) as ->.
    { unfold Report.group_html, rbind in G.
      destruct g; [inversion G; reflexivity|].
      destruct (Report.rows_html _ _); inversion G; reflexivity. }
    apply IH in H. rewrite H. simpl.
    destruct (map fst groups); [reflexivity|apply last_default].
Qed.

End Grouping.

(** C2, at a failing input: with departments MATH (two students) and
    PHYSICS (none), the report over all departments has a table for MATH with
    one data row per student and the seven columns in order, and nothing for
    PHYSICS: neither its title nor the placeholder row occurs in the
    document. *)
Theorem empty_department_has_no_table :
  forall host : Report.Host,
  exists html dept_name : string,
    Report.department_report_html Fixture.env_two_departments None
    = Ok (html, dept_name) /\
    contains
      ("<div class='department-title'>Department: MATH</div>" ++
       "<table class='student-table'><tr><th>Name</th><th>Father Name</th>" ++
       "<th>Age</th><th>Grade</th><th>Total Marks</th><th>Obtained Marks</th>" ++
       "<th>Percentage</th></tr>" ++
       "<tr><td>Ali</td><td>Akram</td><td>20</td><td>A</td><td>500</td>" ++
       "<td>437.5</td><td>87.50%</td></tr>" ++
       "<tr><td>Sara</td><td>Akram</td><td>21</td><td>A</td><td>500</td>" ++
       "<td>400</td><td>80.00%</td></tr></table></body></html>") html = true /\
    contains "Department: PHYSICS" html = false /\
    contains "PHYSICS" html = false /\
    contains "No students in this department" html = false.
Proof.
  intros host. eexists. eexists. split.
  - vm_compute. reflexivity.
  - vm_compute. repeat split.
Qed.

(** *** The name of the department report attachment *)

(** C3, at a failing input: the report over all departments of a database
    whose students are all in MATH is stored as [Department_Report_MATH.pdf],
    not as [Department_Report_ALL.pdf]; it is linked to record id 0. *)
Theorem all_departments_report_is_misnamed :
  Report.print_department_report (host := Fixture.host_ok) None
    Fixture.env_two_departments
  = (Ok (act_url "/web/content/1?download=true" "self"),
     with_attachments
       [{| Attachment.id := 1;
           Attachment.name := "Department_Report_MATH.pdf";
           Attachment.type := "binary";
           Attachment.datas := Fixture.pdf_bytes;
           Attachment.mimetype := "application/pdf";
           Attachment.res_model := "student";
           Attachment.res_id := 0 |}]
       Fixture.env_two_departments).
Proof. vm_compute. reflexivity. Qed.

(** The same report asked for one department carries that department's
    name, spaces replaced. *)
Example one_department_report_name :
  map Attachment.name
      (attachments (snd (Report.print_department_report (host := Fixture.host_ok)
                           (Some 1) Fixture.env_spaced)))
  = ["Department_Report_Computer_Science.pdf"].
Proof. vm_compute. reflexivity. Qed.

(** *** Zero values in the department report *)

Section DataRows.
Context {host : Report.Host}.

(** The row building turns a zero into the empty string, and the
    formatter turns that into the placeholder. *)
Lemma student_row_zero (env : Env) (s : Student.t) (r : Report.row) :
  Report.student_row env s = Ok r ->
  (Student.age s = 0 ->
   Report.row_get r "Age" = Some (Report.CStr "") /\
   Report._format_cell_value r "Age" = Ok "-") /\
  (PrimFloat.eqb (Student.total_marks s) 0%float = true ->
   Report.row_get r "Total Marks" = Some (Report.CStr "") /\
   Report._format_cell_value r "Total Marks" = Ok "-") /\
  (PrimFloat.eqb (Student.obtained_marks s) 0%float = true ->
   Report.row_get r "Obtained Marks" = Some (Report.CStr "") /\
   Report._format_cell_value r "Obtained Marks" = Ok "-").
Proof.
  intros H. unfold Report.student_row, rbind in H.
  destruct (Report.lookup_name _ _ _) as [department|e]; [|discriminate].
  inversion H as [R]. clear H R.
  unfold Report._format_cell_value, float_truthy.
  split; [|split].
  - intros A. simpl. rewrite A. simpl. auto.
  - intros A. simpl. rewrite A. simpl. auto.
  - intros A. simpl. rewrite A. simpl. auto.
Qed.

(** What the loops append to the document. *)
Lemma cells_html_spec (r : Report.row) (columns : list string) :
  forall html h,
    Report.cells_html r columns html = Ok h ->
    exists cells,
      Forall2 (fun col text => Report._format_cell_value r col = Ok text)
              columns cells /\
      h = html ++ data_cells_html cells.
Proof.
  induction columns as [|col columns IH]; intros html h H.
  - inversion H. exists []. split; [constructor|].
    cbn [data_cells_html fold_right]. now rewrite append_nil_r.
  - cbn [Report.cells_html] in H. unfold rbind in H.
    destruct (Report._format_cell_value r col) as [text|e] eqn:F; [|discriminate].
    apply IH in H as (cells & C & ->).
    exists (text :: cells). split; [now constructor|].
    cbn [data_cells_html fold_right]. now rewrite !append_assoc.
Qed.

Lemma rows_html_ext (group : Report.DataFrame) : forall html h,
  Report.rows_html group html = Ok h -> exists t, h = html ++ t.
Proof.
  induction group as [|r group IH]; intros html h H.
  - inversion H. exists "". now rewrite append_nil_r.
  - cbn [Report.rows_html] in H. unfold rbind in H.
    destruct (Report.cells_html r _ _) as [h1|e] eqn:C; [|discriminate].
    apply cells_html_spec in C as (cells & _ & ->).
    apply IH in H as [t ->]. eexists. rewrite !append_assoc. reflexivity.
Qed.

Lemma rows_html_row (group : Report.DataFrame) : forall html h r,
  Report.rows_html group html = Ok h ->
  In r group ->
  exists cells before after,
    cell_texts r cells /\ h = before ++ data_row_html cells ++ after.
Proof.
  induction group as [|r0 group IH]; intros html h r H I; [destruct I|].
  cbn [Report.rows_html] in H. unfold rbind in H.
  destruct (Report.cells_html r0 _ _) as [h1|e] eqn:C; [|discriminate].
  destruct I as [->|I].
  - apply cells_html_spec in C as (cells & F & ->).
    apply rows_html_ext in H as [t ->].
    exists cells, html, t. split; [exact F|].
    unfold data_row_html. now rewrite !append_assoc.
  - exact (IH _ _ _ H I).
Qed.

Lemma header_cells_ext (columns : list string) : forall html,
  Report.header_cells columns html = html ++ Report.header_cells columns "".
Proof.
  unfold Report.header_cells.
  induction columns as [|col columns IH]; intros html.
  - simpl. now rewrite append_nil_r.
  - cbn [fold_left]. rewrite IH.
    rewrite (IH ("" ++ "<th>" ++ col ++ "</th>")).
    now rewrite !append_assoc.
Qed.

Lemma group_html_ext html dn k (g : Report.DataFrame) h d :
  Report.group_html (html, dn) (k, g) = Ok (h, d) -> exists t, h = html ++ t.
Proof.
  unfold Report.group_html, rbind. rewrite header_cells_ext. intros H.
  destruct g as [|r g].
  - inversion H. eexists. rewrite !append_assoc. reflexivity.
  - destruct (Report.rows_html _ _) as [h1|e] eqn:R; [|discriminate].
    inversion H. subst. apply rows_html_ext in R as [t ->].
    eexists. rewrite !append_assoc. reflexivity.
Qed.

Lemma group_html_row html dn k (g : Report.DataFrame) h d r :
  Report.group_html (html, dn) (k, g) = Ok (h, d) ->
  In r g ->
  exists cells before after,
    cell_texts r cells /\ h = before ++ data_row_html cells ++ after.
Proof.
  unfold Report.group_html, rbind. intros H I.
  destruct g as [|r0 g]; [destruct I|].
  destruct (Report.rows_html _ _) as [h1|e] eqn:R; [|discriminate].
  inversion H. subst.
  destruct (rows_html_row _ _ _ r R I) as (cells & before & after & F & ->).
  exists cells, before, (after ++ "</table>"). split; [exact F|].
  now rewrite !append_assoc.
Qed.

Lemma groups_html_ext groups : forall html dn h d,
  Report.groups_html groups (html, dn) = Ok (h, d) -> exists t, h = html ++ t.
Proof.
  induction groups as [|[k g] groups IH]; intros html dn h d H.
  - inversion H. exists "". now rewrite append_nil_r.
  - cbn [Report.groups_html] in H. unfold rbind in H.
    destruct (Report.group_html (html, dn) (k, g)) as [[h1 d1]|e] eqn:G;
      [|discriminate].
    apply group_html_ext in G as [t1 ->].
    apply IH in H as [t ->]. eexists. rewrite !append_assoc. reflexivity.
Qed.

Lemma groups_html_row groups : forall html dn h d k g r,
  Report.groups_html groups (html, dn) = Ok (h, d) ->
  In (k, g) groups ->
  In r g ->
  exists cells before after,
    cell_texts r cells /\ h = before ++ data_row_html cells ++ after.
Proof.
  induction groups as [|[k0 g0] groups IH]; intros html dn h d k g r H I J;
    [destruct I|].
  cbn [Report.groups_html] in H. unfold rbind in H.
  destruct (Report.group_html (html, dn) (k0, g0)) as [[h1 d1]|e] eqn:G;
    [|discriminate].
  destruct I as [E|I].
  - inversion E. subst k0 g0.
    destruct (group_html_row _ _ _ _ _ _ r G J)
      as (cells & before & after & F & ->).
    apply groups_html_ext in H as [t ->].
    exists cells, before, (after ++ t). split; [exact F|].
    now rewrite !append_assoc.
  - exact (IH _ _ _ _ _ _ _ H I J).
Qed.

(** Every row of the data frame is in the group of its department. *)
Lemma groupby_row (df : Report.DataFrame) (r : Report.row) :
  In r df ->
  exists g, In (Report.department_of r, g) (Report.groupby df) /\ In r g.
Proof.
  intros I. eexists. split.
  - unfold Report.groupby. apply in_map_iff.
    exists (Report.department_of r). split; [reflexivity|].
    apply group_keys_in. eauto.
  - apply filter_In. split; [exact I|apply String.eqb_refl].
Qed.

(** Every student of the result set has its row in the data frame. *)
Lemma build_data_row (env : Env) (l : list Student.t) : forall df s,
  Report.build_data env l = Ok df ->
  In s l ->
  exists r, Report.student_row env s = Ok r /\ In r df.
Proof.
  induction l as [|s0 l IH]; intros df s B I; [destruct I|].
  cbn [Report.build_data] in B. unfold rbind in B.
  destruct (Report.student_row env s0) as [r0|e] eqn:R; [|discriminate].
  destruct (Report.build_data env l) as [rs|e] eqn:B'; [|discriminate].
  inversion B. subst df. destruct I as [->|I].
  - exists r0. split; [exact R|now left].
  - destruct (IH rs s eq_refl I) as (r & Rs & Ir).
    exists r. split; [exact Rs|now right].
Qed.

(** An active student of the reported department has a data row in the
    document. *)
Lemma department_report_html_row (env : Env) (department_id : option Z)
      (html dept_name : string) (s : Student.t) :
  Report.department_report_html env department_id = Ok (html, dept_name) ->
  In s (students env) ->
  Student.active s = true ->
  (Report.arg_id department_id = None \/
   Student.department_id s = Report.arg_id department_id) ->
  exists r cells before after,
    Report.student_row env s = Ok r /\
    cell_texts r cells /\
    html = before ++ data_row_html cells ++ after.
Proof.
  intros H I A D. unfold Report.department_report_html in H.
  unfold rbind at 1 in H.
  destruct (match Report.arg_id department_id with
            | Some i => _
            | None => _
            end) as [[depts dn0]|e] eqn:S; [|discriminate].
  destruct depts as [|d0 depts]; [discriminate|].
  match type of H with
  | context [Report.build_data env ?l] => set (studs := l) in H
  end.
  assert (In s studs) as IS.
  { subst studs. destruct (String.eqb dn0 "ALL") eqn:N.
    - apply filter_In. auto.
    - apply filter_In. split; [exact I|]. rewrite A. cbn [andb].
      destruct D as [D|D].
      + rewrite D in S. inversion S. subst dn0. discriminate N.
      + rewrite D.
        destruct department_id as [[|p|p]|]; cbn [Report.arg_id];
          try apply Z.eqb_refl.
        * cbn [Report.arg_id] in S. inversion S. subst dn0. discriminate N.
        * cbn [Report.arg_id] in S. inversion S. subst dn0. discriminate N. }
  unfold rbind at 1 in H.
  destruct (Report.build_data env studs) as [df|e] eqn:B; [|discriminate].
  destruct (build_data_row env studs df s B IS) as (r & R & Ir).
  destruct df as [|r0 df]; [destruct Ir|].
  unfold rbind in H.
  destruct (Report.groups_html _ _) as [[h dn1]|e] eqn:G; [|discriminate].
  inversion H. subst.
  destruct (groupby_row (r0 :: df) r Ir) as (g & Ig & Irg).
  destruct (groups_html_row _ _ _ _ _ _ _ r G Ig Irg)
    as (cells & before & after & F & ->).
  exists r, cells, before, (after ++ "</body></html>").
  split; [exact R|]. split; [exact F|]. now rewrite !append_assoc.
Qed.

End DataRows.

(** C10: in the document of the department report, the data row of a
    student whose age is 0 has ["-"] in the [Age] cell (the third), and
    the row of one whose total or obtained marks are zero has ["-"] in that
    cell (the fifth, the sixth), because the row building turns a falsy
    number into the empty string, which the formatter prints as the
    placeholder; the formatter itself renders the numbers 0 and 0.0 as
    ["0"]. *)
Theorem zero_values_render_as_placeholder :
  forall (host : Report.Host) (env : Env) (department_id : option Z)
         (html dept_name : string) (s : Student.t),
    Report.department_report_html env department_id = Ok (html, dept_name) ->
    In s (students env) ->
    Student.active s = true ->
    (Report.arg_id department_id = None \/
     Student.department_id s = Report.arg_id department_id) ->
    (exists (r : Report.row) (cells : list string) (before after : string),
        Report.student_row env s = Ok r /\
        Forall2 (fun col text => Report._format_cell_value r col = Ok text)
                ["Name"; "Father Name"; "Age"; "Grade"; "Total Marks";
                 "Obtained Marks"; "Percentage"] cells /\
        html = before ++
               "<tr>" ++
               fold_right (fun text rest => "<td>" ++ text ++ "</td>" ++ rest)
                          "" cells ++
               "</tr>" ++ after /\
        (Student.age s = 0 ->
         Report.row_get r "Age" = Some (Report.CStr "") /\
         nth 2 cells "" = "-") /\
        (PrimFloat.eqb (Student.total_marks s) 0%float = true ->
         Report.row_get r "Total Marks" = Some (Report.CStr "") /\
         nth 4 cells "" = "-") /\
        (PrimFloat.eqb (Student.obtained_marks s) 0%float = true ->
         Report.row_get r "Obtained Marks" = Some (Report.CStr "") /\
         nth 5 cells "" = "-")) /\
    Report._format_cell_value [("Age", Report.CInt 0)] "Age" = Ok "0" /\
    Report._format_cell_value [("Total Marks", Report.CFloat 0%float)]
      "Total Marks" = Ok "0".
Proof.
  intros host env department_id html dept_name s H I A D.
  split; [|split; vm_compute; reflexivity].
  destruct (department_report_html_row env department_id html dept_name s
              H I A D) as (r & cells & before & after & R & F & E).
  destruct (student_row_zero env s r R) as (Za & Zt & Zo).
  exists r, cells, before, after.
  split; [exact R|]. split; [exact F|].
  split; [rewrite E; unfold data_row_html, data_cells_html;
          now rewrite !append_assoc|].
  unfold cell_texts, Report.STANDARD_COLUMNS in F.
  repeat match goal with
         | K : Forall2 _ (_ :: _) _ |- _ => inversion K; subst; clear K
         | K : Forall2 _ [] _ |- _ => inversion K; subst; clear K
         end.
  cbn [nth].
  split; [|split].
  - intros Z0. destruct (Za Z0) as [G V]. split; [exact G|congruence].
  - intros Z0. destruct (Zt Z0) as [G V]. split; [exact G|congruence].
  - intros Z0. destruct (Zo Z0) as [G V]. split; [exact G|congruence].
Qed.

Lemma zero_values_render_as_placeholder_witness :
  exists (html dept_name before after : string) (cells : list string),
    Report.department_report_html (host := Fixture.host_ok)
      Fixture.env_zero (Some 1) = Ok (html, dept_name) /\
    html = before ++
           "<tr>" ++
           fold_right (fun text rest => "<td>" ++ text ++ "</td>" ++ rest)
                      "" cells ++
           "</tr>" ++ after /\
    nth 2 cells "" = "-" /\ nth 4 cells "" = "-" /\ nth 5 cells "" = "-".
Proof.
  assert (exists html dept_name,
             Report.department_report_html (host := Fixture.host_ok)
               Fixture.env_zero (Some 1) = Ok (html, dept_name))
    as (html & dept_name & H).
  { eexists. eexists. vm_compute. reflexivity. }
  destruct (zero_values_render_as_placeholder Fixture.host_ok Fixture.env_zero
              (Some 1) html dept_name
              (Fixture.student 1 "Ali" 0 1 0%float 0%float)
              H (or_introl eq_refl) eq_refl (or_intror eq_refl))
    as ((r & cells & before & after & R & F & E & Za & Zt & Zo) & _).
  exists html, dept_name, before, after, cells.
  split; [exact H|]. split; [exact E|].
  split; [exact (proj2 (Za eq_refl))|].
  split; [exact (proj2 (Zt eq_refl))|exact (proj2 (Zo eq_refl))].
Defined.

(** The row of the all-zero student as the report prints it. *)
Example zero_student_row_html :
  match Report.department_report_html (host := Fixture.host_ok)
          Fixture.env_zero (Some 1) with
  | Ok (html, _) =>
      contains ("<tr><td>Ali</td><td>Akram</td><td>-</td><td>A</td>" ++
                "<td>-</td><td>-</td><td>0.00%</td></tr>") html
  | Raise _ => false
  end = true.
Proof. vm_compute. reflexivity. Qed.

(* ------------------------------------------------------------------ *)
(** ** Further properties of the code *)
(* ------------------------------------------------------------------ *)

(** *** The report wizard as a caller of the generator *)

Section WizardRuns.
Context {host : Report.Host}.

Lemma action_generate_report_single (w : ReportWizard.t) (i : Z) (env : Env) :
  ReportWizard.report_type w = "single" ->
  ReportWizard.student_id w = Some i ->
  ReportWizard.action_generate_report [w] env =
  wrapped "Error generating single student report:"
          (Report.generate_single_student_report i env).
Proof.
  intros T S. unfold ReportWizard.action_generate_report, wrapped, try_except, raise.
  rewrite T, S. simpl.
  destruct (Report.generate_single_student_report i env) as [[a|e] env']; reflexivity.
Qed.

Lemma action_generate_report_department (w : ReportWizard.t) (i : Z) (env : Env) :
  ReportWizard.report_type w = "department" ->
  ReportWizard.department_id w = Some i ->
  ReportWizard.action_generate_report [w] env =
  wrapped "Error generating department report:"
          (Report.print_department_report (Some i) env).
Proof.
  intros T D. unfold ReportWizard.action_generate_report, wrapped, try_except, raise.
  rewrite T, D. simpl.
  destruct (Report.print_department_report (Some i) env) as [[a|e] env']; reflexivity.
Qed.

End WizardRuns.

(** X1: whatever goes wrong when the report wizard is submitted, the caller
    sees a [UserError] (or the [ValueError] of [ensure_one] when the
    recordset is not one wizard), and the database is as it was before. *)
Theorem report_wizard_errors_are_user_errors :
  forall (host : Report.Host) (self : list ReportWizard.t) (env env' : Env)
         (e : exn),
    ReportWizard.action_generate_report self env = (Raise e, env') ->
    env' = env /\
    ((exists w, self = [w]) -> exists msg, e = UserError msg) /\
    ((forall w, self <> [w]) -> exists msg, e = ValueError msg).
Proof.
  intros host self env env' e H.
  destruct self as [|w [|w' self]].
  - inversion H. split; [reflexivity|]. split; [intros [w W]; discriminate W|eauto].
  - assert (env' = env /\ exists msg, e = UserError msg) as [E U].
    { unfold ReportWizard.action_generate_report in H.
      destruct (String.eqb (ReportWizard.report_type w) "single").
      - destruct (ReportWizard.student_id w) as [i|];
          [|inversion H; eauto].
        unfold try_except, raise in H.
        destruct (Report.generate_single_student_report i env) as [[a|e0] env0] eqn:G;
          inversion H; subst.
        split; [|eauto]. eapply generate_single_student_report_raise, G.
      - destruct (String.eqb (ReportWizard.report_type w) "department");
          [|inversion H; eauto].
        destruct (ReportWizard.department_id w) as [i|];
          [|inversion H; eauto].
        unfold try_except, raise in H.
        destruct (Report.print_department_report (Some i) env) as [[a|e0] env0] eqn:G;
          inversion H; subst.
        split; [|eauto]. eapply print_department_report_raise, G. }
    split; [exact E|]. split; [intros _; exact U|].
    intros N. exfalso. exact (N w eq_refl).
  - inversion H. split; [reflexivity|].
    split; [intros [w0 W]; discriminate W|eauto].
Qed.

Lemma report_wizard_errors_are_user_errors_witness :
  ReportWizard.action_generate_report (host := Fixture.host_raising)
    [ReportWizard.change_report_type "department" opened_wizard]
    Fixture.env_spaced
  = (Raise (UserError ("Error generating department report:" ++ newline ++
                       "PDF creation failed: no font")),
     Fixture.env_spaced) /\
  Fixture.env_spaced = Fixture.env_spaced.
Proof.
  assert (ReportWizard.action_generate_report (host := Fixture.host_raising)
            [ReportWizard.change_report_type "department" opened_wizard]
            Fixture.env_spaced
          = (Raise (UserError ("Error generating department report:" ++ newline ++
                               "PDF creation failed: no font")),
             Fixture.env_spaced)) as H by (vm_compute; reflexivity).
  split; [exact H|].
  exact (proj1 (report_wizard_errors_are_user_errors Fixture.host_raising
                  _ _ _ _ H)).
Defined.

(** X2: the report wizard opened from an existing student and submitted as
    it is produces the single report of that very student, its errors
    prefixed with the report type. *)
Theorem open_report_wizard_and_submit :
  forall (host : Report.Host) (env : Env) (i : Z) (s : Student.t),
    find (fun r => Student.id r =? i) (students env) = Some s ->
    exists opening,
      Students.action_open_report_choice [i] env = (Ok opening, env) /\
      ReportWizard.default_get opening =
      {| ReportWizard.id := 1; ReportWizard.report_type := "single";
         ReportWizard.student_id := Some (Student.id s);
         ReportWizard.department_id := Student.department_id s |} /\
      Student.id s = i /\
      ReportWizard.action_generate_report [ReportWizard.default_get opening] env =
      wrapped "Error generating single student report:"
              (Report.generate_single_student_report i env).
Proof.
  intros host env i s F.
  assert (Student.id s = i) as I.
  { apply find_some in F. now apply Z.eqb_eq. }
  unfold Students.action_open_report_choice, Students.read.
  unfold_m. unfold_m. cbn beta iota.
  rewrite F. eexists. split; [reflexivity|]. split; [reflexivity|].
  split; [exact I|].
  apply action_generate_report_single; simpl; congruence.
Qed.

Lemma open_report_wizard_and_submit_witness :
  exists opening,
    Students.action_open_report_choice [1] Fixture.env_spaced
    = (Ok opening, Fixture.env_spaced) /\
    fst (ReportWizard.action_generate_report (host := Fixture.host_ok)
           [ReportWizard.default_get opening] Fixture.env_spaced)
    = Ok (act_url "/web/content/1?download=true" "self").
Proof.
  destruct (open_report_wizard_and_submit Fixture.host_ok Fixture.env_spaced 1
              (Fixture.student 1 "Ali" 20 1 500%float 437.5%float) eq_refl)
    as (opening & O & _ & _ & S).
  exists opening. split; [exact O|]. rewrite S. vm_compute. reflexivity.
Defined.

(** X3: the email wizard opened from a student starts with an empty
    recipient (the student model has no [email] field), so submitting it as
    it is always fails with the recipient error. *)
Theorem open_email_wizard_and_submit :
  forall (env : Env) (i : Z) (s : Student.t),
    find (fun r => Student.id r =? i) (students env) = Some s ->
    exists opening,
      Students.action_open_send_email_wizard [i] env = (Ok opening, env) /\
      EmailWizard.student_id (EmailWizard.default_get opening) = Some (Student.id s) /\
      EmailWizard.email_to (EmailWizard.default_get opening) = Some "" /\
      EmailWizard.action_send_email [EmailWizard.default_get opening] env =
      (Raise (UserError "Recipient email is required!"), env).
Proof.
  intros env i s F.
  assert (Student.id s = i) as I.
  { apply find_some in F. now apply Z.eqb_eq. }
  unfold Students.action_open_send_email_wizard.
  unfold_m. unfold_m. cbn beta iota.
  eexists. split; [reflexivity|]. rewrite I. repeat split.
Qed.

Lemma open_email_wizard_and_submit_witness :
  exists opening,
    Students.action_open_send_email_wizard [1] Fixture.env_spaced
    = (Ok opening, Fixture.env_spaced) /\
    EmailWizard.action_send_email [EmailWizard.default_get opening]
      Fixture.env_spaced
    = (Raise (UserError "Recipient email is required!"), Fixture.env_spaced).
Proof.
  destruct (open_email_wizard_and_submit Fixture.env_spaced 1
              (Fixture.student 1 "Ali" 20 1 500%float 437.5%float) eq_refl)
    as (opening & O & _ & _ & S).
  exists opening. split; [exact O|exact S].
Defined.

(** *** The email wizard: mode change and recordsets *)

(** X4: the handler of the email wizard keeps the mode, the recipient and
    the phone; in mode ['single'] it clears the department and keeps the
    student, in mode ['department'] the other way round, and for any other
    mode it changes nothing.  Switching to one mode and then to the other
    therefore leaves neither selection, and the submission asks for the
    field of the last mode again. *)
Theorem email_wizard_onchange :
  forall (w : EmailWizard.t),
    (EmailWizard.report_type (EmailWizard._onchange_report_type w) =
       EmailWizard.report_type w /\
     EmailWizard.email_to (EmailWizard._onchange_report_type w) =
       EmailWizard.email_to w /\
     EmailWizard.phone (EmailWizard._onchange_report_type w) = EmailWizard.phone w) /\
    (EmailWizard.report_type w = "single" ->
     EmailWizard.department_id (EmailWizard._onchange_report_type w) = None /\
     EmailWizard.student_id (EmailWizard._onchange_report_type w) =
       EmailWizard.student_id w) /\
    (EmailWizard.report_type w = "department" ->
     EmailWizard.student_id (EmailWizard._onchange_report_type w) = None /\
     EmailWizard.department_id (EmailWizard._onchange_report_type w) =
       EmailWizard.department_id w) /\
    (EmailWizard.report_type w <> "single" ->
     EmailWizard.report_type w <> "department" ->
     EmailWizard._onchange_report_type w = w) /\
    (forall env : Env,
        char_truthy (EmailWizard.email_to w) = true ->
        EmailWizard.action_send_email
          [EmailWizard.change_report_type "department"
             (EmailWizard.change_report_type "single" w)] env =
        (Raise (UserError "Please select a department for the department report."),
         env)).
Proof.
  intros w. unfold EmailWizard._onchange_report_type.
  split; [|split; [|split; [|split]]].
  - destruct (String.eqb (EmailWizard.report_type w) "single");
      [|destruct (String.eqb (EmailWizard.report_type w) "department")];
      repeat split.
  - intros ->. split; reflexivity.
  - intros ->. split; reflexivity.
  - intros N1 N2.
    apply String.eqb_neq in N1. apply String.eqb_neq in N2.
    now rewrite N1, N2.
  - intros env T. unfold EmailWizard.action_send_email. simpl. now rewrite T.
Qed.

Lemma email_wizard_onchange_witness :
  EmailWizard.department_id
    (EmailWizard._onchange_report_type
       {| EmailWizard.id := 1; EmailWizard.report_type := "single";
          EmailWizard.student_id := Some 1; EmailWizard.department_id := Some 2;
          EmailWizard.email_to := None; EmailWizard.phone := None |}) = None /\
  EmailWizard.student_id
    (EmailWizard._onchange_report_type
       {| EmailWizard.id := 1; EmailWizard.report_type := "single";
          EmailWizard.student_id := Some 1; EmailWizard.department_id := Some 2;
          EmailWizard.email_to := None; EmailWizard.phone := None |}) = Some 1.
Proof.
  exact (proj1 (proj2 (email_wizard_onchange
           {| EmailWizard.id := 1; EmailWizard.report_type := "single";
              EmailWizard.student_id := Some 1; EmailWizard.department_id := Some 2;
              EmailWizard.email_to := None; EmailWizard.phone := None |}))
           eq_refl).
Defined.

(** X5: the submission of the email wizard looks at the first wizard of
    the recordset only: whatever follows is neither validated nor reported,
    and on an empty recordset the method returns [None] without raising
    (it does not call [ensure_one]). *)
Theorem email_wizard_first_record_only :
  forall (wizard : EmailWizard.t) (rest : list EmailWizard.t) (env : Env),
    EmailWizard.action_send_email (wizard :: rest) env =
    EmailWizard.action_send_email [wizard] env /\
    EmailWizard.action_send_email [] env = (Ok None, env) /\
    (forall outcome env',
        EmailWizard.action_send_email (wizard :: rest) env = (outcome, env') ->
        outcome <> Ok None /\ forall msg, outcome <> Raise (ValueError msg)).
Proof.
  intros wizard rest env. split; [reflexivity|]. split; [reflexivity|].
  intros outcome env' H. unfold EmailWizard.action_send_email in H.
  destruct (negb _); [inversion H; split; [|intros msg]; discriminate|].
  destruct (_ && _); [inversion H; split; [|intros msg]; discriminate|].
  destruct (_ && _); inversion H; split; try intros msg; discriminate.
Qed.

(** *** Archive and restore, composed *)

Section ArchiveRoundTrip.

Lemma with_active_same (r : Student.t) :
  Student.with_active (Student.active r) r = r.
Proof. destruct r; reflexivity. Qed.

Lemma set_active_in_twice b b' i rows :
  set_active_in b i (set_active_in b' i rows) = set_active_in b i rows.
Proof.
  unfold set_active_in. rewrite map_map. apply map_ext. intros r.
  destruct (Student.id r =? i) eqn:E; simpl; rewrite E; reflexivity.
Qed.

Lemma set_active_in_same b i rows :
  (forall r, In r rows -> Student.id r = i -> Student.active r = b) ->
  set_active_in b i rows = rows.
Proof.
  intros H. unfold set_active_in.
  rewrite <- (map_id rows) at 2. apply map_ext_in. intros r I.
  destruct (Student.id r =? i) eqn:E; [|reflexivity].
  apply Z.eqb_eq in E. rewrite <- (H r I E). apply with_active_same.
Qed.

Lemma with_students_twice rows rows' env :
  with_students rows (with_students rows' env) = with_students rows env.
Proof. reflexivity. Qed.

Lemma with_students_same env : with_students (students env) env = env.
Proof. destruct env; reflexivity. Qed.

End ArchiveRoundTrip.

(** X6: archiving an active student and then restoring it brings back the
    database exactly as it was (and the other way round for an archived
    one); restoring a student that is active, or archiving one that is
    archived, writes nothing new; and doing either action twice is the same
    as doing it once. *)
Theorem archive_restore_round_trip :
  forall (env : Env) (i : Z) (s : Student.t),
    find (fun r => Student.id r =? i) (students env) = Some s ->
    ((forall r, In r (students env) -> Student.id r = i -> Student.active r = true) ->
     snd (Students.action_restore_record [i] env) = env /\
     Students.action_restore_record [i]
       (snd (Students.action_delete_record [i] env)) =
     (Ok (display_notification "Restored!"
            ("Student " ++ Student.name s ++ " has been restored.")
            "success" false false), env)) /\
    ((forall r, In r (students env) -> Student.id r = i -> Student.active r = false) ->
     snd (Students.action_delete_record [i] env) = env /\
     Students.action_delete_record [i]
       (snd (Students.action_restore_record [i] env)) =
     (Ok (display_notification "Archived!"
            ("Student " ++ Student.name s ++ " has been archived.")
            "warning" false false), env)) /\
    Students.action_delete_record [i] (snd (Students.action_delete_record [i] env)) =
    Students.action_delete_record [i] env /\
    Students.action_restore_record [i] (snd (Students.action_restore_record [i] env)) =
    Students.action_restore_record [i] env.
Proof.
  intros env i s F.
  pose proof (action_delete_record_run i env s F) as A.
  pose proof (action_restore_record_run i env s F) as R.
  assert (forall b,
             find (fun r => Student.id r =? i)
                  (students (with_students (set_active_in b i (students env)) env))
             = Some (Student.with_active b s)) as F'.
  { intros b. now apply find_set_active_in. }
  assert (forall rows, students (with_students rows env) = rows) as S
      by reflexivity.
  split; [|split; [|split]].
  - intros H. rewrite A, R. cbn [snd]. split.
    + now rewrite (set_active_in_same true i _ H), with_students_same.
    + rewrite (action_restore_record_run i _ _ (F' false)).
      rewrite S, with_students_twice, set_active_in_twice.
      rewrite (set_active_in_same true i _ H), with_students_same.
      reflexivity.
  - intros H. rewrite A, R. cbn [snd]. split.
    + now rewrite (set_active_in_same false i _ H), with_students_same.
    + rewrite (action_delete_record_run i _ _ (F' true)).
      rewrite S, with_students_twice, set_active_in_twice.
      rewrite (set_active_in_same false i _ H), with_students_same.
      reflexivity.
  - rewrite A. cbn [snd].
    rewrite (action_delete_record_run i _ _ (F' false)).
    rewrite S, with_students_twice, set_active_in_twice. reflexivity.
  - rewrite R. cbn [snd].
    rewrite (action_restore_record_run i _ _ (F' true)).
    rewrite S, with_students_twice, set_active_in_twice. reflexivity.
Qed.

Lemma archive_restore_round_trip_witness :
  Students.action_restore_record [1]
    (snd (Students.action_delete_record [1] Fixture.env_spaced))
  = (Ok (display_notification "Restored!" "Student Ali has been restored."
           "success" false false),
     Fixture.env_spaced).
Proof.
  refine (proj2 (proj1
            (archive_restore_round_trip Fixture.env_spaced 1
               (Fixture.student 1 "Ali" 20 1 500%float 437.5%float) eq_refl)
            _)).
  intros r [<-|[]] _. reflexivity.
Defined.

(** *** The department report, case by case *)

Section DepartmentReport.
Context {host : Report.Host}.

Lemma find_filter_nonempty {A} (p : A -> bool) (l : list A) (x : A) :
  find p l = Some x -> filter p l <> [].
Proof.
  induction l as [|a l IH]; simpl; [discriminate|].
  destruct (p a); [discriminate|auto].
Qed.

Lemma filter_nil_iff {A} (p : A -> bool) (l : list A) :
  (forall x, In x l -> p x = false) -> filter p l = [].
Proof.
  induction l as [|a l IH]; simpl; intros H; [reflexivity|].
  rewrite (H a (or_introl eq_refl)). apply IH. intros x I. apply H. now right.
Qed.

Lemma str_or_nonempty (v d : string) : v <> "" -> Report.str_or v d = v.
Proof. destruct v; [congruence|reflexivity]. Qed.

(** The rows built for students of one department carry its name. *)
Lemma build_data_department (env : Env) (i : Z) (d : Lookup.t) :
  find (fun r => Lookup.id r =? i) (departments env) = Some d ->
  forall (l : list Student.t) (df : Report.DataFrame),
    (forall s, In s l -> Student.department_id s = Some i) ->
    Report.build_data env l = Ok df ->
    forall r, In r df -> Report.department_of r = Lookup.name d.
Proof.
  intros F l. induction l as [|s l IH]; intros df H B r I.
  - inversion B. subst. destruct I.
  - cbn [Report.build_data] in B. unfold rbind in B.
    destruct (Report.student_row env s) as [r0|e] eqn:R; [|discriminate].
    destruct (Report.build_data env l) as [rs|e] eqn:B'; [|discriminate].
    inversion B. subst df. destruct I as [<-|I].
    + unfold Report.student_row, rbind, Report.lookup_name in R.
      rewrite (H s (or_introl eq_refl)), F in R. inversion R. reflexivity.
    + apply (IH rs); auto. intros s' I'. apply H. now right.
Qed.

Lemma last_all_equal (l : list string) (n : string) :
  (forall k, In k l -> k = n) -> last l n = n.
Proof.
  induction l as [|a l IH]; intros H; [reflexivity|].
  destruct l as [|b l]; [apply H; now left|].
  change (last (b :: l) n = n). apply IH. intros k I. apply H. now right.
Qed.

(** Steps 1 to 6 for one selected department whose name is neither empty
    nor ["ALL"]. *)
Lemma department_report_html_single (env : Env) (i : Z) (d : Lookup.t) :
  i <> 0 ->
  find (fun r => Lookup.id r =? i) (departments env) = Some d ->
  Lookup.name d <> "" ->
  Lookup.name d <> "ALL" ->
  Report.department_report_html env (Some i) =
  rbind (Report.build_data env
           (filter (fun s => Student.active s &&
                             match Student.department_id s with
                             | Some d' => d' =? i
                             | None => false
                             end) (students env)))
        (fun df =>
           match df with
           | [] => Ok (empty_report_html (Lookup.name d), Lookup.name d)
           | _ :: _ =>
               rbind (Report.groups_html (Report.groupby df)
                        (Report.department_head (Lookup.name d), Lookup.name d))
                     (fun st => Ok (fst st ++ "</body></html>", snd st))
           end).
Proof.
  intros N F E A. unfold Report.department_report_html.
  assert (Report.arg_id (Some i) = Some i) as ->
      by (destruct i; [congruence|reflexivity|reflexivity]).
  unfold Report.lookup_name at 1. rewrite F. cbn [rbind].
  rewrite (str_or_nonempty _ _ E).
  destruct (filter (fun d0 => Lookup.id d0 =? i) (departments env)) eqn:Q;
    [exfalso; exact (find_filter_nonempty _ _ _ F Q)|].
  apply String.eqb_neq in A. rewrite A.
  destruct (Report.build_data env _) as [df|e]; [|reflexivity].
  cbn [rbind]. destruct df as [|r df].
  - cbn [rbind]. unfold empty_report_html, department_header_row.
    f_equal. f_equal. cbn [Report.header_cells Report.STANDARD_COLUMNS fold_left].
    rewrite !append_assoc. reflexivity.
  - destruct (Report.groups_html _ _) as [[h0 l0]|e0]; reflexivity.
Qed.

(** Steps 1 to 6 when all departments are asked for. *)
Lemma department_report_html_all (env : Env) (department_id : option Z) :
  Report.arg_id department_id = None ->
  departments env <> [] ->
  Report.department_report_html env department_id =
  rbind (Report.build_data env (filter Student.active (students env)))
        (fun df =>
           match df with
           | [] => Ok (empty_report_html "ALL", "ALL")
           | _ :: _ =>
               rbind (Report.groups_html (Report.groupby df)
                        (Report.department_head "ALL", "ALL"))
                     (fun st => Ok (fst st ++ "</body></html>", snd st))
           end).
Proof.
  intros A N. unfold Report.department_report_html. rewrite A. cbn [rbind].
  destruct (departments env) eqn:Q; [congruence|].
  cbn [String.eqb Ascii.eqb Bool.eqb andb].
  destruct (Report.build_data env _) as [df|e]; [|reflexivity].
  cbn [rbind]. destruct df as [|r df].
  - cbn [rbind]. vm_compute. reflexivity.
  - destruct (Report.groups_html _ _) as [[h0 l0]|e0]; reflexivity.
Qed.

End DepartmentReport.

(** The id handed out by a create is above every id of the table. *)
Lemma fresh_id_above {R : Type} (id : R -> Z) (rows : list R) (b : R) :
  In b rows -> id b < fresh_id id rows.
Proof.
  unfold fresh_id. induction rows as [|c l IH]; intros I; [destruct I|].
  cbn [fold_right]. destruct I as [<-|I]; [lia|]. specialize (IH I). lia.
Qed.

(** X7: with an empty department table, a report over all departments
    raises [UserError("No departments found.")] whatever students exist, and
    nothing is written; through the PDF engine nothing is even attempted. *)
Theorem department_report_needs_a_department :
  forall (host : Report.Host) (env : Env) (department_id : option Z),
    Report.arg_id department_id = None ->
    departments env = [] ->
    Report.print_department_report department_id env =
    (Raise (UserError "No departments found."), env).
Proof.
  intros host env d A E.
  rewrite print_department_report_run.
  unfold Report.department_report_html. rewrite A, E. reflexivity.
Qed.

Lemma department_report_needs_a_department_witness :
  Report.print_department_report (host := Fixture.host_ok) (Some 0)
    (with_students (students Fixture.env_spaced) Fixture.empty_env)
  = (Raise (UserError "No departments found."),
     with_students (students Fixture.env_spaced) Fixture.empty_env).
Proof.
  apply (department_report_needs_a_department Fixture.host_ok
           (with_students (students Fixture.env_spaced) Fixture.empty_env)
           (Some 0)); reflexivity.
Defined.

(** X8: when no student is fetched (every student is archived, or none
    belongs to the selected department), the document is the head, one
    department title with the report label, the header row and the single
    placeholder row "No student records found for this department"; the
    label is "ALL" for all departments and the department's name for a
    selected one. *)
Theorem empty_result_set_report :
  forall (host : Report.Host) (env : Env),
    (forall department_id : option Z,
        Report.arg_id department_id = None ->
        departments env <> [] ->
        (forall s, In s (students env) -> Student.active s = false) ->
        Report.department_report_html env department_id =
        Ok (empty_report_html "ALL", "ALL")) /\
    (forall (i : Z) (d : Lookup.t),
        i <> 0 ->
        find (fun r => Lookup.id r =? i) (departments env) = Some d ->
        Lookup.name d <> "" ->
        Lookup.name d <> "ALL" ->
        (forall s, In s (students env) -> Student.active s = true ->
                   Student.department_id s <> Some i) ->
        Report.department_report_html env (Some i) =
        Ok (empty_report_html (Lookup.name d), Lookup.name d)).
Proof.
  intros host env. split.
  - intros d A N H. rewrite (department_report_html_all env d A N).
    rewrite (filter_nil_iff _ _ H). reflexivity.
  - intros i d N F E A H. rewrite (department_report_html_single env i d N F E A).
    rewrite filter_nil_iff; [reflexivity|].
    intros s I. destruct (Student.active s) eqn:T; [|reflexivity].
    specialize (H s I T). simpl.
    destruct (Student.department_id s) as [d'|]; [|reflexivity].
    apply Z.eqb_neq. congruence.
Qed.

Lemma empty_result_set_report_witness :
  Report.department_report_html (host := Fixture.host_ok)
    Fixture.env_two_departments (Some 2)
  = Ok (empty_report_html "PHYSICS", "PHYSICS").
Proof.
  apply (proj2 (empty_result_set_report Fixture.host_ok
                  Fixture.env_two_departments) 2
           {| Lookup.id := 2; Lookup.name := "PHYSICS" |}).
  - discriminate.
  - reflexivity.
  - discriminate.
  - discriminate.
  - intros s [<-|[<-|[]]] _; discriminate.
Defined.

(** X9: a report on one selected department whose name is neither empty
    nor "ALL", when it succeeds, adds exactly one attachment, named
    [Department_Report_<name>.pdf] with the spaces of the name replaced by
    underscores, linked to record id 0 of model [student], and returns the
    download URL of that attachment; nothing else in the database changes. *)
Theorem single_department_report_attachment :
  forall (host : Report.Host) (env env' : Env) (i : Z) (d : Lookup.t)
         (a : action),
    i <> 0 ->
    find (fun r => Lookup.id r =? i) (departments env) = Some d ->
    Lookup.name d <> "" ->
    Lookup.name d <> "ALL" ->
    Report.print_department_report (Some i) env = (Ok a, env') ->
    exists att : Attachment.t,
      env' = with_attachments (attachments env ++ [att]) env /\
      Attachment.name att =
        "Department_Report_" ++ replace_char " " "_" (Lookup.name d) ++ ".pdf" /\
      Attachment.res_id att = 0 /\
      Attachment.res_model att = "student" /\
      Attachment.mimetype att = "application/pdf" /\
      (forall b, In b (attachments env) -> Attachment.id b < Attachment.id att) /\
      a = act_url ("/web/content/" ++ str_int (Attachment.id att) ++
                   "?download=true") "self".
Proof.
  intros host env env' i d a N F E A H.
  rewrite print_department_report_run in H.
  destruct (Report.department_report_html env (Some i)) as [[html dn]|e] eqn:Q;
    [|discriminate].
  assert (dn = Lookup.name d) as ->.
  { rewrite (department_report_html_single env i d N F E A) in Q.
    unfold rbind in Q.
    destruct (Report.build_data env _) as [df|e] eqn:B; [|discriminate].
    destruct df as [|r df]; [now inversion Q|].
    destruct (Report.groups_html _ _) as [[h l]|e] eqn:G; [|discriminate].
    inversion Q. subst. cbn [snd].
    rewrite (groups_html_label _ _ _ _ _ G).
    apply last_all_equal. intros k I.
    unfold Report.groupby in I. rewrite map_map in I. cbn [fst] in I.
    rewrite map_id in I. apply group_keys_in in I as (r' & I & <-).
    apply (build_data_department env i d F _ _) with (r := r') in B; auto.
    intros s S. apply filter_In in S as [_ S].
    apply andb_prop in S as [_ S].
    destruct (Student.department_id s) as [d'|]; [|discriminate].
    apply Z.eqb_eq in S. now subst. }
  destruct (Report.create_pdf html) as [pdf|e]; [|discriminate].
  inversion H. subst.
  exists (department_attachment env (Lookup.name d) pdf).
  repeat split.
  intros b I. unfold department_attachment. cbn [Attachment.id].
  now apply fresh_id_above.
Qed.

Lemma single_department_report_attachment_witness :
  exists att : Attachment.t,
    snd (Report.print_department_report (host := Fixture.host_ok) (Some 1)
           Fixture.env_spaced)
    = with_attachments (attachments Fixture.env_spaced ++ [att])
        Fixture.env_spaced /\
    Attachment.name att = "Department_Report_Computer_Science.pdf".
Proof.
  destruct (single_department_report_attachment Fixture.host_ok
              Fixture.env_spaced
              (snd (Report.print_department_report (host := Fixture.host_ok)
                      (Some 1) Fixture.env_spaced))
              1 {| Lookup.id := 1; Lookup.name := "Computer Science" |}
              (act_url "/web/content/1?download=true" "self"))
    as (att & E & Nm & _).
  - discriminate.
  - reflexivity.
  - discriminate.
  - discriminate.
  - vm_compute. reflexivity.
  - exists att. split; [exact E|exact Nm].
Defined.

(** *** Archived students and the department report *)

Section ActiveOnly.
Context {host : Report.Host}.

Lemma build_data_departments (env1 env2 : Env) (l : list Student.t) :
  departments env1 = departments env2 ->
  Report.build_data env1 l = Report.build_data env2 l.
Proof.
  intros D. induction l as [|s l IH]; [reflexivity|].
  cbn [Report.build_data]. unfold Report.student_row. now rewrite D, IH.
Qed.

Lemma filter_and {A} (p q : A -> bool) (l : list A) :
  filter (fun x => p x && q x) l = filter q (filter p l).
Proof.
  induction l as [|a l IH]; [reflexivity|]. simpl.
  destruct (p a); simpl; [destruct (q a)|]; now rewrite IH.
Qed.

(** The document depends on the department table and on the active
    students only. *)
Lemma department_report_html_active (env1 env2 : Env) (department_id : option Z) :
  departments env1 = departments env2 ->
  filter Student.active (students env1) = filter Student.active (students env2) ->
  Report.department_report_html env1 department_id =
  Report.department_report_html env2 department_id.
Proof.
  intros D S. unfold Report.department_report_html.
  rewrite !(filter_and Student.active), S, D.
  pose proof (build_data_departments env1 env2) as B. specialize (fun l => B l D).
  destruct (Report.arg_id department_id) as [i|].
  - destruct (Report.lookup_name (departments env2) (Some i) "") as [name|e];
      [|reflexivity].
    cbn [rbind]. destruct (filter _ (departments env2)); [reflexivity|].
    now rewrite B.
  - cbn [rbind]. destruct (departments env2); [reflexivity|].
    now rewrite B.
Qed.

Lemma filter_twice {A} (p : A -> bool) (l : list A) :
  filter p (filter p l) = filter p l.
Proof.
  induction l as [|a l IH]; [reflexivity|]. simpl.
  destruct (p a) eqn:E; simpl; [rewrite E|]; now rewrite IH.
Qed.

Lemma filter_active_archived (i : Z) (rows : list Student.t) :
  filter Student.active (set_active_in false i rows) =
  filter Student.active (filter (fun r => negb (Student.id r =? i)) rows).
Proof.
  unfold set_active_in. induction rows as [|r rows IH]; [reflexivity|].
  simpl. destruct (Student.id r =? i); simpl; [exact IH|].
  destruct (Student.active r); now rewrite IH.
Qed.

End ActiveOnly.

(** X10: the department report prints active students only: it is the
    same document for two databases with the same departments and the same
    active students, and after a student is archived it is the document of
    the database without that student. *)
Theorem archived_student_leaves_report :
  forall (host : Report.Host) (env : Env) (i : Z) (s : Student.t)
         (department_id : option Z),
    find (fun r => Student.id r =? i) (students env) = Some s ->
    Report.department_report_html
      (snd (Students.action_delete_record [i] env)) department_id =
    Report.department_report_html
      (with_students (filter (fun r => negb (Student.id r =? i)) (students env)) env)
      department_id /\
    Report.department_report_html env department_id =
    Report.department_report_html
      (with_students (filter Student.active (students env)) env) department_id.
Proof.
  intros host env i s d F. split.
  - rewrite (action_delete_record_run i env s F). cbn [snd].
    apply department_report_html_active; [reflexivity|].
    apply filter_active_archived.
  - apply department_report_html_active; [reflexivity|].
    symmetry. apply filter_twice.
Qed.

Lemma archived_student_leaves_report_witness :
  Report.department_report_html (host := Fixture.host_ok)
    (snd (Students.action_delete_record [1] Fixture.env_spaced)) (Some 1)
  = Ok (empty_report_html "Computer Science", "Computer Science").
Proof.
  rewrite (proj1 (archived_student_leaves_report Fixture.host_ok
                    Fixture.env_spaced 1
                    (Fixture.student 1 "Ali" 20 1 500%float 437.5%float)
                    (Some 1) eq_refl)).
  vm_compute. reflexivity.
Defined.

(** *** The department report on well-formed data *)

Section Renders.
Context {host : Report.Host}.

Lemma format_string (r : Report.row) (col s : string) :
  Report.row_get r col = Some (Report.CStr s) ->
  String.eqb col "Percentage" = false ->
  Report._format_cell_value r col = Ok (if String.eqb s "" then "-" else s).
Proof.
  intros G P. unfold Report._format_cell_value. rewrite G, P.
  destruct s as [|c s]; [reflexivity|]. cbn [Report.isna Report.is_none
    Report.eq_empty orb String.eqb].
  destruct (existsb _ _); reflexivity.
Qed.

Lemma student_row_renders (env : Env) (s : Student.t) :
  printable env s ->
  exists r, Report.student_row env s = Ok r /\ renders r.
Proof.
  intros (R & A & T & O & P).
  assert (exists r, Report.student_row env s = Ok r) as [r E].
  { unfold Report.student_row, Report.lookup_name, rbind.
    destruct (Student.department_id s) as [i|]; [|eauto].
    destruct R as [d ->]. eauto. }
  exists r. split; [exact E|].
  destruct (student_row_cells env s r E A T O P) as (C1 & C2 & C3 & C4).
  unfold Report.student_row, rbind in E.
  destruct (Report.lookup_name _ _ _) as [department|e]; [|discriminate].
  intros col I.
  destruct I as [<-|[<-|[<-|[<-|[<-|[<-|[<-|[]]]]]]]]; eauto;
    injection E as <-; eexists; apply format_string; reflexivity.
Qed.

Lemma build_data_renders (env : Env) (l : list Student.t) :
  Forall (printable env) l ->
  exists df, Report.build_data env l = Ok df /\ Forall renders df.
Proof.
  induction 1 as [|s l P _ IH].
  - exists []. split; [reflexivity|constructor].
  - destruct (student_row_renders env s P) as (r & R & Q).
    destruct IH as (df & B & F).
    exists (r :: df). cbn [Report.build_data]. rewrite R, B.
    split; [reflexivity|now constructor].
Qed.

Lemma cells_html_ok (r : Report.row) (columns : list string) :
  (forall col, In col columns -> exists v, Report._format_cell_value r col = Ok v) ->
  forall html, exists h, Report.cells_html r columns html = Ok h.
Proof.
  induction columns as [|col columns IH]; intros H html.
  - eexists. reflexivity.
  - cbn [Report.cells_html]. destruct (H col (or_introl eq_refl)) as [v ->].
    cbn [rbind]. apply IH. intros c I. apply H. now right.
Qed.

Lemma rows_html_ok (group : Report.DataFrame) :
  Forall renders group ->
  forall html, exists h, Report.rows_html group html = Ok h.
Proof.
  induction 1 as [|r group R _ IH]; intros html.
  - eexists. reflexivity.
  - cbn [Report.rows_html].
    destruct (cells_html_ok r Report.STANDARD_COLUMNS R (html ++ "<tr>")) as [h ->].
    cbn [rbind]. apply IH.
Qed.

Lemma groups_html_ok (groups : list (string * Report.DataFrame)) :
  Forall (fun g => Forall renders (snd g)) groups ->
  forall st, exists st', Report.groups_html groups st = Ok st'.
Proof.
  induction 1 as [|[k g] groups G _ IH]; intros [html dn].
  - eexists. reflexivity.
  - cbn [Report.groups_html]. unfold Report.group_html.
    destruct g as [|r g].
    + cbn [rbind]. apply IH.
    + destruct (rows_html_ok (r :: g) G
                  (Report.header_cells Report.STANDARD_COLUMNS
                     ((html ++ "<div class='department-title'>Department: " ++
                       k ++ "</div>") ++ "<table class='student-table'><tr>")
                   ++ "</tr>")) as [h ->].
      cbn [rbind]. apply IH.
Qed.

Lemma groupby_renders (df : Report.DataFrame) :
  Forall renders df ->
  Forall (fun g => Forall renders (snd g)) (Report.groupby df).
Proof.
  intros F. unfold Report.groupby. apply Forall_map, Forall_forall.
  intros k _. cbn [snd]. apply Forall_forall. intros r I.
  apply filter_In in I as [I _]. rewrite Forall_forall in F. now apply F.
Qed.

End Renders.

(** X11: when every active student is well formed (the department
    reference resolves, the age fits a database integer, the marks and the
    percentage are finite), building the document of the department report
    can only fail in the resolution of the departments: with
    "No departments found." for all departments on an empty table, or on a
    selected department that does not exist.  In every other case the
    document is produced. *)
Theorem department_report_renders_well_formed_data :
  forall (host : Report.Host) (env : Env) (department_id : option Z),
    (forall s, In s (students env) -> Student.active s = true -> printable env s) ->
    (exists html dept_name,
        Report.department_report_html env department_id = Ok (html, dept_name)) \/
    (Report.arg_id department_id = None /\ departments env = [] /\
     Report.department_report_html env department_id =
     Raise (UserError "No departments found.")) \/
    (exists i, Report.arg_id department_id = Some i /\
               find (fun r => Lookup.id r =? i) (departments env) = None /\
               Report.department_report_html env department_id =
               Raise (MissingError "Record does not exist or has been deleted.")).
Proof.
  intros host env d W.
  assert (forall p, exists df,
             Report.build_data env
               (filter (fun s => Student.active s && p s) (students env)) = Ok df /\
             Forall renders df) as B.
  { intros p. apply build_data_renders, Forall_forall. intros s I.
    apply filter_In in I as [I A]. apply andb_prop in A as [A _]. now apply W. }
  unfold Report.department_report_html.
  destruct (Report.arg_id d) as [i|] eqn:A.
  - unfold Report.lookup_name.
    destruct (find (fun r => Lookup.id r =? i) (departments env)) as [dep|] eqn:F.
    + left. cbn [rbind].
      destruct (filter (fun d0 => Lookup.id d0 =? i) (departments env)) eqn:Q;
        [exfalso; exact (find_filter_nonempty _ _ _ F Q)|].
      destruct (String.eqb (Report.str_or (Lookup.name dep) "ALL") "ALL").
      * destruct (B (fun _ => true)) as (df & E & R).
        rewrite (filter_ext _ Student.active) in E
          by (intros s; apply andb_true_r).
        rewrite E. cbn [rbind]. destruct df as [|r df].
        -- eexists. eexists. reflexivity.
        -- destruct (groups_html_ok _ (groupby_renders _ R)
                       (Report.department_head (Report.str_or (Lookup.name dep) "ALL"),
                        Report.str_or (Lookup.name dep) "ALL")) as [[h0 l0] ->].
           eexists. eexists. reflexivity.
      * destruct (B (fun s => match Student.department_id s, d with
                              | Some d', Some i' => d' =? i'
                              | _, _ => false
                              end)) as (df & E & R).
        rewrite E. cbn [rbind]. destruct df as [|r df].
        -- eexists. eexists. reflexivity.
        -- destruct (groups_html_ok _ (groupby_renders _ R)
                       (Report.department_head (Report.str_or (Lookup.name dep) "ALL"),
                        Report.str_or (Lookup.name dep) "ALL")) as [[h0 l0] ->].
           eexists. eexists. reflexivity.
    + right. right. exists i. repeat split; auto.
  - cbn [rbind]. destruct (departments env) as [|dep deps] eqn:D.
    + right. left. repeat split; auto.
    + left. cbn [String.eqb Ascii.eqb Bool.eqb andb].
      destruct (B (fun _ => true)) as (df & E & R).
      rewrite (filter_ext _ Student.active) in E
        by (intros s; apply andb_true_r).
      rewrite E. cbn [rbind]. destruct df as [|r df].
      * eexists. eexists. reflexivity.
      * destruct (groups_html_ok _ (groupby_renders _ R)
                    (Report.department_head "ALL", "ALL")) as [[h0 l0] ->].
        eexists. eexists. reflexivity.
Qed.

Lemma department_report_renders_well_formed_data_witness :
  exists html dept_name,
    Report.department_report_html (host := Fixture.host_ok)
      Fixture.env_two_departments None = Ok (html, dept_name).
Proof.
  destruct (department_report_renders_well_formed_data Fixture.host_ok
              Fixture.env_two_departments None) as [H|[(_ & H & _)|(i & H & _)]].
  - intros s [<-|[<-|[]]] _; (split; [eexists; reflexivity|]);
      (split; [reflexivity|]); repeat split.
  - exact H.
  - discriminate H.
  - discriminate H.
Defined.

(** *** The groups of the department report *)

Section Groups.

Lemma compare_refl (a : string) : String.compare a a = Eq.
Proof.
  induction a as [|x a IH]; [reflexivity|]. simpl.
  unfold Ascii.compare. now rewrite N.compare_refl.
Qed.

Lemma str_lt_trans (a b c : string) : str_lt a b -> str_lt b c -> str_lt a c.
Proof.
  unfold str_lt. revert b c.
  induction a as [|x a IH]; intros [|y b] [|z c]; simpl; try congruence.
  unfold Ascii.compare.
  destruct (N.compare_spec (N_of_ascii x) (N_of_ascii y)) as [E1|L1|G1];
    destruct (N.compare_spec (N_of_ascii y) (N_of_ascii z)) as [E2|L2|G2];
    try congruence; intros H1 H2.
  - rewrite E1, E2, N.compare_refl. eauto.
  - rewrite E1. now apply N.compare_lt_iff in L2 as ->.
  - rewrite <- E2. now apply N.compare_lt_iff in L1 as ->.
  - assert (N_of_ascii x < N_of_ascii z)%N as L by lia.
    now apply N.compare_lt_iff in L as ->.
Qed.

Lemma str_lt_irrefl (a : string) : ~ str_lt a a.
Proof. unfold str_lt. rewrite compare_refl. discriminate. Qed.

Lemma str_gt_lt (a b : string) : String.compare a b = Gt -> str_lt b a.
Proof.
  unfold str_lt. rewrite (String.compare_antisym b a).
  intros ->. reflexivity.
Qed.

Lemma insert_key_hd (a k : string) (keys : list string) :
  str_lt a k -> HdRel str_lt a keys -> HdRel str_lt a (Report.insert_key k keys).
Proof.
  intros L H. destruct keys as [|h t]; simpl; [now constructor|].
  inversion H. subst. destruct (String.compare k h); now constructor.
Qed.

Lemma insert_key_sorted (k : string) (keys : list string) :
  Sorted str_lt keys -> Sorted str_lt (Report.insert_key k keys).
Proof.
  induction 1 as [|h t S IH H]; simpl; [repeat constructor|].
  destruct (String.compare k h) eqn:C.
  - now constructor.
  - constructor; [now constructor|]. now constructor.
  - constructor; [exact IH|]. apply insert_key_hd; [now apply str_gt_lt|exact H].
Qed.

Lemma group_keys_sorted (df : Report.DataFrame) :
  Sorted str_lt (Report.group_keys df).
Proof.
  unfold Report.group_keys.
  assert (forall acc, Sorted str_lt acc ->
            Sorted str_lt
              (fold_left (fun keys r => Report.insert_key (Report.department_of r) keys)
                         df acc)) as H.
  { induction df as [|r df IH]; intros acc S; [exact S|].
    simpl. apply IH. now apply insert_key_sorted. }
  apply H. constructor.
Qed.

Lemma sorted_nodup (keys : list string) :
  StronglySorted str_lt keys -> NoDup keys.
Proof.
  induction 1 as [|k keys S IH F]; constructor; [|exact IH].
  intros I. rewrite Forall_forall in F. exact (str_lt_irrefl k (F k I)).
Qed.

Lemma filter_disjoint {A} (p q : A -> bool) (l : list A) :
  (forall x, p x = true -> q x = false) ->
  Permutation (filter p l ++ filter q l) (filter (fun x => p x || q x) l).
Proof.
  intros D. induction l as [|a l IH]; [constructor|]. simpl.
  destruct (p a) eqn:P; simpl.
  - rewrite (D a P). simpl. now constructor.
  - destruct (q a); [|exact IH].
    apply Permutation_sym, Permutation_cons_app, Permutation_sym, IH.
Qed.

Lemma partition_by_key {A} (key : A -> string) (l : list A) (keys : list string) :
  NoDup keys ->
  Permutation
    (flat_map (fun k => filter (fun x => String.eqb (key x) k) l) keys)
    (filter (fun x => existsb (String.eqb (key x)) keys) l).
Proof.
  induction 1 as [|k keys N _ IH]; simpl.
  - induction l as [|a l IHl]; [constructor|exact IHl].
  - eapply Permutation_trans; [apply Permutation_app_head, IH|].
    apply filter_disjoint. intros x E. apply String.eqb_eq in E.
    destruct (existsb _ keys) eqn:X; [|reflexivity].
    apply existsb_exists in X as (k' & I & E'). apply String.eqb_eq in E'.
    congruence.
Qed.

End Groups.

(** X12: the groups of the department report come in strictly increasing
    order of department name (so no department has two tables); each group
    is not empty and holds the rows of its department in their original
    order; every row is in the group of its department; and the groups
    together hold the rows of the frame, no more and no fewer. *)
Theorem groupby_partitions_rows :
  forall df : Report.DataFrame,
    StronglySorted str_lt (map fst (Report.groupby df)) /\
    (forall k group,
        In (k, group) (Report.groupby df) ->
        group = filter (fun r => String.eqb (Report.department_of r) k) df /\
        group <> []) /\
    (forall r, In r df ->
               exists group, In (Report.department_of r, group) (Report.groupby df) /\
                             In r group) /\
    Permutation (List.concat (map snd (Report.groupby df))) df.
Proof.
  intros df.
  assert (map fst (Report.groupby df) = Report.group_keys df) as K.
  { unfold Report.groupby. rewrite map_map. apply map_id. }
  assert (StronglySorted str_lt (Report.group_keys df)) as S.
  { apply Sorted_StronglySorted; [exact str_lt_trans|apply group_keys_sorted]. }
  split; [now rewrite K|]. split; [|split].
  - intros k g I. now apply groupby_nonempty.
  - intros r I. eexists. split.
    + unfold Report.groupby. apply in_map_iff.
      exists (Report.department_of r). split; [reflexivity|].
      apply group_keys_in. eauto.
    + apply filter_In. split; [exact I|apply String.eqb_refl].
  - unfold Report.groupby. rewrite map_map. cbn [snd].
    rewrite <- flat_map_concat_map.
    eapply Permutation_trans;
      [apply (partition_by_key Report.department_of df), sorted_nodup, S|].
    rewrite (filter_ext_in _ (fun _ => true)).
    + clear. induction df as [|a l IH]; [constructor|]. simpl. constructor. exact IH.
    + intros r I. apply existsb_exists. exists (Report.department_of r).
      split; [|apply String.eqb_refl]. apply group_keys_in. eauto.
Qed.

(** *** The formatter off the beaten track *)

(** X13: the formatter raises [KeyError] for a column the row does not
    have; returns a non-empty string unchanged in every column other than
    [Percentage], and in [Percentage] too when it contains a percent sign;
    and for an infinite float it raises [OverflowError] in the [Age],
    [Total Marks] and [Obtained Marks] columns (the [except] clause only
    catches [ValueError] and [TypeError]) while it prints ["inf%"] or
    ["-inf%"] in the [Percentage] column. *)
Theorem format_cell_value_edges :
  forall (host : Report.Host) (r : Report.row) (column_name : string),
    (Report.row_get r column_name = None ->
     Report._format_cell_value r column_name = Raise (KeyError column_name)) /\
    (forall s : string,
        Report.row_get r column_name = Some (Report.CStr s) ->
        s <> "" ->
        column_name <> "Percentage" \/ contains_char "%" s = true ->
        Report._format_cell_value r column_name = Ok s) /\
    (forall f : float,
        Report.row_get r column_name = Some (Report.CFloat f) ->
        f = infinity \/ f = neg_infinity ->
        (In column_name ["Age"; "Total Marks"; "Obtained Marks"] ->
         Report._format_cell_value r column_name =
         Raise (OverflowError "cannot convert float infinity to integer")) /\
        (column_name = "Percentage" ->
         Report._format_cell_value r column_name =
         Ok (if PrimFloat.ltb f 0%float then "-inf%" else "inf%"))).
Proof.
  intros host r col. split; [|split].
  - intros G. unfold Report._format_cell_value. now rewrite G.
  - intros s G N C. unfold Report._format_cell_value. rewrite G.
    destruct s as [|ch s]; [congruence|].
    cbn [Report.isna Report.is_none Report.eq_empty orb].
    destruct (String.eqb col "Percentage") eqn:P.
    + destruct C as [C|C]; [apply String.eqb_eq in P; congruence|].
      rewrite C. reflexivity.
    + destruct (existsb _ _); reflexivity.
  - intros f G I. unfold Report._format_cell_value. rewrite G. split.
    + intros C.
      destruct I as [-> | ->];
        destruct C as [<-|[<-|[<-|[]]]]; vm_compute; reflexivity.
    + intros ->. destruct I as [-> | ->]; vm_compute; reflexivity.
Qed.

Lemma format_cell_value_edges_witness :
  Report._format_cell_value (host := Fixture.host_ok)
    [("Name", Report.CStr "<b>Ali</b>")] "Name" = Ok "<b>Ali</b>".
Proof.
  apply (proj1 (proj2 (format_cell_value_edges Fixture.host_ok
                         [("Name", Report.CStr "<b>Ali</b>")] "Name"))).
  - reflexivity.
  - discriminate.
  - left. discriminate.
Defined.

(** A student with infinite total marks makes the whole department report
    raise [OverflowError]; the wizard turns it into a [UserError]. *)
Example infinite_marks_break_the_report :
  let env :=
    with_students
      [Fixture.student 1 "Ali" 20 1 infinity 437.5%float] Fixture.env_spaced in
  Report.print_department_report (host := Fixture.host_ok) (Some 1) env
  = (Raise (OverflowError "cannot convert float infinity to integer"), env) /\
  ReportWizard.action_generate_report (host := Fixture.host_ok)
    [ReportWizard.change_report_type "department" opened_wizard] env
  = (Raise (UserError ("Error generating department report:" ++ newline ++
                       "cannot convert float infinity to integer")), env).
Proof. cbv zeta. split; vm_compute; reflexivity. Qed.

(** *** The single student report *)

Section SingleReport.
Context {host : Report.Host}.

Lemma plain_cells_ok (r : Report.row) (columns : list string) :
  (forall col, In col columns -> Report.row_get r col <> None) ->
  forall html, exists h, Report.plain_cells r columns html = Ok h.
Proof.
  induction columns as [|col columns IH]; intros H html.
  - eexists. reflexivity.
  - cbn [Report.plain_cells].
    destruct (Report.row_get r col) as [v|] eqn:G;
      [|exfalso; exact (H col (or_introl eq_refl) G)].
    apply IH. intros c I. apply H. now right.
Qed.

Lemma plain_rows_ok (columns : list string) (df : Report.DataFrame) :
  Forall (fun r => forall col, In col columns -> Report.row_get r col <> None) df ->
  forall html, exists h, Report.plain_rows columns df html = Ok h.
Proof.
  induction 1 as [|r df R _ IH]; intros html.
  - eexists. reflexivity.
  - cbn [Report.plain_rows].
    destruct (plain_cells_ok r columns R (html ++ "<tr>")) as [h ->].
    cbn [rbind]. apply IH.
Qed.

Lemma section_table_ok columns df message html :
  Forall (fun r => forall col, In col columns -> Report.row_get r col <> None) df ->
  exists h, Report.section_table columns df message html = Ok h.
Proof.
  intros F. unfold Report.section_table. destruct df as [|r df].
  - eexists. reflexivity.
  - destruct (plain_rows_ok columns (r :: df) F
                (Report.header_cells columns
                   ((html ++ "<table class='data-table'>") ++ "<tr>") ++ "</tr>"))
      as [h ->].
    eexists. reflexivity.
Qed.

Lemma select_columns_get data columns col :
  In col columns -> Report.row_get (Report.select_columns data columns) col <> None.
Proof.
  unfold Report.select_columns.
  induction columns as [|c columns IH]; intros I; [destruct I|].
  simpl. destruct (String.eqb c col) eqn:E; [discriminate|].
  destruct I as [->|I]; [now rewrite String.eqb_refl in E|auto].
Qed.

Lemma lookup_name_ok table ref d :
  resolves table ref -> exists n, Report.lookup_name table ref d = Ok n.
Proof.
  unfold resolves, Report.lookup_name. destruct ref as [i|]; [|eauto].
  intros [r ->]. eauto.
Qed.

Lemma lookup_name_raise table ref d e :
  Report.lookup_name table ref d = Raise e -> exists msg, e = MissingError msg.
Proof.
  unfold Report.lookup_name. destruct ref as [i|]; [|discriminate].
  destruct (find _ table); [discriminate|]. intros H. inversion H. eauto.
Qed.

Lemma education_data_ok env edus :
  Forall (fun edu => resolves (institutes env) (Education.institute edu) /\
                     resolves (degrees env) (Education.degree edu)) edus ->
  exists df,
    Report.education_data env edus = Ok df /\
    Forall (fun r => forall col, In col Report.EDUCATION_COLUMNS ->
                                 Report.row_get r col <> None) df.
Proof.
  induction 1 as [|edu edus [I D] _ (df & E & F)].
  - exists []. split; [reflexivity|constructor].
  - destruct (lookup_name_ok _ _ "-" I) as [ni Hi].
    destruct (lookup_name_ok _ _ "-" D) as [nd Hd].
    eexists. cbn [Report.education_data]. unfold Report.education_row.
    rewrite Hi, Hd, E. cbn [rbind]. split; [reflexivity|].
    constructor; [|exact F].
    intros col [<-|[<-|[<-|[]]]]; discriminate.
Qed.

End SingleReport.

(** X14: the single student report is produced for every student whose
    department reference is unset or resolves and whose education rows point
    at existing institutes and degrees, whatever else is missing (name,
    father's name, age, gender, grade, marks); when building the document
    fails, the exception is a [MissingError] of a dangling reference. *)
Theorem single_student_report_tolerates_missing_data :
  forall (host : Report.Host) (env : Env) (s : Student.t),
    (resolves (departments env) (Student.department_id s) ->
     Forall (fun edu => resolves (institutes env) (Education.institute edu) /\
                        resolves (degrees env) (Education.degree edu))
            (Report.about_education env s) ->
     exists html, Report.single_student_html env s = Ok html) /\
    (forall e, Report.single_student_html env s = Raise e ->
               exists msg, e = MissingError msg).
Proof.
  intros host env s.
  assert (forall data html,
            exists h1,
              Report.section_table Report.PERSONAL_INFO_COLUMNS
                [Report.select_columns data Report.PERSONAL_INFO_COLUMNS]
                "No personal information available" html = Ok h1) as P.
  { intros. apply section_table_ok. constructor; [|constructor].
    intros col. apply select_columns_get. }
  assert (forall data html,
            exists h1,
              Report.section_table Report.ACADEMIC_INFO_COLUMNS
                [Report.select_columns data Report.ACADEMIC_INFO_COLUMNS]
                "No academic information available" html = Ok h1) as A.
  { intros. apply section_table_ok. constructor; [|constructor].
    intros col. apply select_columns_get. }
  split.
  - intros R E. unfold Report.single_student_html.
    assert (exists data, Report.all_personal_data env s = Ok data) as [data ->].
    { unfold Report.all_personal_data.
      destruct (lookup_name_ok _ _ "-" R) as [n ->]. eexists. reflexivity. }
    cbn [rbind].
    destruct (education_data_ok env _ E) as (df & -> & F). cbn [rbind].
    destruct (P data (Report.student_head
                        (Report.str_or (Student.name s) "Unknown Student")))
      as [h1 ->]. cbn [rbind].
    destruct (A data (h1 ++ "<h2 class='section-title'>Academic Performance</h2>"))
      as [h2 ->]. cbn [rbind].
    destruct (section_table_ok Report.EDUCATION_COLUMNS df
                "No education history available"
                (h2 ++ "<h2 class='section-title'>Education History</h2>") F)
      as [h3 ->].
    eexists. reflexivity.
  - intros e H. unfold Report.single_student_html in H.
    destruct (Report.all_personal_data env s) as [data|e0] eqn:D.
    + cbn [rbind] in H.
      destruct (Report.education_data env (Report.about_education env s))
        as [df|e1] eqn:E.
      * cbn [rbind] in H.
        destruct (P data (Report.student_head
                            (Report.str_or (Student.name s) "Unknown Student")))
          as [h1 P1]. rewrite P1 in H. cbn [rbind] in H.
        destruct (A data (h1 ++ "<h2 class='section-title'>Academic Performance</h2>"))
          as [h2 A1]. rewrite A1 in H. cbn [rbind] in H.
        assert (Forall (fun r => forall col, In col Report.EDUCATION_COLUMNS ->
                                             Report.row_get r col <> None) df) as F.
        { clear - E. revert df E.
          induction (Report.about_education env s) as [|edu edus IH]; intros df E.
          - inversion E. constructor.
          - cbn [Report.education_data] in E. unfold Report.education_row, rbind in E.
            destruct (Report.lookup_name (institutes env) _ _); [|discriminate].
            destruct (Report.lookup_name (degrees env) _ _); [|discriminate].
            destruct (Report.education_data env edus) as [rs|]; [|discriminate].
            inversion E. constructor; [|now apply IH].
            intros col [<-|[<-|[<-|[]]]]; discriminate. }
        destruct (section_table_ok Report.EDUCATION_COLUMNS df
                    "No education history available"
                    (h2 ++ "<h2 class='section-title'>Education History</h2>") F)
          as [h3 S3]. rewrite S3 in H. discriminate H.
      * cbn [rbind] in H. inversion H. subst e1. clear - E.
        revert E. generalize (Report.about_education env s) as edus.
        induction edus as [|edu edus IH]; intros E; [discriminate|].
        cbn [Report.education_data] in E. unfold Report.education_row, rbind in E.
        destruct (Report.lookup_name (institutes env) _ _) eqn:L1;
          [|inversion E; subst; eapply lookup_name_raise, L1].
        destruct (Report.lookup_name (degrees env) _ _) eqn:L2;
          [|inversion E; subst; eapply lookup_name_raise, L2].
        destruct (Report.education_data env edus) as [rs|e1]; [discriminate|].
        inversion E. subst. now apply IH.
    + cbn [rbind] in H. inversion H. subst e0.
      unfold Report.all_personal_data, rbind in D.
      destruct (Report.lookup_name _ _ _) eqn:L; [discriminate|].
      inversion D. subst. eapply lookup_name_raise, L.
Qed.

Lemma single_student_report_tolerates_missing_data_witness :
  exists html,
    Report.single_student_html (host := Fixture.host_ok) Fixture.empty_env
      (Students.blank 7) = Ok html.
Proof.
  apply (proj1 (single_student_report_tolerates_missing_data Fixture.host_ok
                  Fixture.empty_env (Students.blank 7))).
  - exact I.
  - constructor.
Defined.

(** X15: for a student without (active) education rows the document of the
    single report ends with the Education History table made of its header
    row and the one placeholder row spanning the three columns, "No
    education history available". *)
Theorem no_education_placeholder :
  forall (host : Report.Host) (env : Env) (s : Student.t) (html : string),
    Report.about_education env s = [] ->
    Report.single_student_html env s = Ok html ->
    exists before, html = before ++ no_education_tail.
Proof.
  intros host env s html E H. unfold Report.single_student_html in H.
  rewrite E in H. unfold rbind in H.
  destruct (Report.all_personal_data env s) as [data|]; [|discriminate].
  cbn [Report.education_data] in H.
  destruct (Report.section_table Report.PERSONAL_INFO_COLUMNS _ _ _) as [h1|];
    [|discriminate].
  destruct (Report.section_table Report.ACADEMIC_INFO_COLUMNS _ _ _) as [h2|];
    [|discriminate].
  unfold Report.section_table in H.
  cbn [rbind Report.header_cells Report.EDUCATION_COLUMNS fold_left] in H.
  inversion H. exists h2. rewrite !append_assoc. reflexivity.
Qed.

Lemma no_education_placeholder_witness :
  exists html before,
    Report.single_student_html (host := Fixture.host_ok) Fixture.env_spaced
      (Fixture.student 1 "Ali" 20 1 500%float 437.5%float) = Ok html /\
    html = before ++ no_education_tail.
Proof.
  destruct (Report.single_student_html (host := Fixture.host_ok) Fixture.env_spaced
              (Fixture.student 1 "Ali" 20 1 500%float 437.5%float))
    as [html|e] eqn:H; [|vm_compute in H; discriminate H].
  destruct (no_education_placeholder Fixture.host_ok Fixture.env_spaced
              (Fixture.student 1 "Ali" 20 1 500%float 437.5%float) html
              eq_refl H) as [before B].
  exists html, before. split; [reflexivity|exact B].
Defined.

(** X16: a single student report that succeeds adds exactly one attachment,
    named after the student ([Student_Report.pdf] when the name is blank),
    linked to that student's id in model [student], with an id above every
    existing attachment id, and returns its download URL; the rest of the
    database is unchanged. *)
Theorem single_student_report_attachment :
  forall (host : Report.Host) (env env' : Env) (i : Z) (s : Student.t)
         (a : action),
    find (fun r => Student.id r =? i) (students env) = Some s ->
    Report.generate_single_student_report i env = (Ok a, env') ->
    exists att : Attachment.t,
      env' = with_attachments (attachments env ++ [att]) env /\
      Attachment.name att =
        (if String.eqb (Student.name s) "" then "Student" else Student.name s)
        ++ "_Report.pdf" /\
      Attachment.res_id att = i /\
      Attachment.res_model att = "student" /\
      Attachment.mimetype att = "application/pdf" /\
      (forall b, In b (attachments env) -> Attachment.id b < Attachment.id att) /\
      a = act_url ("/web/content/" ++ str_int (Attachment.id att) ++
                   "?download=true") "self".
Proof.
  intros host env env' i s a F H.
  rewrite generate_single_student_report_run, F in H.
  destruct (Report.single_student_html env s) as [html|]; [|discriminate].
  destruct (Report.create_pdf html) as [pdf|]; [|discriminate].
  inversion H. subst.
  exists (student_attachment env s pdf).
  split; [reflexivity|]. split.
  { unfold student_attachment. cbn [Attachment.name].
    destruct (Student.name s); reflexivity. }
  split.
  { apply find_some in F. apply Z.eqb_eq. apply F. }
  repeat split.
  intros b I. unfold student_attachment. cbn [Attachment.id].
  now apply fresh_id_above.
Qed.

Lemma single_student_report_attachment_witness :
  exists att : Attachment.t,
    snd (Report.generate_single_student_report (host := Fixture.host_ok) 1
           Fixture.env_spaced)
    = with_attachments (attachments Fixture.env_spaced ++ [att])
        Fixture.env_spaced /\
    Attachment.name att = "Ali_Report.pdf" /\
    Attachment.res_id att = 1.
Proof.
  destruct (single_student_report_attachment Fixture.host_ok Fixture.env_spaced
              (snd (Report.generate_single_student_report
                      (host := Fixture.host_ok) 1 Fixture.env_spaced))
              1 (Fixture.student 1 "Ali" 20 1 500%float 437.5%float)
              (act_url "/web/content/1?download=true" "self"))
    as (att & E & Nm & R & _).
  - reflexivity.
  - vm_compute. reflexivity.
  - exists att. split; [exact E|]. split; [exact Nm|exact R].
Defined.

(** *** Seeding: what is added, and where *)

Section SeedingOrder.

Local Open Scope list_scope.

Lemma existsb_count name rows :
  existsb (fun r => String.eqb (Lookup.name r) name) rows =
  negb (count_name name rows =? 0)%nat.
Proof.
  unfold count_name. induction rows as [|r rows IH]; [reflexivity|].
  simpl. destruct (String.eqb (Lookup.name r) name); [reflexivity|exact IH].
Qed.

Lemma missing_names_create names rows n :
  ~ In n names ->
  missing_names names (Seed.create rows n) = missing_names names rows.
Proof.
  intros N. unfold missing_names. apply filter_ext_in. intros name I.
  unfold Seed.create. rewrite existsb_app. simpl.
  destruct (String.eqb n name) eqn:E; [|now rewrite !orb_false_r].
  apply String.eqb_eq in E. subst. contradiction.
Qed.

(** The table after the loop is the table before it followed by one new
    row for each missing name, in the order of the list. *)
Lemma init_loop_appends names : forall rows log,
  NoDup names ->
  exists added,
    fst (fold_left Seed.init_step names (rows, log)) = rows ++ added /\
    map Lookup.name added = missing_names names rows.
Proof.
  induction names as [|n names IH]; intros rows log D.
  - exists []. split; [simpl; now rewrite app_nil_r|reflexivity].
  - inversion D as [|? ? N D']. subst.
    cbn [fold_left]. rewrite init_step_run.
    unfold missing_names. cbn [filter]. rewrite existsb_count.
    destruct (count_name n rows =? 0)%nat; cbn [negb].
    + destruct (IH (Seed.create rows n)
                   (log ++ [Seed.Searched n; Seed.Created n]) D')
        as (added & E & M).
      rewrite (missing_names_create names rows n N) in M.
      eexists. split.
      * rewrite E. unfold Seed.create. rewrite <- app_assoc. reflexivity.
      * simpl. now rewrite M.
    + apply IH, D'.
Qed.

End SeedingOrder.

(** X17: a run of the initialisation keeps every existing row of the three
    lookup tables in place and appends, after them, one row for each
    canonical name the table did not have, in the order of the canonical
    list; the other tables of the database are not touched. *)
Theorem seeding_appends_missing_names :
  forall env : Env,
    exists added_departments added_institutes added_degrees : list Lookup.t,
      snd (init_all env) =
      with_degrees (degrees env ++ added_degrees)
        (with_institutes (institutes env ++ added_institutes)
           (with_departments (departments env ++ added_departments) env)) /\
      map Lookup.name added_departments =
        missing_names Seed.department_names (departments env) /\
      map Lookup.name added_institutes =
        missing_names Seed.institute_names (institutes env) /\
      map Lookup.name added_degrees =
        missing_names Seed.degree_names (degrees env).
Proof.
  intros env.
  assert (NoDup Seed.department_names) as Dd
      by (repeat constructor; simpl; intuition discriminate).
  assert (NoDup Seed.institute_names) as Di
      by (repeat constructor; simpl; intuition discriminate).
  assert (NoDup Seed.degree_names) as Dg
      by (repeat constructor; simpl; intuition discriminate).
  destruct (init_loop_appends _ (departments env) [] Dd) as (ad & Ed & Md).
  destruct (init_loop_appends _ (institutes env) [] Di) as (ai & Ei & Mi).
  destruct (init_loop_appends _ (degrees env) [] Dg) as (ag & Eg & Mg).
  exists ad, ai, ag. split; [|auto].
  unfold init_all, Department.init, Institute.init, Degree.init. unfold_m.
  cbn [snd fst]. unfold Seed.init_loop.
  cbn [degrees institutes departments with_institutes with_departments].
  now rewrite Ed, Ei, Eg.
Qed.

(** A table that only has BSCS gets the five other departments, in the
    order of the canonical list. *)
Example seeding_fills_the_gaps :
  map Lookup.name
      (departments
         (snd (init_all (with_departments
                           [{| Lookup.id := 9; Lookup.name := "BSCS" |}]
                           Fixture.empty_env))))
  = ["BSCS"; "MATH"; "PHYSICS"; "BBA"; "COMMERCE"; "ALL"].
Proof. reflexivity. Qed.

(** *** A department named ALL *)

(** X18: the label "ALL" doubles as the switch for fetching every student,
    so a report asked for one department whose name is "ALL" (the seeding
    creates one) or is empty is, document and label, the report over all
    departments. *)
Theorem department_named_all_reports_everyone :
  forall (host : Report.Host) (env : Env) (i : Z) (d : Lookup.t),
    i <> 0 ->
    find (fun r => Lookup.id r =? i) (departments env) = Some d ->
    Lookup.name d = "ALL" \/ Lookup.name d = "" ->
    Report.department_report_html env (Some i) =
    Report.department_report_html env None /\
    Report.print_department_report (Some i) env =
    Report.print_department_report None env.
Proof.
  intros host env i d N F A.
  assert (Report.department_report_html env (Some i) =
          Report.department_report_html env None) as E.
  { unfold Report.department_report_html.
    assert (Report.arg_id (Some i) = Some i) as ->
        by (destruct i; [congruence|reflexivity|reflexivity]).
    unfold Report.lookup_name. rewrite F. cbn [rbind Report.arg_id].
    assert (Report.str_or (Lookup.name d) "ALL" = "ALL") as ->
        by (destruct A as [-> | ->]; reflexivity).
    destruct (filter (fun d0 => Lookup.id d0 =? i) (departments env)) eqn:Q;
      [exfalso; exact (find_filter_nonempty _ _ _ F Q)|].
    destruct (departments env) eqn:D; [discriminate F|].
    reflexivity. }
  split; [exact E|].
  now rewrite !print_department_report_run, E.
Qed.

Lemma department_named_all_reports_everyone_witness :
  Report.department_report_html (host := Fixture.host_ok)
    (snd (init_all Fixture.env_two_departments)) (Some 6) =
  Report.department_report_html (host := Fixture.host_ok)
    (snd (init_all Fixture.env_two_departments)) None.
Proof.
  apply (proj1 (department_named_all_reports_everyone Fixture.host_ok
                  (snd (init_all Fixture.env_two_departments)) 6
                  {| Lookup.id := 6; Lookup.name := "ALL" |}
                  ltac:(discriminate) eq_refl (or_introl eq_refl))).
Defined.
